(** * Input conditioning of the stereo odometry nodelet

    A shallow embedding of [src/nodelets/stereo_odometry.cpp]
    (class [rtabmap_ros::StereoOdometry]): the two message callbacks
    [callback] (four synchronized streams) and [callbackRGBD] (one pre-paired
    composite message), and [flushCallbacks].

    The callbacks are imperative: they consult the TF tree, write log lines,
    read and set function-local [static] flags, leave early with [return;]
    and finally hand a frame to [processData].  They are embedded in a small
    monad that threads the function's static flags, accumulates the trace of
    observable events and supports the early [return;]. *)

From Stdlib Require Import ZArith List String Bool Floats Lia.
From stdpp Require gmap strings.
Import ListNotations.

Local Open Scope string_scope.
Local Open Scope bool_scope.
Local Open Scope list_scope.

(** ** Data as the nodelet sees it *)

(** [ros::Time]: seconds and nanoseconds, both unsigned 32-bit. *)
Record Time := mkTime { sec : Z; nsec : Z }.

(** [ros::Time::operator>]: seconds first, then nanoseconds. *)
Definition Time_gt (a b : Time) : bool :=
  if (sec a >? sec b)%Z then true
  else if (sec a =? sec b)%Z && (nsec a >? nsec b)%Z then true
  else false.

(** Nanoseconds since the epoch ([ros::Time::toNSec]). *)
Definition toNSec (t : Time) : Z := (sec t * 1000000000 + nsec t)%Z.

(** A normalized [ros::Time] keeps its nanoseconds below one second. *)
Definition Time_valid (t : Time) : Prop :=
  (0 <= sec t /\ 0 <= nsec t < 1000000000)%Z.

(** [std_msgs::Header].  Kept in a module: the callbacks have a local
    variable called [stamp] as well. *)
Module Header.
Record t := mk { stamp : Time; frame_id : string }.
End Header.

(** Pixel storage: the bytes of [sensor_msgs::Image::data], or of a
    [cv::Mat]. *)
Definition Mat := list N.

Definition Mat_empty (m : Mat) : bool :=
  match m with [] => true | _ :: _ => false end.

(** [sensor_msgs::Image]; the nodelet reads its header, its encoding tag and
    the size of its data. *)
Record Image := mkImage {
  header : Header.t;
  encoding : string;
  data : Mat
}.

(** [cv_bridge::CvImage].  Kept in a module: the composite callback has an
    argument called [image] as well. *)
Module CvImage.
Record t := mk {
  header : Header.t;
  encoding : string;
  image : Mat
}.
End CvImage.

(** [sensor_msgs::CameraInfo]: header, image size and the projection matrix
    [P] (row major, 3x4). *)
Record CameraInfo := mkCameraInfo {
  info_header : Header.t;
  width : Z;
  height : Z;
  P : list float
}.

(** [rtabmap_ros::RGBDImage]: the composite message of the second entry
    point; [rgb] is the left image and [depth] the right one. *)
Record RGBDImage := mkRGBDImage {
  rgbd_header : Header.t;
  rgb_camera_info : CameraInfo;
  depth_camera_info : CameraInfo;
  rgb : Image;
  depth : Image
}.

(** [rtabmap::Transform] belongs to the rtabmap core library.  The nodelet
    observes a transform through [isNull()], [isIdentity()] and [x()] only;
    [x()] is a 32-bit float that C++ promotes to [double] wherever this file
    uses it, so it is kept as the promoted binary64 value. *)
Record Transform := mkTransform {
  isNull : bool;
  isIdentity : bool;
  x : float
}.

(** [rtabmap::Transform()]: the default-constructed, null transform. *)
Definition Transform_default : Transform := mkTransform true false 0%float.

(** [rtabmap::StereoCameraModel], read through [left().fx()], [left().fy()],
    [left().cx()], [left().cy()], [baseline()], [localTransform()] and
    [left().imageSize()].  The class belongs to the rtabmap core library;
    here a model is the tuple of what those accessors return, and the
    seven-argument constructor used by the fallback builds the model with
    the values it is given (how the library stores a baseline internally is
    not this file's concern).  Kept in a module: the callbacks have a local
    variable called [localTransform] as well. *)
Module StereoCameraModel.
Record t := mk {
  left_fx : float;
  left_fy : float;
  left_cx : float;
  left_cy : float;
  baseline : float;
  localTransform : Transform;
  left_imageSize : Z * Z
}.
End StereoCameraModel.

(** [rtabmap::SensorData] as built by the callbacks: left image, right
    image, stereo model, id and time stamp. *)
Record SensorData := mkSensorData {
  imageRaw : Mat;
  rightRaw : Mat;
  stereoCameraModel : StereoCameraModel.t;
  id : Z;
  data_stamp : float
}.

(** ** Encodings ([sensor_msgs::image_encodings]) *)

Definition TYPE_8UC1 : string := "8UC1".
Definition MONO8 : string := "mono8".
Definition MONO16 : string := "mono16".
Definition BGR8 : string := "bgr8".
Definition RGB8 : string := "rgb8".
Definition BGRA8 : string := "bgra8".
Definition RGBA8 : string := "rgba8".

(** The accepted set, in the order of the test at lines 171-177 (and again
    178-184, 321-327, 328-334). *)
Definition acceptedEncoding (e : string) : bool :=
  (e =? TYPE_8UC1) || (e =? MONO8) || (e =? MONO16) || (e =? BGR8) ||
  (e =? RGB8) || (e =? BGRA8) || (e =? RGBA8).

(** ** Observable events *)

(** The log lines of the two callbacks, named after the failure taxonomy. *)
Inductive Diagnostic :=
| UnsupportedEncoding (left right : string)
    (* NODELET_ERROR "Input type must be image=mono8,mono16,..." *)
| MissingCalibrationTransform
    (* NODELET_ERROR "... we cannot get TF between the two cameras!" *)
| DegenerateCalibrationTransform
    (* NODELET_ERROR "... Identity transform returned between ..." *)
| InvalidBaseline (b : float)
    (* NODELET_ERROR "The stereo baseline (%f) should be positive ..." *)
| FallbackBaseline (tx : float)
    (* ROS_WARN "Right camera info doesn't have Tx set ..." *)
| LargeBaseline (b : float)
    (* NODELET_WARN "Detected baseline (%f m) is quite large! ..." *)
| EmptyImage.
    (* NODELET_WARN "Odom: input images empty?!?" *)

Inductive Severity := Error | Warn.

Inductive Event :=
| CallbackCalled                                        (* callbackCalled() *)
| TfLookup (target source : string) (at_time : Time)    (* getTransform(target, source, stamp) *)
| Log (s : Severity) (d : Diagnostic)
| ProcessData (d : SensorData) (h : Header.t).           (* this->processData(data, header) *)

Definition isDispatch (e : Event) : bool :=
  match e with ProcessData _ _ => true | _ => false end.

Definition isLog (e : Event) : bool :=
  match e with Log _ _ => true | _ => false end.

Definition isFallbackWarning (e : Event) : bool :=
  match e with Log Warn (FallbackBaseline _) => true | _ => false end.

Definition isLargeBaselineWarning (e : Event) : bool :=
  match e with Log Warn (LargeBaseline _) => true | _ => false end.

Definition isEmptyImageWarning (e : Event) : bool :=
  match e with Log Warn EmptyImage => true | _ => false end.

Definition isError (e : Event) : bool :=
  match e with Log Error _ => true | _ => false end.

Definition isLookup (e : Event) : bool :=
  match e with TfLookup _ _ _ => true | _ => false end.

(** The frames handed to the estimator, and the log lines, of a trace. *)
Definition dispatched (t : list Event) : list Event := filter isDispatch t.
Definition diagnostics (t : list Event) : list Event := filter isLog t.

(** ** The callback monad *)

(** The two function-local [static bool] flags of one callback. *)
Record Statics := mkStatics { warned : bool; shown : bool }.

(** As C++ initializes them. *)
Definition Statics_init : Statics := mkStatics false false.

(** A statement either falls through with a value or leaves the callback. *)
Inductive Outcome (A : Type) :=
| Next (a : A)
| Returned.
Arguments Next {A} a.
Arguments Returned {A}.

Definition M (A : Type) : Type := Statics -> Outcome A * Statics * list Event.

Definition ret {A} (a : A) : M A := fun s => (Next a, s, []).

Definition bind {A B} (m : M A) (k : A -> M B) : M B :=
  fun s =>
    match m s with
    | (Next a, s1, t1) =>
        match k a s1 with
        | (o, s2, t2) => (o, s2, t1 ++ t2)
        end
    | (Returned, s1, t1) => (Returned, s1, t1)
    end.

Declare Scope callback_scope.
Delimit Scope callback_scope with callback.
Notation "v <- c1 ;; c2" := (bind c1 (fun v => c2))
  (at level 100, c1 at next level, right associativity) : callback_scope.
Notation "c1 ;; c2" := (bind c1 (fun _ => c2))
  (at level 100, right associativity) : callback_scope.

Definition emit (e : Event) : M unit := fun s => (Next tt, s, [e]).

(** [return;] *)
Definition leave {A} : M A := fun s => (Returned, s, []).

Definition skip : M unit := ret tt.

Definition get_warned : M bool := fun s => (Next (warned s), s, []).
Definition set_warned (b : bool) : M unit :=
  fun s => (Next tt, mkStatics b (shown s), []).
Definition get_shown : M bool := fun s => (Next (shown s), s, []).
Definition set_shown (b : bool) : M unit :=
  fun s => (Next tt, mkStatics (warned s) b, []).

(** One activation of a callback from the flags [s]: the flags it leaves and
    the events it produced, in order. *)
Definition exec {A} (m : M A) (s : Statics) : Statics * list Event :=
  match m s with (_, s', t) => (s', t) end.

(** ** The node and its collaborators *)

(** What a callback reads from the nodelet instance and from the world when
    it runs: the pause gate ([isPaused()]), the odometry frame ([frameId()]),
    the [keep_color] option, the value of [Rtabmap/ImagesAlreadyRectified]
    in [parameters()] when the key is present, and the TF tree as
    [getTransform] answers from it (a null transform when it has none). *)
Record Node := mkNode {
  isPaused : bool;
  frameId : string;
  keepColor_ : bool;
  RtabmapImagesAlreadyRectified : option bool;
  tf : string -> string -> Time -> Transform
}.

(** [Parameters::parse(parameters(), key, value)] leaves [value] alone when
    the key is absent. *)
Definition Parameters_parse (p : option bool) (value : bool) : bool :=
  match p with Some b => b | None => value end.

(** Functions the callbacks call that live outside this file: the message
    conversions of [rtabmap_ros/MsgConversion.h] and the pixel conversion
    behind cv_bridge.  They are pure; the nodelet's behaviour is stated for
    every choice of them. *)
Class Collaborators := {
  (** [rtabmap_ros::stereoCameraModelFromROS(left, right, localTransform, stereoTransform)] *)
  stereoCameraModelFromROS :
    CameraInfo -> CameraInfo -> Transform -> Transform -> StereoCameraModel.t;
  (** the default of its fourth argument, used by the three-argument call *)
  stereoTransform_default : Transform;
  (** [rtabmap_ros::timestampFromROS(stamp)] *)
  timestampFromROS : Time -> float;
  (** [rtabmap_ros::toCvShare(image, left, right)] *)
  toCvShare : RGBDImage -> CvImage.t * CvImage.t;
  (** OpenCV's conversion of pixels from one encoding to another *)
  cvtPixels : string -> string -> Mat -> Mat
}.

Section WithCollaborators.
Context {C : Collaborators}.

(** [OdometryROS::getTransform(target, source, stamp)]: the answer of the
    TF tree; the call is recorded in the trace.  What the base class logs
    about a failed lookup is its own business. *)
Definition getTransform (n : Node) (target source : string) (t : Time)
  : M Transform :=
  (emit (TfLookup target source t) ;;
   ret (tf n target source t))%callback.

(** [cv_bridge::toCvCopy(source, encoding)]: an empty target encoding, or the
    source's own, copies the image as it is; any other converts the pixels
    and tags the result with the target. *)
Definition toCvCopy (source : Image) (target : string) : CvImage.t :=
  if (target =? "") || (target =? encoding source)
  then CvImage.mk (header source) (encoding source) (data source)
  else CvImage.mk (header source) target
         (cvtPixels (encoding source) target (data source)).

(** [cv_bridge::cvtColor(source, encoding)]: the same on a [CvImage]. *)
Definition cvtColor (source : CvImage.t) (target : string) : CvImage.t :=
  if (target =? "") || (target =? CvImage.encoding source)
  then source
  else CvImage.mk (CvImage.header source) target
         (cvtPixels (CvImage.encoding source) target (CvImage.image source)).

(** ** Encoding normalization *)

(** Lines 282-285: the left image of the four-stream path. *)
Definition ptrImageLeft_callback (keepColor : bool) (imageRectLeft : Image)
  : CvImage.t :=
  toCvCopy imageRectLeft
    (if (encoding imageRectLeft =? TYPE_8UC1) ||
        (encoding imageRectLeft =? MONO8) then ""
     else if keepColor && negb (encoding imageRectLeft =? MONO16) then "bgr8"
     else "mono8").

(** Lines 286-288: the right image of the four-stream path. *)
Definition ptrImageRight_callback (imageRectRight : Image) : CvImage.t :=
  toCvCopy imageRectRight
    (if (encoding imageRectRight =? TYPE_8UC1) ||
        (encoding imageRectRight =? MONO8) then ""
     else "mono8").

(** Lines 422-434: the left image of the composite path. *)
Definition ptrImageLeft_callbackRGBD (keepColor : bool)
  (imageRectLeft : CvImage.t) : CvImage.t :=
  if negb (CvImage.encoding imageRectLeft =? TYPE_8UC1) &&
     negb (CvImage.encoding imageRectLeft =? MONO8)
  then
    if keepColor && negb (CvImage.encoding imageRectLeft =? MONO16)
    then cvtColor imageRectLeft "bgr8"
    else cvtColor imageRectLeft "mono8"
  else imageRectLeft.

(** Lines 435-440: the right image of the composite path.  The test reads
    the encoding of [imageRectLeft], as the source does. *)
Definition ptrImageRight_callbackRGBD (imageRectLeft imageRectRight : CvImage.t)
  : CvImage.t :=
  if negb (CvImage.encoding imageRectLeft =? TYPE_8UC1) &&
     negb (CvImage.encoding imageRectLeft =? MONO8)
  then cvtColor imageRectRight "mono8"
  else imageRectRight.

(** ** The four-stream callback (lines 162-310)

    Statement for statement.  The locals [quality] and [stepTimer] and the
    [UDEBUG] line touch nothing a caller can observe and are left out. *)

Definition callback (n : Node)
  (imageRectLeft imageRectRight : Image)
  (cameraInfoLeft cameraInfoRight : CameraInfo) : M unit :=
  (emit CallbackCalled ;;
   if negb (isPaused n) then
     (if negb (acceptedEncoding (encoding imageRectLeft)) ||
         negb (acceptedEncoding (encoding imageRectRight))
      then
        emit (Log Error (UnsupportedEncoding (encoding imageRectLeft)
                                             (encoding imageRectRight))) ;;
        leave
      else skip) ;;
     let stamp :=
       if Time_gt (Header.stamp (header imageRectLeft))
                  (Header.stamp (header imageRectRight))
       then Header.stamp (header imageRectLeft)
       else Header.stamp (header imageRectRight) in
     localTransform <-
       getTransform n (frameId n) (Header.frame_id (header imageRectLeft)) stamp ;;
     (if isNull localTransform then leave else skip) ;;
     if negb (Mat_empty (data imageRectLeft)) &&
        negb (Mat_empty (data imageRectRight))
     then
       let alreadyRectified :=
         Parameters_parse (RtabmapImagesAlreadyRectified n) true in
       stereoTransform <-
         (if negb alreadyRectified then
            stereoTransform <-
              getTransform n
                (Header.frame_id (info_header cameraInfoRight))
                (Header.frame_id (info_header cameraInfoLeft))
                (Header.stamp (info_header cameraInfoLeft)) ;;
            (if isNull stereoTransform then
               emit (Log Error MissingCalibrationTransform) ;; leave
             else if isIdentity stereoTransform then
               emit (Log Error DegenerateCalibrationTransform) ;; leave
             else skip) ;;
            ret stereoTransform
          else ret Transform_default) ;;
       let stereoModel :=
         stereoCameraModelFromROS cameraInfoLeft cameraInfoRight
           localTransform stereoTransform in
       stereoModel <-
         (if (StereoCameraModel.baseline stereoModel =? 0)%float &&
             alreadyRectified
          then
            stereoTransform <-
              getTransform n
                (Header.frame_id (info_header cameraInfoLeft))
                (Header.frame_id (info_header cameraInfoRight))
                (Header.stamp (info_header cameraInfoLeft)) ;;
            if negb (isNull stereoTransform) && (0 <? x stereoTransform)%float
            then
              warned <- get_warned ;;
              (if negb warned then
                 emit (Log Warn (FallbackBaseline (x stereoTransform))) ;;
                 set_warned true
               else skip) ;;
              ret (StereoCameraModel.mk
                     (StereoCameraModel.left_fx stereoModel)
                     (StereoCameraModel.left_fy stereoModel)
                     (StereoCameraModel.left_cx stereoModel)
                     (StereoCameraModel.left_cy stereoModel)
                     (x stereoTransform)
                     (StereoCameraModel.localTransform stereoModel)
                     (StereoCameraModel.left_imageSize stereoModel))
            else ret stereoModel
          else ret stereoModel) ;;
       (if alreadyRectified &&
           (StereoCameraModel.baseline stereoModel <=? 0)%float
        then
          emit (Log Error (InvalidBaseline (StereoCameraModel.baseline stereoModel))) ;;
          leave
        else skip) ;;
       (if (10 <? StereoCameraModel.baseline stereoModel)%float then
          shown <- get_shown ;;
          if negb shown then
            emit (Log Warn (LargeBaseline (StereoCameraModel.baseline stereoModel))) ;;
            set_shown true
          else skip
        else skip) ;;
       let ptrImageLeft := ptrImageLeft_callback (keepColor_ n) imageRectLeft in
       let ptrImageRight := ptrImageRight_callback imageRectRight in
       let data :=
         mkSensorData (CvImage.image ptrImageLeft) (CvImage.image ptrImageRight) stereoModel 0
           (timestampFromROS stamp) in
       let header := Header.mk stamp (Header.frame_id (header imageRectLeft)) in
       emit (ProcessData data header)
     else
       emit (Log Warn EmptyImage)
   else skip)%callback.

(** ** The composite callback (lines 312-462)

    Statement for statement; besides [quality], [stepTimer] and [UDEBUG] the
    unused wall-clock read of line 349 is left out. *)

Definition callbackRGBD (n : Node) (image : RGBDImage) : M unit :=
  (emit CallbackCalled ;;
   if negb (isPaused n) then
     let imageRectLeft := fst (toCvShare image) in
     let imageRectRight := snd (toCvShare image) in
     (if negb (acceptedEncoding (CvImage.encoding imageRectLeft)) ||
         negb (acceptedEncoding (CvImage.encoding imageRectRight))
      then
        emit (Log Error (UnsupportedEncoding (CvImage.encoding imageRectLeft)
                                             (CvImage.encoding imageRectRight))) ;;
        leave
      else skip) ;;
     let stamp :=
       if Time_gt (Header.stamp (CvImage.header imageRectLeft))
                  (Header.stamp (CvImage.header imageRectRight))
       then Header.stamp (CvImage.header imageRectLeft)
       else Header.stamp (CvImage.header imageRectRight) in
     localTransform <-
       getTransform n (frameId n) (Header.frame_id (CvImage.header imageRectLeft)) stamp ;;
     (if isNull localTransform then leave else skip) ;;
     if negb (Mat_empty (CvImage.image imageRectLeft)) &&
        negb (Mat_empty (CvImage.image imageRectRight))
     then
       let alreadyRectified :=
         Parameters_parse (RtabmapImagesAlreadyRectified n) true in
       (if negb alreadyRectified then
          stereoTransform <-
            getTransform n
              (Header.frame_id (info_header (depth_camera_info image)))
              (Header.frame_id (info_header (rgb_camera_info image)))
              (Header.stamp (info_header (rgb_camera_info image))) ;;
          if isNull stereoTransform then
            emit (Log Error MissingCalibrationTransform) ;; leave
          else skip
        else skip) ;;
       let stereoModel :=
         stereoCameraModelFromROS (rgb_camera_info image)
           (depth_camera_info image) localTransform stereoTransform_default in
       stereoModel <-
         (if (StereoCameraModel.baseline stereoModel =? 0)%float &&
             alreadyRectified
          then
            stereoTransform <-
              getTransform n
                (Header.frame_id (info_header (rgb_camera_info image)))
                (Header.frame_id (info_header (depth_camera_info image)))
                (Header.stamp (info_header (rgb_camera_info image))) ;;
            if negb (isNull stereoTransform) && (0 <? x stereoTransform)%float
            then
              warned <- get_warned ;;
              (if negb warned then
                 emit (Log Warn (FallbackBaseline (x stereoTransform))) ;;
                 set_warned true
               else skip) ;;
              ret (StereoCameraModel.mk
                     (StereoCameraModel.left_fx stereoModel)
                     (StereoCameraModel.left_fy stereoModel)
                     (StereoCameraModel.left_cx stereoModel)
                     (StereoCameraModel.left_cy stereoModel)
                     (x stereoTransform)
                     (StereoCameraModel.localTransform stereoModel)
                     (StereoCameraModel.left_imageSize stereoModel))
            else ret stereoModel
          else ret stereoModel) ;;
       (if alreadyRectified &&
           (StereoCameraModel.baseline stereoModel <=? 0)%float
        then
          emit (Log Error (InvalidBaseline (StereoCameraModel.baseline stereoModel))) ;;
          leave
        else skip) ;;
       (if (10 <? StereoCameraModel.baseline stereoModel)%float then
          shown <- get_shown ;;
          if negb shown then
            emit (Log Warn (LargeBaseline (StereoCameraModel.baseline stereoModel))) ;;
            set_shown true
          else skip
        else skip) ;;
       let ptrImageLeft :=
         ptrImageLeft_callbackRGBD (keepColor_ n) imageRectLeft in
       let ptrImageRight :=
         ptrImageRight_callbackRGBD imageRectLeft imageRectRight in
       let data :=
         mkSensorData (CvImage.image ptrImageLeft)
           (CvImage.image ptrImageRight) stereoModel 0
           (timestampFromROS stamp) in
       let header := Header.mk stamp (Header.frame_id (rgbd_header image)) in
       emit (ProcessData data header)
     else
       emit (Log Warn EmptyImage)
   else skip)%callback.

(** ** Stages of a call, named for the statements below *)

(** The flag [alreadyRectified] of lines 202-203 and 354-355. *)
Definition alreadyRectified (n : Node) : bool :=
  Parameters_parse (RtabmapImagesAlreadyRectified n) true.

(** The later of two stamps, as lines 191 and 341 choose it. *)
Definition laterStamp (a b : Time) : Time := if Time_gt a b then a else b.

(** What the body-frame lookup of line 193 answers. *)
Definition bodyTransform_callback (n : Node) (l r : Image) : Transform :=
  tf n (frameId n) (Header.frame_id (header l))
    (laterStamp (Header.stamp (header l)) (Header.stamp (header r))).

(** The tuple passes the pause gate and the encoding test, so the
    body-frame lookup is made. *)
Definition reachesLookup_callback (n : Node) (l r : Image) : bool :=
  negb (isPaused n) && acceptedEncoding (encoding l) &&
  acceptedEncoding (encoding r).

(** The tuple reaches the geometry block of lines 202-281: it passes the
    gate and the encoding test, the body-frame transform is there and both
    images have data. *)
Definition reachesResolver_callback (n : Node) (l r : Image) : bool :=
  reachesLookup_callback n l r &&
  negb (isNull (bodyTransform_callback n l r)) &&
  negb (Mat_empty (data l)) && negb (Mat_empty (data r)).

(** The right-to-left lookup of lines 207-210. *)
Definition calibration_callback (n : Node) (li ri : CameraInfo) : Transform :=
  tf n (Header.frame_id (info_header ri)) (Header.frame_id (info_header li))
    (Header.stamp (info_header li)).

(** The left-to-right lookup of lines 235-238. *)
Definition leftToRight_callback (n : Node) (li ri : CameraInfo) : Transform :=
  tf n (Header.frame_id (info_header li)) (Header.frame_id (info_header ri))
    (Header.stamp (info_header li)).

(** The model of line 231. *)
Definition derivedModel_callback (n : Node) (l r : Image)
  (li ri : CameraInfo) : StereoCameraModel.t :=
  stereoCameraModelFromROS li ri (bodyTransform_callback n l r)
    (if alreadyRectified n then Transform_default
     else calibration_callback n li ri).

(** The model the fallback constructs (lines 252-259 and 391-398). *)
Definition fallbackModel (m : StereoCameraModel.t) (t : Transform)
  : StereoCameraModel.t :=
  StereoCameraModel.mk
    (StereoCameraModel.left_fx m) (StereoCameraModel.left_fy m)
    (StereoCameraModel.left_cx m) (StereoCameraModel.left_cy m)
    (x t)
    (StereoCameraModel.localTransform m) (StereoCameraModel.left_imageSize m).

(** The fallback is taken (lines 233-240 and 372-379). *)
Definition takesFallback (rectified : bool) (m : StereoCameraModel.t)
  (leftToRight : Transform) : bool :=
  (StereoCameraModel.baseline m =? 0)%float && rectified &&
  negb (isNull leftToRight) && (0 <? x leftToRight)%float.

(** The model in force after the fallback block. *)
Definition afterFallback (rectified : bool) (m : StereoCameraModel.t)
  (leftToRight : Transform) : StereoCameraModel.t :=
  if takesFallback rectified m leftToRight then fallbackModel m leftToRight
  else m.

Definition resolvedModel_callback (n : Node) (l r : Image)
  (li ri : CameraInfo) : StereoCameraModel.t :=
  afterFallback (alreadyRectified n) (derivedModel_callback n l r li ri)
    (leftToRight_callback n li ri).

(** The same stages of the composite path. *)
Definition imageRectLeft_RGBD (img : RGBDImage) : CvImage.t :=
  fst (toCvShare img).
Definition imageRectRight_RGBD (img : RGBDImage) : CvImage.t :=
  snd (toCvShare img).

Definition bodyTransform_callbackRGBD (n : Node) (img : RGBDImage)
  : Transform :=
  tf n (frameId n) (Header.frame_id (CvImage.header (imageRectLeft_RGBD img)))
    (laterStamp (Header.stamp (CvImage.header (imageRectLeft_RGBD img)))
                (Header.stamp (CvImage.header (imageRectRight_RGBD img)))).

Definition reachesLookup_callbackRGBD (n : Node) (img : RGBDImage) : bool :=
  negb (isPaused n) &&
  acceptedEncoding (CvImage.encoding (imageRectLeft_RGBD img)) &&
  acceptedEncoding (CvImage.encoding (imageRectRight_RGBD img)).

Definition reachesResolver_callbackRGBD (n : Node) (img : RGBDImage) : bool :=
  reachesLookup_callbackRGBD n img &&
  negb (isNull (bodyTransform_callbackRGBD n img)) &&
  negb (Mat_empty (CvImage.image (imageRectLeft_RGBD img))) &&
  negb (Mat_empty (CvImage.image (imageRectRight_RGBD img))).

Definition calibration_callbackRGBD (n : Node) (img : RGBDImage) : Transform :=
  calibration_callback n (rgb_camera_info img) (depth_camera_info img).

Definition leftToRight_callbackRGBD (n : Node) (img : RGBDImage) : Transform :=
  leftToRight_callback n (rgb_camera_info img) (depth_camera_info img).

Definition derivedModel_callbackRGBD (n : Node) (img : RGBDImage)
  : StereoCameraModel.t :=
  stereoCameraModelFromROS (rgb_camera_info img) (depth_camera_info img)
    (bodyTransform_callbackRGBD n img) stereoTransform_default.

Definition resolvedModel_callbackRGBD (n : Node) (img : RGBDImage)
  : StereoCameraModel.t :=
  afterFallback (alreadyRectified n) (derivedModel_callbackRGBD n img)
    (leftToRight_callbackRGBD n img).

(** The frame each path dispatches once the geometry is settled on [m]
    (lines 282-303 and 422-455). *)
Definition frame_callback (n : Node) (l r : Image) (m : StereoCameraModel.t)
  : Event :=
  let stamp := laterStamp (Header.stamp (header l)) (Header.stamp (header r)) in
  ProcessData
    (mkSensorData (CvImage.image (ptrImageLeft_callback (keepColor_ n) l))
       (CvImage.image (ptrImageRight_callback r)) m 0 (timestampFromROS stamp))
    (Header.mk stamp (Header.frame_id (header l))).

Definition frame_callbackRGBD (n : Node) (img : RGBDImage)
  (m : StereoCameraModel.t) : Event :=
  let stamp :=
    laterStamp (Header.stamp (CvImage.header (imageRectLeft_RGBD img)))
               (Header.stamp (CvImage.header (imageRectRight_RGBD img))) in
  ProcessData
    (mkSensorData
       (CvImage.image
          (ptrImageLeft_callbackRGBD (keepColor_ n) (imageRectLeft_RGBD img)))
       (CvImage.image
          (ptrImageRight_callbackRGBD (imageRectLeft_RGBD img)
             (imageRectRight_RGBD img)))
       m 0 (timestampFromROS stamp))
    (Header.mk stamp (Header.frame_id (rgbd_header img))).

End WithCollaborators.

(** ** The life of a node *)

(** A correlated tuple as the synchronizer hands it to [callback]. *)
Record Tuple := mkTuple {
  imageRectLeft : Image;
  imageRectRight : Image;
  cameraInfoLeft : CameraInfo;
  cameraInfoRight : CameraInfo
}.

Section Lifetime.
Context {C : Collaborators}.

(** Successive activations of [callback]; the static flags persist from one
    to the next, the node's state and the TF tree may change in between. *)
Fixpoint run_callback (calls : list (Node * Tuple)) (s : Statics)
  : Statics * list Event :=
  match calls with
  | [] => (s, [])
  | (n, c) :: rest =>
      let '(s1, t1) :=
        exec (callback n (imageRectLeft c) (imageRectRight c)
                (cameraInfoLeft c) (cameraInfoRight c)) s in
      let '(s2, t2) := run_callback rest s1 in
      (s2, t1 ++ t2)
  end.

Fixpoint run_callbackRGBD (calls : list (Node * RGBDImage)) (s : Statics)
  : Statics * list Event :=
  match calls with
  | [] => (s, [])
  | (n, img) :: rest =>
      let '(s1, t1) := exec (callbackRGBD n img) s in
      let '(s2, t2) := run_callbackRGBD rest s1 in
      (s2, t1 ++ t2)
  end.

(** [onOdomInit] (lines 102-136) registers exactly one entry point: with
    [subscribe_rgbd] the composite callback, otherwise the four-stream one
    behind a synchronizer.  A node's life is the sequence of deliveries to
    that entry point. *)
Inductive NodeRun :=
| FourStream (calls : list (Node * Tuple))
| Composite (calls : list (Node * RGBDImage)).

(** Everything the node does in its life, the statics starting as C++
    initializes them. *)
Definition lifetime (r : NodeRun) : list Event :=
  match r with
  | FourStream calls => snd (run_callback calls Statics_init)
  | Composite calls => snd (run_callbackRGBD calls Statics_init)
  end.

(** The calls of a run that take the baseline fallback. *)
Definition fallbackCall_callback (nc : Node * Tuple) : bool :=
  let '(n, c) := nc in
  reachesResolver_callback n (imageRectLeft c) (imageRectRight c) &&
  takesFallback (alreadyRectified n)
    (derivedModel_callback n (imageRectLeft c) (imageRectRight c)
       (cameraInfoLeft c) (cameraInfoRight c))
    (leftToRight_callback n (cameraInfoLeft c) (cameraInfoRight c)).

Definition fallbackCall_callbackRGBD (ni : Node * RGBDImage) : bool :=
  let '(n, img) := ni in
  reachesResolver_callbackRGBD n img &&
  takesFallback (alreadyRectified n) (derivedModel_callbackRGBD n img)
    (leftToRight_callbackRGBD n img).

Definition usesFallback (r : NodeRun) : bool :=
  match r with
  | FourStream calls => existsb fallbackCall_callback calls
  | Composite calls => existsb fallbackCall_callbackRGBD calls
  end.

(** A nodelet manager may host several nodelets in one process; the static
    flags of a callback are then shared by every instance that runs it.  One
    activation in such a process: *)
Inductive Call :=
| CallbackCall (n : Node) (c : Tuple)
| CallbackRGBDCall (n : Node) (img : RGBDImage).

(** The entry point an event comes from. *)
Inductive EntryPoint := ViaCallback | ViaCallbackRGBD.

Definition EntryPoint_eqb (a b : EntryPoint) : bool :=
  match a, b with
  | ViaCallback, ViaCallback | ViaCallbackRGBD, ViaCallbackRGBD => true
  | _, _ => false
  end.

(** Any interleaving of activations, from the flags of [callback] and the
    flags of [callbackRGBD]; every event is marked with its entry point. *)
Fixpoint run_process (calls : list Call) (s sRGBD : Statics)
  : list (EntryPoint * Event) :=
  match calls with
  | [] => []
  | CallbackCall n c :: rest =>
      let '(s1, t1) :=
        exec (callback n (imageRectLeft c) (imageRectRight c)
                (cameraInfoLeft c) (cameraInfoRight c)) s in
      map (pair ViaCallback) t1 ++ run_process rest s1 sRGBD
  | CallbackRGBDCall n img :: rest =>
      let '(s1, t1) := exec (callbackRGBD n img) sRGBD in
      map (pair ViaCallbackRGBD) t1 ++ run_process rest s s1
  end.

(** The events of one entry point, and all events, of a process trace. *)
Definition eventsOf (ep : EntryPoint) (t : list (EntryPoint * Event))
  : list Event :=
  map snd (filter (fun x => EntryPoint_eqb (fst x) ep) t).

Definition allEvents (t : list (EntryPoint * Event)) : list Event := map snd t.

(** The activations of each entry point in an interleaving. *)
Fixpoint calls_callback (calls : list Call) : list (Node * Tuple) :=
  match calls with
  | [] => []
  | CallbackCall n c :: rest => (n, c) :: calls_callback rest
  | CallbackRGBDCall _ _ :: rest => calls_callback rest
  end.

Fixpoint calls_callbackRGBD (calls : list Call) : list (Node * RGBDImage) :=
  match calls with
  | [] => []
  | CallbackCall _ _ :: rest => calls_callbackRGBD rest
  | CallbackRGBDCall n img :: rest => (n, img) :: calls_callbackRGBD rest
  end.

End Lifetime.

(** ** The synchronizers and [flushCallbacks] (lines 465-480) *)

(** One message of one of the four subscribed streams. *)
Inductive StreamMsg :=
| LeftImage (m : Image)
| RightImage (m : Image)
| LeftInfo (c : CameraInfo)
| RightInfo (c : CameraInfo).

(** A synchronization policy of message_filters ([ApproximateTime],
    [ExactTime]): its buffering state, the state a policy constructed with a
    queue size starts in, the messages a state holds pending, and what adding
    a message does (the new state and the tuples signalled).  A policy is
    constructed with nothing pending. *)
Class SyncPolicy := {
  PolicyState : Type;
  newPolicy : Z -> PolicyState;
  pendingMessages : PolicyState -> list StreamMsg;
  add : PolicyState -> StreamMsg -> PolicyState * list Tuple;
  newPolicy_pending : forall queue_size, pendingMessages (newPolicy queue_size) = []
}.

Section Synchronizers.
Context (MyApproxSyncPolicy MyExactSyncPolicy : SyncPolicy).

(** The members [flushCallbacks] touches; a null pointer is [None]. *)
Record Members := mkMembers {
  approxSync_ : option (@PolicyState MyApproxSyncPolicy);
  exactSync_ : option (@PolicyState MyExactSyncPolicy);
  queueSize_ : Z
}.

Definition flushCallbacks (m : Members) : Members :=
  let approxSync :=
    match approxSync_ m with
    | Some _ => Some (@newPolicy MyApproxSyncPolicy (queueSize_ m))
    | None => None
    end in
  let exactSync :=
    match exactSync_ m with
    | Some _ => Some (@newPolicy MyExactSyncPolicy (queueSize_ m))
    | None => None
    end in
  mkMembers approxSync exactSync (queueSize_ m).

(** A message arrives on a subscribed stream: every synchronizer connected
    to the subscribers adds it, and the tuples signalled go to [callback]. *)
Definition deliver (m : Members) (msg : StreamMsg) : Members * list Tuple :=
  let '(approxSync, out1) :=
    match approxSync_ m with
    | Some st => let '(st', out) := add st msg in (Some st', out)
    | None => (None, [])
    end in
  let '(exactSync, out2) :=
    match exactSync_ m with
    | Some st => let '(st', out) := add st msg in (Some st', out)
    | None => (None, [])
    end in
  (mkMembers approxSync exactSync (queueSize_ m), out1 ++ out2).

Fixpoint deliverAll (m : Members) (msgs : list StreamMsg)
  : Members * list Tuple :=
  match msgs with
  | [] => (m, [])
  | msg :: rest =>
      let '(m1, out1) := deliver m msg in
      let '(m2, out2) := deliverAll m1 rest in
      (m2, out1 ++ out2)
  end.

(** Modelled from the spec: the caller of [flushCallbacks] (the base class
    [OdometryROS]) is not part of this file.  The spec has the flush
    triggered when the queue-size configuration changes at runtime: the new
    size is stored, then the synchronizers are flushed. *)
Definition reconfigureQueueSize (m : Members) (queue_size : Z) : Members :=
  flushCallbacks (mkMembers (approxSync_ m) (exactSync_ m) queue_size).

(** What the synchronizers of a node hold pending. *)
Definition pendingOf (m : Members) : list StreamMsg :=
  match approxSync_ m with Some st => pendingMessages st | None => [] end ++
  match exactSync_ m with Some st => pendingMessages st | None => [] end.

End Synchronizers.

Arguments mkMembers {_ _} _ _ _.
Arguments approxSync_ {_ _} m.
Arguments exactSync_ {_ _} m.
Arguments queueSize_ {_ _} m.
Arguments flushCallbacks {_ _} m.
Arguments deliver {_ _} m msg.
Arguments deliverAll {_ _} m msgs.
Arguments reconfigureQueueSize {_ _} m queue_size.
Arguments pendingOf {_ _} m.

(** What lets a call through the calibration step of a non-rectified setup
    (lines 205-229 and 357-368), and through the baseline check (lines
    263-268 and 402-407). *)
Definition calibrated_callback (n : Node) (li ri : CameraInfo) : bool :=
  alreadyRectified n ||
  (negb (isNull (calibration_callback n li ri)) &&
   negb (isIdentity (calibration_callback n li ri))).

Definition calibrated_callbackRGBD (n : Node) (img : RGBDImage) : bool :=
  alreadyRectified n || negb (isNull (calibration_callbackRGBD n img)).

Definition validBaseline (rectified : bool) (m : StereoCameraModel.t) : bool :=
  negb (rectified && (StereoCameraModel.baseline m <=? 0)%float).

Section LargeBaselineCalls.
Context {C : Collaborators}.

(** The calls of a run that meet the large-baseline test of lines 270 and
    409. *)
Definition largeBaselineCall_callback (nc : Node * Tuple) : bool :=
  let '(n, c) := nc in
  let m := resolvedModel_callback n (imageRectLeft c) (imageRectRight c)
             (cameraInfoLeft c) (cameraInfoRight c) in
  reachesResolver_callback n (imageRectLeft c) (imageRectRight c) &&
  calibrated_callback n (cameraInfoLeft c) (cameraInfoRight c) &&
  validBaseline (alreadyRectified n) m &&
  (10 <? StereoCameraModel.baseline m)%float.

Definition largeBaselineCall_callbackRGBD (ni : Node * RGBDImage) : bool :=
  let '(n, img) := ni in
  let m := resolvedModel_callbackRGBD n img in
  reachesResolver_callbackRGBD n img &&
  calibrated_callbackRGBD n img &&
  validBaseline (alreadyRectified n) m &&
  (10 <? StereoCameraModel.baseline m)%float.

End LargeBaselineCalls.

(** ** Concrete collaborators and inputs, for the examples *)

Module Demo.

Definition P_at (c : CameraInfo) (i : nat) : float := nth i (P c) 0%float.

(** A stereo model from two projection matrices: the baseline is
    [-P(0,3)/P(0,0)] of the right camera. *)
Definition modelFromROS (l r : CameraInfo) (localTransform _ : Transform)
  : StereoCameraModel.t :=
  StereoCameraModel.mk (P_at l 0) (P_at l 5) (P_at l 2) (P_at l 6)
    (if (P_at r 0 =? 0)%float then 0%float
     else (- P_at r 3 / P_at r 0)%float)
    localTransform (width l, height l).

Definition asCvImage (i : Image) : CvImage.t :=
  CvImage.mk (header i) (encoding i) (data i).

(** A stand-in for the pixel conversion: to grey keeps one byte per pixel
    of a three-channel image, anything else keeps the bytes. *)
Fixpoint everyThird (m : Mat) : Mat :=
  match m with
  | b :: _ :: _ :: rest => b :: everyThird rest
  | _ => []
  end.

Definition convert (src dst : string) (m : Mat) : Mat :=
  if (dst =? MONO8) && ((src =? BGR8) || (src =? RGB8)) then everyThird m
  else m.

#[export] Instance collaborators : Collaborators := {
  stereoCameraModelFromROS := modelFromROS;
  stereoTransform_default := Transform_default;
  timestampFromROS := fun t => PrimFloat.of_uint63 (Uint63.of_Z (sec t));
  toCvShare := fun img => (asCvImage (rgb img), asCvImage (depth img));
  cvtPixels := convert
}.

Definition body : Transform := mkTransform false false 0%float.
Definition leftToRight : Transform := mkTransform false false 0.0625%float.
Definition rightToLeft : Transform := mkTransform false false (-0.0625)%float.
Definition identity : Transform := mkTransform false true 0%float.

(** A TF tree that knows the body frame and both camera frames. *)
Definition tree (target source : string) (_ : Time) : Transform :=
  if target =? "base_link" then body
  else if target =? "left_optical" then leftToRight
  else rightToLeft.

(** A TF tree that answers the identity between the cameras. *)
Definition tree_identity (target source : string) (_ : Time) : Transform :=
  if target =? "base_link" then body else identity.

(** A TF tree that knows nothing. *)
Definition tree_empty (_ _ : string) (_ : Time) : Transform :=
  Transform_default.

Definition node (rectified : option bool) (keepColor : bool)
  (tree : string -> string -> Time -> Transform) : Node :=
  mkNode false "base_link" keepColor rectified tree.

Definition t_left : Time := mkTime 100 0.
Definition t_right : Time := mkTime 100 5.

Definition img (frame enc : string) (t : Time) (bytes : Mat) : Image :=
  mkImage (Header.mk t frame) enc bytes.

Definition left_mono8 : Image := img "left_optical" MONO8 t_left [1; 2; 3; 4]%N.
Definition right_mono8 : Image := img "right_optical" MONO8 t_right [5; 6; 7; 8]%N.
Definition left_mono16 : Image := img "left_optical" MONO16 t_left [1; 2; 3; 4]%N.
Definition left_rgb8 : Image := img "left_optical" RGB8 t_left [1; 2; 3; 4; 5; 6]%N.
Definition right_bgr8 : Image := img "right_optical" BGR8 t_right [9; 8; 7; 6; 5; 4]%N.
Definition left_yuv : Image := img "left_optical" "yuv422" t_left [1; 2; 3; 4]%N.
Definition left_nodata : Image := img "left_optical" MONO8 t_left [].

Definition info (frame : string) (t : Time) (tx : float) : CameraInfo :=
  mkCameraInfo (Header.mk t frame) 640 480
    [500; 0; 320; tx; 0; 500; 240; 0; 0; 0; 1; 0]%float.

Definition info_left : CameraInfo := info "left_optical" t_left 0%float.
(** Baselines 0.125 m, none, 12 m and -0.125 m. *)
Definition info_right : CameraInfo := info "right_optical" t_right (-62.5)%float.
Definition info_right_noTx : CameraInfo := info "right_optical" t_right 0%float.
Definition info_right_far : CameraInfo := info "right_optical" t_right (-6000)%float.
Definition info_right_swapped : CameraInfo := info "right_optical" t_right 62.5%float.
(** A baseline of 2^-20 m: small, not zero. *)
Definition info_right_tiny : CameraInfo :=
  info "right_optical" t_right (-0.000476837158203125)%float.

Definition rgbd (l r : Image) (li ri : CameraInfo) : RGBDImage :=
  mkRGBDImage (Header.mk t_right "left_optical") li ri l r.

(** An exact-time policy for the examples: pending messages are kept in
    arrival order; when the four streams each hold a message with the stamp
    of the arrival, the tuple is signalled and its messages leave. *)
Definition stampOf (m : StreamMsg) : Time :=
  match m with
  | LeftImage i | RightImage i => Header.stamp (header i)
  | LeftInfo c | RightInfo c => Header.stamp (info_header c)
  end.

Definition sameStamp (a b : Time) : bool :=
  (sec a =? sec b)%Z && (nsec a =? nsec b)%Z.

Fixpoint findLeft (t : Time) (p : list StreamMsg) : option Image :=
  match p with
  | [] => None
  | LeftImage i :: rest =>
      if sameStamp t (Header.stamp (header i)) then Some i else findLeft t rest
  | _ :: rest => findLeft t rest
  end.

Fixpoint findRight (t : Time) (p : list StreamMsg) : option Image :=
  match p with
  | [] => None
  | RightImage i :: rest =>
      if sameStamp t (Header.stamp (header i)) then Some i else findRight t rest
  | _ :: rest => findRight t rest
  end.

Fixpoint findLeftInfo (t : Time) (p : list StreamMsg) : option CameraInfo :=
  match p with
  | [] => None
  | LeftInfo c :: rest =>
      if sameStamp t (Header.stamp (info_header c)) then Some c
      else findLeftInfo t rest
  | _ :: rest => findLeftInfo t rest
  end.

Fixpoint findRightInfo (t : Time) (p : list StreamMsg) : option CameraInfo :=
  match p with
  | [] => None
  | RightInfo c :: rest =>
      if sameStamp t (Header.stamp (info_header c)) then Some c
      else findRightInfo t rest
  | _ :: rest => findRightInfo t rest
  end.

Definition exactAdd (st : Z * list StreamMsg) (m : StreamMsg)
  : (Z * list StreamMsg) * list Tuple :=
  let p := snd st ++ [m] in
  let t := stampOf m in
  match findLeft t p, findRight t p, findLeftInfo t p, findRightInfo t p with
  | Some l, Some r, Some li, Some ri =>
      ((fst st, filter (fun m' => negb (sameStamp t (stampOf m'))) p),
       [mkTuple l r li ri])
  | _, _, _, _ => ((fst st, p), [])
  end.

#[export] Instance exactTime : SyncPolicy := {
  PolicyState := Z * list StreamMsg;
  newPolicy := fun queue_size => (queue_size, []);
  pendingMessages := snd;
  add := exactAdd;
  newPolicy_pending := fun _ => eq_refl
}.

(** Nodes and tuples of the examples. *)
Definition rectified : Node := node None false tree.
Definition unrectified_identity : Node := node (Some false) false tree_identity.
Definition lost : Node := node None false tree_empty.

Definition noTx : Tuple := mkTuple left_mono8 right_mono8 info_left info_right_noTx.
Definition far : Tuple := mkTuple left_mono8 right_mono8 info_left info_right_far.

(** A four-stream node with an exact-time synchronizer of queue size 5. *)
Definition exactNode : Members exactTime exactTime :=
  mkMembers None (Some (@newPolicy exactTime 5)) 5.

End Demo.

(** ** Further notions for statements about the callbacks *)

Definition isCallbackCalled (e : Event) : bool :=
  match e with CallbackCalled => true | _ => false end.

(** The two warnings guarded by the static flags. *)
Definition isOneShotWarning (e : Event) : bool :=
  isFallbackWarning e || isLargeBaselineWarning e.

(** The same node with another value of [keepColor_]. *)
Definition withKeepColor (n : Node) (keepColor : bool) : Node :=
  mkNode (isPaused n) (frameId n) keepColor (RtabmapImagesAlreadyRectified n)
    (tf n).

(** An event without the pixels of the left image. *)
Definition forgetLeftImage (e : Event) : Event :=
  match e with
  | ProcessData d h =>
      ProcessData
        (mkSensorData [] (rightRaw d) (stereoCameraModel d) (id d)
           (data_stamp d)) h
  | _ => e
  end.

(** The node of a call is not paused. *)
Definition running {A : Type} (call : Node * A) : bool :=
  negb (isPaused (fst call)).

(** ** Construction and [onOdomInit] (lines 62-69 and 84-149) *)

(** The private parameters [onOdomInit] asks for: what the parameter server
    holds under each name with the type asked for, if anything. *)
Record PrivateParams := mkPrivateParams {
  approx_sync : option bool;
  queue_size : option Z;
  subscribe_rgbd : option bool;
  keep_color : option bool
}.

(** [pnh.param(name, variable, default)]: the value held, or the default. *)
Definition param {A : Type} (held : option A) (default : A) : A :=
  match held with Some v => v | None => default end.

(** What [onOdomInit] reports: the four [NODELET_INFO] lines (96-99) and
    the call of [startWarningThread] (line 148), whose message lists the
    topics subscribed to. *)
Inductive InitEvent :=
| InfoApproxSync (b : bool)
| InfoQueueSize (q : Z)
| InfoSubscribeRGBD (b : bool)
| InfoKeepColor (b : bool)
| StartWarningThread (approxSync : bool).

Section Initialization.
Context (MyApproxSyncPolicy MyExactSyncPolicy : SyncPolicy).

(** The members of the class: the two synchronizer pointers and the queue
    size, [keepColor_], whether [rgbdSub_] holds the subscription to
    [rgbd_image] (with [callbackRGBD]), and whether the four subscriber
    filters [imageRectLeft_], [imageRectRight_], [cameraInfoLeft_] and
    [cameraInfoRight_] are subscribed. *)
Record StereoOdometry := mkStereoOdometry {
  synchronizers : Members MyApproxSyncPolicy MyExactSyncPolicy;
  member_keepColor_ : bool;
  rgbdSub_ : bool;
  filters_subscribed : bool
}.

(** The constructor (lines 62-69). *)
Definition StereoOdometry_new : StereoOdometry :=
  mkStereoOdometry (mkMembers None None 5) false false false.

Definition onOdomInit (o : StereoOdometry) (pnh : PrivateParams)
  : StereoOdometry * list InitEvent :=
  let approxSync := param (approx_sync pnh) false in
  let queueSize := param (queue_size pnh) (queueSize_ (synchronizers o)) in
  let subscribeRGBD := param (subscribe_rgbd pnh) false in
  let keepColor := param (keep_color pnh) (member_keepColor_ o) in
  let info :=
    [InfoApproxSync approxSync; InfoQueueSize queueSize;
     InfoSubscribeRGBD subscribeRGBD; InfoKeepColor keepColor] in
  let o' :=
    if subscribeRGBD then
      mkStereoOdometry
        (mkMembers (approxSync_ (synchronizers o))
           (exactSync_ (synchronizers o)) queueSize)
        keepColor true (filters_subscribed o)
    else if approxSync then
      mkStereoOdometry
        (mkMembers (Some (@newPolicy MyApproxSyncPolicy queueSize))
           (exactSync_ (synchronizers o)) queueSize)
        keepColor (rgbdSub_ o) true
    else
      mkStereoOdometry
        (mkMembers (approxSync_ (synchronizers o))
           (Some (@newPolicy MyExactSyncPolicy queueSize)) queueSize)
        keepColor (rgbdSub_ o) true in
  (o', info ++ [StartWarningThread approxSync]).

(** What happens to the synchronizers afterwards: a message arrives on one
    of the four streams, or the base class asks for a flush. *)
Inductive Op :=
| Deliver (msg : StreamMsg)
| Flush.

Definition step (m : Members MyApproxSyncPolicy MyExactSyncPolicy) (op : Op)
  : Members MyApproxSyncPolicy MyExactSyncPolicy * list Tuple :=
  match op with
  | Deliver msg => deliver m msg
  | Flush => (flushCallbacks m, [])
  end.

Fixpoint steps (m : Members MyApproxSyncPolicy MyExactSyncPolicy)
  (ops : list Op)
  : Members MyApproxSyncPolicy MyExactSyncPolicy * list Tuple :=
  match ops with
  | [] => (m, [])
  | op :: rest =>
      let '(m1, out1) := step m op in
      let '(m2, out2) := steps m1 rest in
      (m2, out1 ++ out2)
  end.

End Initialization.

Arguments mkStereoOdometry {_ _} _ _ _ _.
Arguments synchronizers {_ _} s.
Arguments member_keepColor_ {_ _} s.
Arguments rgbdSub_ {_ _} s.
Arguments filters_subscribed {_ _} s.
Arguments onOdomInit {_ _} o pnh.
Arguments step {_ _} m op.
Arguments steps {_ _} m ops.

(** ** [updateParameters] (lines 151-160) *)

Module Parameters.

(** [rtabmap::ParametersMap]: a [std::map] from strings to strings. *)
Definition ParametersMap : Type := stdpp.gmap.gmap string string.

(** [parameters.find(key)]: the value under the key, if the key is there. *)
Definition find (key : string) (parameters : ParametersMap) : option string :=
  stdpp.base.lookup (M := stdpp.gmap.gmap string string) key parameters.

(** [uInsert(parameters, ParametersPair(key, value))]: sets the value of the
    key, whether or not the key is there. *)
Definition uInsert (parameters : ParametersMap) (key value : string)
  : ParametersMap :=
  stdpp.base.insert (M := stdpp.gmap.gmap string string) key value parameters.

(** [Parameters::kRegStrategy()], the key the warning of line 157 names. *)
Definition kRegStrategy : string := "Reg/Strategy".

(** [Parameters::kRtabmapImagesAlreadyRectified()]. *)
Definition kRtabmapImagesAlreadyRectified : string :=
  "Rtabmap/ImagesAlreadyRectified".

(** The [ROS_WARN] of line 157, with the value it quotes. *)
Inductive Warning := IgnoringRegStrategy (value : string).

Definition updateParameters (parameters : ParametersMap)
  : ParametersMap * list Warning :=
  let iter := find kRegStrategy parameters in
  let warnings :=
    match iter with
    | Some value =>
        if negb (String.eqb value "0") then [IgnoringRegStrategy value] else []
    | None => []
    end in
  (uInsert parameters kRegStrategy "0", warnings).

End Parameters.

(** ** Inputs for the further examples *)

Module Cases.

Definition paused : Node := mkNode true "base_link" false None Demo.tree.


(** A TF tree that knows the body frame only. *)
Definition tree_body_only (target source : string) (_ : Time) : Transform :=
  if target =? "base_link" then Demo.body else Transform_default.

Definition unrectified_uncalibrated : Node :=
  Demo.node (Some false) false tree_body_only.

(** Rectified images, and no transform between the cameras. *)
Definition rectified_uncalibrated : Node :=
  Demo.node None false tree_body_only.

(** A right camera info whose Tx is not a number. *)
Definition info_right_nan : CameraInfo :=
  Demo.info "right_optical" Demo.t_right PrimFloat.nan.

Definition good : Tuple :=
  mkTuple Demo.left_mono8 Demo.right_mono8 Demo.info_left Demo.info_right.

Definition rgb_params : PrivateParams :=
  mkPrivateParams (Some true) (Some 10%Z) (Some true) None.

Definition approx_params : PrivateParams :=
  mkPrivateParams (Some true) (Some 10%Z) None (Some true).

(** Parameters asking for another registration strategy. *)
Definition icp_parameters : Parameters.ParametersMap :=
  Parameters.uInsert
    (Parameters.uInsert
       (stdpp.base.empty (A := stdpp.gmap.gmap string string))
       "Reg/Strategy" "1")
    "Rtabmap/ImagesAlreadyRectified" "false".

End Cases.

(** * Verification *)

(** ** Comparisons of binary64 values *)

(** A value above zero is not at most zero ([nan] is neither). *)
Lemma positive_not_le0 (v : float) :
  (0 <? v)%float = true -> (v <=? 0)%float = false.
Proof.
  rewrite ltb_spec, leb_spec. unfold SFltb, SFleb.
  change (Prim2SF 0) with (S754_zero false).
  destruct (Prim2SF v) as [sg|sg| |sg mant e]; cbn;
    try destruct sg; cbn; congruence.
Qed.

(** Neither is a value above ten. *)
Lemma above10_not_le0 (v : float) :
  (10 <? v)%float = true -> (v <=? 0)%float = false.
Proof.
  rewrite ltb_spec, leb_spec. unfold SFltb, SFleb.
  change (Prim2SF 0) with (S754_zero false).
  change (Prim2SF 10) with (S754_finite false 5629499534213120 (-49)).
  destruct (Prim2SF v) as [sg|sg| |sg mant e]; cbn;
    try destruct sg; cbn; congruence.
Qed.

(** ** Symbolic execution of a callback *)

(** Unfold the named stages to the expressions the callbacks test. *)
Ltac stages :=
  unfold largeBaselineCall_callback, largeBaselineCall_callbackRGBD,
    fallbackCall_callback, fallbackCall_callbackRGBD,
    frame_callback, frame_callbackRGBD,
    calibrated_callback, calibrated_callbackRGBD, validBaseline,
    reachesResolver_callback, reachesLookup_callback,
    reachesResolver_callbackRGBD, reachesLookup_callbackRGBD,
    resolvedModel_callback, resolvedModel_callbackRGBD,
    derivedModel_callback, derivedModel_callbackRGBD,
    bodyTransform_callback, bodyTransform_callbackRGBD,
    calibration_callbackRGBD, leftToRight_callbackRGBD,
    calibration_callback, leftToRight_callback,
    afterFallback, takesFallback, fallbackModel, alreadyRectified,
    laterStamp, imageRectLeft_RGBD, imageRectRight_RGBD in *.

(** Unfold the monad. *)
Ltac run :=
  unfold exec, callback, callbackRGBD, getTransform, skip in *;
  unfold bind, ret, emit, leave, get_warned, set_warned, get_shown,
    set_shown in *;
  cbn beta iota zeta in *.

Ltac tidy :=
  cbn [andb orb negb fst snd app filter List.length warned shown
       dispatched diagnostics isDispatch isLog isFallbackWarning
       isLargeBaselineWarning isEmptyImageWarning isLookup isError
       StereoCameraModel.baseline] in *.

(** Split on the first undecided test, atom by atom. *)
Ltac split_test b :=
  lazymatch b with
  | ?b1 && ?b2 => first [ split_test b1 | split_test b2 ]
  | ?b1 || ?b2 => first [ split_test b1 | split_test b2 ]
  | negb ?b1 => split_test b1
  | (if ?b1 then _ else _) => split_test b1
  | true => fail
  | false => fail
  | _ => destruct b eqn:?
  end.

Ltac branch :=
  match goal with
  | |- context [if ?b then _ else _] => split_test b; tidy
  | |- context [?a && ?b] => split_test (a && b); tidy
  | |- context [?a || ?b] => split_test (a || b); tidy
  end.

(** Tests that contradict each other on floats. *)
Ltac float_absurd :=
  match goal with
  | H : (0 <? ?v)%float = true, H' : (?v <=? 0)%float = true |- _ =>
      rewrite (positive_not_le0 v H) in H'; discriminate H'
  | H : (10 <? ?v)%float = true, H' : (?v <=? 0)%float = true |- _ =>
      rewrite (above10_not_le0 v H) in H'; discriminate H'
  end.

Ltac cases :=
  stages; run; tidy; repeat branch;
  try reflexivity; try congruence; try float_absurd.

Section Calls.
Context {C : Collaborators}.

(** *** What a call to [callback] hands to the estimator, logs and leaves *)

Lemma callback_dispatched n l r li ri s :
  dispatched (snd (exec (callback n l r li ri) s)) =
    if reachesResolver_callback n l r && calibrated_callback n li ri &&
       validBaseline (alreadyRectified n) (resolvedModel_callback n l r li ri)
    then [frame_callback n l r (resolvedModel_callback n l r li ri)]
    else [].
Proof. destruct s as [w sh]. cases. Qed.

Lemma callback_fallbackWarning n l r li ri s :
  filter isFallbackWarning (snd (exec (callback n l r li ri) s)) =
    if negb (warned s) && reachesResolver_callback n l r &&
       takesFallback (alreadyRectified n) (derivedModel_callback n l r li ri)
         (leftToRight_callback n li ri)
    then [Log Warn (FallbackBaseline (x (leftToRight_callback n li ri)))]
    else [].
Proof. destruct s as [w sh]. cases. Qed.

Lemma callback_warned n l r li ri s :
  warned (fst (exec (callback n l r li ri) s)) =
    warned s ||
    (reachesResolver_callback n l r &&
     takesFallback (alreadyRectified n) (derivedModel_callback n l r li ri)
       (leftToRight_callback n li ri)).
Proof. destruct s as [w sh]. cases. Qed.

Lemma callback_largeBaselineWarning n l r li ri s :
  filter isLargeBaselineWarning (snd (exec (callback n l r li ri) s)) =
    if negb (shown s) &&
       largeBaselineCall_callback (n, mkTuple l r li ri)
    then [Log Warn (LargeBaseline
            (StereoCameraModel.baseline (resolvedModel_callback n l r li ri)))]
    else [].
Proof.
  destruct s as [w sh].
  cbn [largeBaselineCall_callback imageRectLeft imageRectRight
       cameraInfoLeft cameraInfoRight].
  cases.
Qed.

Lemma callback_shown n l r li ri s :
  shown (fst (exec (callback n l r li ri) s)) =
    shown s || largeBaselineCall_callback (n, mkTuple l r li ri).
Proof.
  destruct s as [w sh].
  cbn [largeBaselineCall_callback imageRectLeft imageRectRight
       cameraInfoLeft cameraInfoRight].
  cases.
Qed.

Lemma callback_lookups n l r li ri s :
  filter isLookup (snd (exec (callback n l r li ri) s)) =
    if reachesLookup_callback n l r then
      TfLookup (frameId n) (Header.frame_id (header l))
        (laterStamp (Header.stamp (header l)) (Header.stamp (header r))) ::
      (if reachesResolver_callback n l r then
         (if alreadyRectified n then []
          else [TfLookup (Header.frame_id (info_header ri))
                  (Header.frame_id (info_header li))
                  (Header.stamp (info_header li))]) ++
         (if calibrated_callback n li ri &&
             (StereoCameraModel.baseline (derivedModel_callback n l r li ri) =? 0)%float &&
             alreadyRectified n
          then [TfLookup (Header.frame_id (info_header li))
                  (Header.frame_id (info_header ri))
                  (Header.stamp (info_header li))]
          else [])
       else [])
    else [].
Proof. destruct s as [w sh]. cases. Qed.

(** *** The same for [callbackRGBD] *)

Lemma callbackRGBD_dispatched n img s :
  dispatched (snd (exec (callbackRGBD n img) s)) =
    if reachesResolver_callbackRGBD n img && calibrated_callbackRGBD n img &&
       validBaseline (alreadyRectified n) (resolvedModel_callbackRGBD n img)
    then [frame_callbackRGBD n img (resolvedModel_callbackRGBD n img)]
    else [].
Proof. destruct s as [w sh]. cases. Qed.

Lemma callbackRGBD_fallbackWarning n img s :
  filter isFallbackWarning (snd (exec (callbackRGBD n img) s)) =
    if negb (warned s) && reachesResolver_callbackRGBD n img &&
       takesFallback (alreadyRectified n) (derivedModel_callbackRGBD n img)
         (leftToRight_callbackRGBD n img)
    then [Log Warn (FallbackBaseline (x (leftToRight_callbackRGBD n img)))]
    else [].
Proof. destruct s as [w sh]. cases. Qed.

Lemma callbackRGBD_warned n img s :
  warned (fst (exec (callbackRGBD n img) s)) =
    warned s ||
    (reachesResolver_callbackRGBD n img &&
     takesFallback (alreadyRectified n) (derivedModel_callbackRGBD n img)
       (leftToRight_callbackRGBD n img)).
Proof. destruct s as [w sh]. cases. Qed.

Lemma callbackRGBD_largeBaselineWarning n img s :
  filter isLargeBaselineWarning (snd (exec (callbackRGBD n img) s)) =
    if negb (shown s) && largeBaselineCall_callbackRGBD (n, img)
    then [Log Warn (LargeBaseline
            (StereoCameraModel.baseline (resolvedModel_callbackRGBD n img)))]
    else [].
Proof. destruct s as [w sh]. cases. Qed.

Lemma callbackRGBD_shown n img s :
  shown (fst (exec (callbackRGBD n img) s)) =
    shown s || largeBaselineCall_callbackRGBD (n, img).
Proof. destruct s as [w sh]. cases. Qed.

Lemma callbackRGBD_lookups n img s :
  filter isLookup (snd (exec (callbackRGBD n img) s)) =
    if reachesLookup_callbackRGBD n img then
      TfLookup (frameId n)
        (Header.frame_id (CvImage.header (imageRectLeft_RGBD img)))
        (laterStamp (Header.stamp (CvImage.header (imageRectLeft_RGBD img)))
                    (Header.stamp (CvImage.header (imageRectRight_RGBD img)))) ::
      (if reachesResolver_callbackRGBD n img then
         (if alreadyRectified n then []
          else [TfLookup (Header.frame_id (info_header (depth_camera_info img)))
                  (Header.frame_id (info_header (rgb_camera_info img)))
                  (Header.stamp (info_header (rgb_camera_info img)))]) ++
         (if calibrated_callbackRGBD n img &&
             (StereoCameraModel.baseline (derivedModel_callbackRGBD n img) =? 0)%float &&
             alreadyRectified n
          then [TfLookup (Header.frame_id (info_header (rgb_camera_info img)))
                  (Header.frame_id (info_header (depth_camera_info img)))
                  (Header.stamp (info_header (rgb_camera_info img)))]
          else [])
       else [])
    else [].
Proof. destruct s as [w sh]. cases. Qed.

(** *** Every log line of a call *)

Lemma callback_diagnostics n l r li ri s :
  diagnostics (snd (exec (callback n l r li ri) s)) =
    if isPaused n then []
    else if negb (acceptedEncoding (encoding l) && acceptedEncoding (encoding r))
    then [Log Error (UnsupportedEncoding (encoding l) (encoding r))]
    else if isNull (bodyTransform_callback n l r) then []
    else if Mat_empty (data l) || Mat_empty (data r)
    then [Log Warn EmptyImage]
    else if negb (calibrated_callback n li ri)
    then [Log Error (if isNull (calibration_callback n li ri)
                     then MissingCalibrationTransform
                     else DegenerateCalibrationTransform)]
    else
      let m := resolvedModel_callback n l r li ri in
      (if negb (warned s) &&
          takesFallback (alreadyRectified n)
            (derivedModel_callback n l r li ri) (leftToRight_callback n li ri)
       then [Log Warn (FallbackBaseline (x (leftToRight_callback n li ri)))]
       else []) ++
      (if negb (validBaseline (alreadyRectified n) m)
       then [Log Error (InvalidBaseline (StereoCameraModel.baseline m))]
       else if negb (shown s) && (10 <? StereoCameraModel.baseline m)%float
       then [Log Warn (LargeBaseline (StereoCameraModel.baseline m))]
       else []).
Proof. destruct s as [w sh]. cases. Qed.

Lemma callbackRGBD_diagnostics n img s :
  diagnostics (snd (exec (callbackRGBD n img) s)) =
    if isPaused n then []
    else if negb (acceptedEncoding (CvImage.encoding (imageRectLeft_RGBD img)) &&
                  acceptedEncoding (CvImage.encoding (imageRectRight_RGBD img)))
    then [Log Error (UnsupportedEncoding
                       (CvImage.encoding (imageRectLeft_RGBD img))
                       (CvImage.encoding (imageRectRight_RGBD img)))]
    else if isNull (bodyTransform_callbackRGBD n img) then []
    else if Mat_empty (CvImage.image (imageRectLeft_RGBD img)) ||
            Mat_empty (CvImage.image (imageRectRight_RGBD img))
    then [Log Warn EmptyImage]
    else if negb (calibrated_callbackRGBD n img)
    then [Log Error MissingCalibrationTransform]
    else
      let m := resolvedModel_callbackRGBD n img in
      (if negb (warned s) &&
          takesFallback (alreadyRectified n)
            (derivedModel_callbackRGBD n img) (leftToRight_callbackRGBD n img)
       then [Log Warn (FallbackBaseline (x (leftToRight_callbackRGBD n img)))]
       else []) ++
      (if negb (validBaseline (alreadyRectified n) m)
       then [Log Error (InvalidBaseline (StereoCameraModel.baseline m))]
       else if negb (shown s) && (10 <? StereoCameraModel.baseline m)%float
       then [Log Warn (LargeBaseline (StereoCameraModel.baseline m))]
       else []).
Proof. destruct s as [w sh]. cases. Qed.

(** *** Runs *)

Lemma run_callback_cons n c rest s :
  run_callback ((n, c) :: rest) s =
    let e := exec (callback n (imageRectLeft c) (imageRectRight c)
                     (cameraInfoLeft c) (cameraInfoRight c)) s in
    (fst (run_callback rest (fst e)), snd e ++ snd (run_callback rest (fst e))).
Proof.
  cbn [run_callback].
  destruct (exec _ s) as [s1 t1]. cbn [fst snd].
  destruct (run_callback rest s1) as [s2 t2]. reflexivity.
Qed.

Lemma run_callbackRGBD_cons n img rest s :
  run_callbackRGBD ((n, img) :: rest) s =
    let e := exec (callbackRGBD n img) s in
    (fst (run_callbackRGBD rest (fst e)),
     snd e ++ snd (run_callbackRGBD rest (fst e))).
Proof.
  cbn [run_callbackRGBD].
  destruct (exec _ s) as [s1 t1]. cbn [fst snd].
  destruct (run_callbackRGBD rest s1) as [s2 t2]. reflexivity.
Qed.

(** Over a run of [callback] the fallback warning is logged once if the
    flag is clear and some call takes the fallback, and not at all
    otherwise. *)
Lemma run_callback_fallbackWarnings calls : forall s,
  List.length (filter isFallbackWarning (snd (run_callback calls s))) =
    if negb (warned s) && existsb fallbackCall_callback calls then 1%nat
    else 0%nat.
Proof.
  induction calls as [|[n c] rest IH]; intro s.
  - cbn. now rewrite andb_false_r.
  - rewrite run_callback_cons. cbn [snd existsb].
    rewrite filter_app, length_app, IH, callback_fallbackWarning, callback_warned.
    change (fallbackCall_callback (n, c)) with
      (reachesResolver_callback n (imageRectLeft c) (imageRectRight c) &&
       takesFallback (alreadyRectified n)
         (derivedModel_callback n (imageRectLeft c) (imageRectRight c)
            (cameraInfoLeft c) (cameraInfoRight c))
         (leftToRight_callback n (cameraInfoLeft c) (cameraInfoRight c))).
    rewrite <- andb_assoc.
    destruct (warned s), (_ && takesFallback _ _ _),
      (existsb fallbackCall_callback rest); reflexivity.
Qed.

Lemma run_callbackRGBD_fallbackWarnings calls : forall s,
  List.length (filter isFallbackWarning (snd (run_callbackRGBD calls s))) =
    if negb (warned s) && existsb fallbackCall_callbackRGBD calls then 1%nat
    else 0%nat.
Proof.
  induction calls as [|[n img] rest IH]; intro s.
  - cbn. now rewrite andb_false_r.
  - rewrite run_callbackRGBD_cons. cbn [snd existsb].
    rewrite filter_app, length_app, IH, callbackRGBD_fallbackWarning,
      callbackRGBD_warned.
    change (fallbackCall_callbackRGBD (n, img)) with
      (reachesResolver_callbackRGBD n img &&
       takesFallback (alreadyRectified n) (derivedModel_callbackRGBD n img)
         (leftToRight_callbackRGBD n img)).
    rewrite <- andb_assoc.
    destruct (warned s), (_ && takesFallback _ _ _),
      (existsb fallbackCall_callbackRGBD rest); reflexivity.
Qed.

(** Likewise for the large-baseline warning. *)
Lemma run_callback_largeBaselineWarnings calls : forall s,
  List.length (filter isLargeBaselineWarning (snd (run_callback calls s))) =
    if negb (shown s) && existsb largeBaselineCall_callback calls then 1%nat
    else 0%nat.
Proof.
  induction calls as [|[n c] rest IH]; intro s.
  - cbn. now rewrite andb_false_r.
  - rewrite run_callback_cons. cbn [snd existsb].
    rewrite filter_app, length_app, IH, callback_largeBaselineWarning,
      callback_shown.
    destruct c as [l r li ri]; cbn [imageRectLeft imageRectRight cameraInfoLeft cameraInfoRight].
    destruct (shown s), (largeBaselineCall_callback _),
      (existsb largeBaselineCall_callback rest); reflexivity.
Qed.

Lemma run_callbackRGBD_largeBaselineWarnings calls : forall s,
  List.length (filter isLargeBaselineWarning (snd (run_callbackRGBD calls s))) =
    if negb (shown s) && existsb largeBaselineCall_callbackRGBD calls then 1%nat
    else 0%nat.
Proof.
  induction calls as [|[n img] rest IH]; intro s.
  - cbn. now rewrite andb_false_r.
  - rewrite run_callbackRGBD_cons. cbn [snd existsb].
    rewrite filter_app, length_app, IH, callbackRGBD_largeBaselineWarning,
      callbackRGBD_shown.
    destruct (shown s), (largeBaselineCall_callbackRGBD _),
      (existsb largeBaselineCall_callbackRGBD rest); reflexivity.
Qed.

(** *** Interleaved activations of both entry points *)

Lemma eventsOf_app ep t1 t2 :
  eventsOf ep (t1 ++ t2) = eventsOf ep t1 ++ eventsOf ep t2.
Proof. unfold eventsOf. now rewrite filter_app, map_app. Qed.

Lemma eventsOf_same ep (t : list Event) : eventsOf ep (map (pair ep) t) = t.
Proof.
  unfold eventsOf. induction t as [|e t IH]; [reflexivity|].
  cbn. destruct ep; cbn; now f_equal.
Qed.

Lemma eventsOf_other ep ep' (t : list Event) :
  EntryPoint_eqb ep' ep = false -> eventsOf ep (map (pair ep') t) = [].
Proof.
  intro H. unfold eventsOf. induction t as [|e t IH]; [reflexivity|].
  cbn. now rewrite H.
Qed.

(** The two entry points do not see each other's flags: within any
    interleaving each one logs what it would log running alone. *)
Lemma eventsOf_callback calls : forall s sRGBD,
  eventsOf ViaCallback (run_process calls s sRGBD) =
    snd (run_callback (calls_callback calls) s).
Proof.
  induction calls as [|[n c|n img] rest IH]; intros s sRGBD.
  - reflexivity.
  - cbn [calls_callback]. rewrite run_callback_cons. cbn [run_process snd].
    destruct (exec _ s) as [s1 t1]. cbn [fst snd].
    now rewrite eventsOf_app, eventsOf_same, IH.
  - cbn [calls_callback run_process].
    destruct (exec _ sRGBD) as [s1 t1].
    now rewrite eventsOf_app, eventsOf_other, IH.
Qed.

Lemma eventsOf_callbackRGBD calls : forall s sRGBD,
  eventsOf ViaCallbackRGBD (run_process calls s sRGBD) =
    snd (run_callbackRGBD (calls_callbackRGBD calls) sRGBD).
Proof.
  induction calls as [|[n c|n img] rest IH]; intros s sRGBD.
  - reflexivity.
  - cbn [calls_callbackRGBD run_process].
    destruct (exec _ s) as [s1 t1].
    now rewrite eventsOf_app, eventsOf_other, IH.
  - cbn [calls_callbackRGBD]. rewrite run_callbackRGBD_cons.
    cbn [run_process snd].
    destruct (exec _ sRGBD) as [s1 t1]. cbn [fst snd].
    now rewrite eventsOf_app, eventsOf_same, IH.
Qed.

(** Every event of a process belongs to one of the two entry points. *)
Lemma allEvents_count (f : Event -> bool) t :
  List.length (filter f (allEvents t)) =
    (List.length (filter f (eventsOf ViaCallback t)) +
     List.length (filter f (eventsOf ViaCallbackRGBD t)))%nat.
Proof.
  unfold allEvents, eventsOf. induction t as [|[[] e] t IH]; [reflexivity| |];
    cbn; destruct (f e); cbn; lia.
Qed.

End Calls.

(** * The claims *)

Section Claims.
Context {C : Collaborators}.

(** When the derived baseline is not zero the fallback is out of the
    question, whatever the other tests say. *)
Lemma takesFallback_nonzero rectified m t :
  (StereoCameraModel.baseline m =? 0)%float = false ->
  takesFallback rectified m t = false.
Proof. intro H. unfold takesFallback. now rewrite H. Qed.

Lemma takesFallback_true m t :
  (StereoCameraModel.baseline m =? 0)%float = true ->
  isNull t = false -> (0 <? x t)%float = true ->
  takesFallback true m t = true.
Proof. intros H1 H2 H3. unfold takesFallback. now rewrite H1, H2, H3. Qed.

(** The model the fallback builds passes the baseline check. *)
Lemma fallbackModel_valid rectified m t :
  (0 <? x t)%float = true -> validBaseline rectified (fallbackModel m t) = true.
Proof.
  intro H. unfold validBaseline, fallbackModel. cbn.
  rewrite (positive_not_le0 _ H). now rewrite andb_false_r.
Qed.

(** C1.  With already-rectified images, a derived baseline of exactly zero
    and a non-null left-to-right transform whose x is positive, the frame is
    dispatched with a model whose baseline is that x and whose fx, fy, cx,
    cy, local transform and image size are those of the derived model, on
    the four-stream path and on the composite path.  When the derived
    baseline is not exactly zero, however small, no left-to-right lookup is
    made, no fallback warning is logged and a dispatched frame carries the
    derived model.  The fallback warning is one-shot for each entry point,
    not for the process: the flag is a function-local static of [callback]
    (line 242) and another of [callbackRGBD] (line 381).  Over the life of a
    node, which registers one entry point, the warning is logged exactly
    once if some call takes the fallback and never otherwise; the same
    holds of each entry point within any interleaving of the two in one
    process; and over all calls of such a process it is logged as many
    times as there are entry points on which some call takes the fallback,
    so up to twice. *)
Theorem fallback_baseline_recovery :
  (forall n l r li ri s,
     reachesResolver_callback n l r = true ->
     alreadyRectified n = true ->
     (StereoCameraModel.baseline (derivedModel_callback n l r li ri) =? 0)%float = true ->
     isNull (leftToRight_callback n li ri) = false ->
     (0 <? x (leftToRight_callback n li ri))%float = true ->
     let m := derivedModel_callback n l r li ri in
     dispatched (snd (exec (callback n l r li ri) s)) =
       [frame_callback n l r
          (StereoCameraModel.mk
             (StereoCameraModel.left_fx m) (StereoCameraModel.left_fy m)
             (StereoCameraModel.left_cx m) (StereoCameraModel.left_cy m)
             (x (leftToRight_callback n li ri))
             (StereoCameraModel.localTransform m)
             (StereoCameraModel.left_imageSize m))]) /\
  (forall n img s,
     reachesResolver_callbackRGBD n img = true ->
     alreadyRectified n = true ->
     (StereoCameraModel.baseline (derivedModel_callbackRGBD n img) =? 0)%float = true ->
     isNull (leftToRight_callbackRGBD n img) = false ->
     (0 <? x (leftToRight_callbackRGBD n img))%float = true ->
     let m := derivedModel_callbackRGBD n img in
     dispatched (snd (exec (callbackRGBD n img) s)) =
       [frame_callbackRGBD n img
          (StereoCameraModel.mk
             (StereoCameraModel.left_fx m) (StereoCameraModel.left_fy m)
             (StereoCameraModel.left_cx m) (StereoCameraModel.left_cy m)
             (x (leftToRight_callbackRGBD n img))
             (StereoCameraModel.localTransform m)
             (StereoCameraModel.left_imageSize m))]) /\
  (forall n l r li ri s,
     (StereoCameraModel.baseline (derivedModel_callback n l r li ri) =? 0)%float = false ->
     let t := snd (exec (callback n l r li ri) s) in
     filter isLookup t =
       (if reachesLookup_callback n l r then
          TfLookup (frameId n) (Header.frame_id (header l))
            (laterStamp (Header.stamp (header l)) (Header.stamp (header r))) ::
          (if reachesResolver_callback n l r && negb (alreadyRectified n)
           then [TfLookup (Header.frame_id (info_header ri))
                   (Header.frame_id (info_header li))
                   (Header.stamp (info_header li))]
           else [])
        else []) /\
     filter isFallbackWarning t = [] /\
     (forall e, In e (dispatched t) ->
        e = frame_callback n l r (derivedModel_callback n l r li ri))) /\
  (forall n img s,
     (StereoCameraModel.baseline (derivedModel_callbackRGBD n img) =? 0)%float = false ->
     let t := snd (exec (callbackRGBD n img) s) in
     filter isLookup t =
       (if reachesLookup_callbackRGBD n img then
          TfLookup (frameId n)
            (Header.frame_id (CvImage.header (imageRectLeft_RGBD img)))
            (laterStamp (Header.stamp (CvImage.header (imageRectLeft_RGBD img)))
                        (Header.stamp (CvImage.header (imageRectRight_RGBD img)))) ::
          (if reachesResolver_callbackRGBD n img && negb (alreadyRectified n)
           then [TfLookup (Header.frame_id (info_header (depth_camera_info img)))
                   (Header.frame_id (info_header (rgb_camera_info img)))
                   (Header.stamp (info_header (rgb_camera_info img)))]
           else [])
        else []) /\
     filter isFallbackWarning t = [] /\
     (forall e, In e (dispatched t) ->
        e = frame_callbackRGBD n img (derivedModel_callbackRGBD n img))) /\
  (forall run : NodeRun,
     List.length (filter isFallbackWarning (lifetime run)) =
       if usesFallback run then 1%nat else 0%nat) /\
  (forall calls : list Call,
     let t := run_process calls Statics_init Statics_init in
     List.length (filter isFallbackWarning (eventsOf ViaCallback t)) =
       (if existsb fallbackCall_callback (calls_callback calls)
        then 1%nat else 0%nat) /\
     List.length (filter isFallbackWarning (eventsOf ViaCallbackRGBD t)) =
       (if existsb fallbackCall_callbackRGBD (calls_callbackRGBD calls)
        then 1%nat else 0%nat) /\
     List.length (filter isFallbackWarning (allEvents t)) =
       ((if existsb fallbackCall_callback (calls_callback calls)
         then 1 else 0) +
        (if existsb fallbackCall_callbackRGBD (calls_callbackRGBD calls)
         then 1 else 0))%nat).
Proof.
  split; [|split; [|split; [|split; [|split]]]].
  - intros n l r li ri s Hr Ha Hb Hn Hx m.
    rewrite callback_dispatched, Hr.
    unfold calibrated_callback, resolvedModel_callback, afterFallback.
    rewrite Ha, (takesFallback_true _ _ Hb Hn Hx), (fallbackModel_valid _ _ _ Hx).
    reflexivity.
  - intros n img s Hr Ha Hb Hn Hx m.
    rewrite callbackRGBD_dispatched, Hr.
    unfold calibrated_callbackRGBD, resolvedModel_callbackRGBD, afterFallback.
    rewrite Ha, (takesFallback_true _ _ Hb Hn Hx), (fallbackModel_valid _ _ _ Hx).
    reflexivity.
  - intros n l r li ri s Hb t. subst t.
    rewrite callback_lookups, callback_fallbackWarning, callback_dispatched.
    unfold resolvedModel_callback, afterFallback.
    rewrite (takesFallback_nonzero _ _ _ Hb), Hb.
    repeat split.
    + destruct (reachesLookup_callback n l r); [|reflexivity].
      destruct (reachesResolver_callback n l r); [|reflexivity].
      rewrite andb_false_r. cbn [andb].
      destruct (alreadyRectified n); reflexivity.
    + now rewrite andb_false_r.
    + intros e He.
      destruct (_ && validBaseline _ _); cbn in He; intuition congruence.
  - intros n img s Hb t. subst t.
    rewrite callbackRGBD_lookups, callbackRGBD_fallbackWarning,
      callbackRGBD_dispatched.
    unfold resolvedModel_callbackRGBD, afterFallback.
    rewrite (takesFallback_nonzero _ _ _ Hb), Hb.
    repeat split.
    + destruct (reachesLookup_callbackRGBD n img); [|reflexivity].
      destruct (reachesResolver_callbackRGBD n img); [|reflexivity].
      rewrite andb_false_r. cbn [andb].
      destruct (alreadyRectified n); reflexivity.
    + now rewrite andb_false_r.
    + intros e He.
      destruct (_ && validBaseline _ _); cbn in He; intuition congruence.
  - intros [calls|calls]; cbn [lifetime usesFallback].
    + now rewrite run_callback_fallbackWarnings.
    + now rewrite run_callbackRGBD_fallbackWarnings.
  - intros calls t. subst t.
    rewrite allEvents_count, eventsOf_callback, eventsOf_callbackRGBD.
    now rewrite run_callback_fallbackWarnings,
      run_callbackRGBD_fallbackWarnings.
Qed.

(** ** Calibration of a non-rectified setup (C2) *)

(** On the four-stream path a missing right-to-left transform and an
    identity one both drop the frame, each with its own error. *)
Lemma callback_calibration_required n l r li ri s :
  reachesResolver_callback n l r = true ->
  alreadyRectified n = false ->
  let t := snd (exec (callback n l r li ri) s) in
  (isNull (calibration_callback n li ri) = true ->
   diagnostics t = [Log Error MissingCalibrationTransform] /\ dispatched t = []) /\
  (isNull (calibration_callback n li ri) = false ->
   isIdentity (calibration_callback n li ri) = true ->
   diagnostics t = [Log Error DegenerateCalibrationTransform] /\ dispatched t = []).
Proof.
  intros Hr Ha t. subst t.
  rewrite callback_diagnostics, callback_dispatched.
  unfold calibrated_callback. rewrite Hr, Ha.
  unfold reachesResolver_callback, reachesLookup_callback in Hr.
  repeat (apply andb_prop in Hr; destruct Hr as [Hr ?]).
  repeat match goal with H : negb _ = true |- _ => apply negb_true_iff in H end.
  split; intros; repeat match goal with H : _ = _ |- _ => rewrite H end; cbn;
    split; reflexivity.
Qed.

(** On the composite path a missing transform drops the frame. *)
Lemma callbackRGBD_calibration_missing n img s :
  reachesResolver_callbackRGBD n img = true ->
  alreadyRectified n = false ->
  isNull (calibration_callbackRGBD n img) = true ->
  let t := snd (exec (callbackRGBD n img) s) in
  diagnostics t = [Log Error MissingCalibrationTransform] /\ dispatched t = [].
Proof.
  intros Hr Ha Hn t. subst t.
  rewrite callbackRGBD_diagnostics, callbackRGBD_dispatched.
  unfold calibrated_callbackRGBD. rewrite Hr, Ha, Hn.
  unfold reachesResolver_callbackRGBD, reachesLookup_callbackRGBD in Hr.
  repeat (apply andb_prop in Hr; destruct Hr as [Hr ?]).
  repeat match goal with H : negb _ = true |- _ => apply negb_true_iff in H end.
  repeat match goal with H : _ = _ |- _ => rewrite H end; cbn.
  split; reflexivity.
Qed.

(** The composite path never asks whether the transform is the identity:
    any non-null answer lets the frame through, and the degenerate-transform
    error is not among its log lines. *)
Lemma callbackRGBD_identity_not_checked n img s :
  reachesResolver_callbackRGBD n img = true ->
  alreadyRectified n = false ->
  isNull (calibration_callbackRGBD n img) = false ->
  dispatched (snd (exec (callbackRGBD n img) s)) =
    [frame_callbackRGBD n img (derivedModel_callbackRGBD n img)].
Proof.
  intros Hr Ha Hn.
  rewrite callbackRGBD_dispatched.
  unfold calibrated_callbackRGBD, resolvedModel_callbackRGBD, afterFallback,
    takesFallback, validBaseline.
  rewrite Hr, Ha, Hn, andb_false_r. reflexivity.
Qed.

Lemma callbackRGBD_never_degenerate n img s :
  ~ In (Log Error DegenerateCalibrationTransform)
       (snd (exec (callbackRGBD n img) s)).
Proof.
  intro H.
  assert (Hd : In (Log Error DegenerateCalibrationTransform)
                 (diagnostics (snd (exec (callbackRGBD n img) s))))
    by (apply filter_In; split; [exact H | reflexivity]).
  rewrite callbackRGBD_diagnostics in Hd. cbv zeta in Hd.
  repeat match type of Hd with
  | context [if ?b then _ else _] => destruct b
  end; cbn in Hd; intuition discriminate.
Qed.

(** ** Encodings *)

(** The accepted set, as a list. *)
Lemma acceptedEncoding_spec e :
  acceptedEncoding e = true <->
  In e [TYPE_8UC1; MONO8; MONO16; BGR8; RGB8; BGRA8; RGBA8].
Proof.
  unfold acceptedEncoding. cbn [In].
  repeat rewrite orb_true_iff. repeat rewrite String.eqb_eq.
  intuition congruence.
Qed.

(** C6.  When the left or the right encoding is outside the accepted set,
    nothing is handed to the estimator and the static flags are left alone;
    past the pause gate the callback does nothing but log the
    unsupported-encoding error and return.  Both paths. *)
Theorem unsupported_encoding_dropped :
  (forall n l r li ri s,
     ~ In (encoding l) [TYPE_8UC1; MONO8; MONO16; BGR8; RGB8; BGRA8; RGBA8] \/
     ~ In (encoding r) [TYPE_8UC1; MONO8; MONO16; BGR8; RGB8; BGRA8; RGBA8] ->
     let res := exec (callback n l r li ri) s in
     dispatched (snd res) = [] /\ fst res = s /\
     (isPaused n = false ->
      snd res = [CallbackCalled;
                 Log Error (UnsupportedEncoding (encoding l) (encoding r))])) /\
  (forall n img s,
     let l := imageRectLeft_RGBD img in
     let r := imageRectRight_RGBD img in
     ~ In (CvImage.encoding l) [TYPE_8UC1; MONO8; MONO16; BGR8; RGB8; BGRA8; RGBA8] \/
     ~ In (CvImage.encoding r) [TYPE_8UC1; MONO8; MONO16; BGR8; RGB8; BGRA8; RGBA8] ->
     let res := exec (callbackRGBD n img) s in
     dispatched (snd res) = [] /\ fst res = s /\
     (isPaused n = false ->
      snd res = [CallbackCalled;
                 Log Error (UnsupportedEncoding (CvImage.encoding l)
                                                (CvImage.encoding r))])).
Proof.
  split.
  - intros n l r li ri s H res. subst res.
    assert (Ha : acceptedEncoding (encoding l) && acceptedEncoding (encoding r) = false).
    { apply andb_false_iff.
      destruct H as [H|H]; [left|right];
        apply not_true_is_false; intro A; apply H, acceptedEncoding_spec, A. }
    clear H. destruct s as [w sh]. apply andb_false_iff in Ha.
    destruct Ha as [Ha|Ha]; run; rewrite Ha; tidy;
      destruct (isPaused n); tidy;
      try destruct (acceptedEncoding (encoding l)); tidy;
      repeat split; congruence.
  - intros n img s l r H res. subst res l r.
    assert (Ha : acceptedEncoding (CvImage.encoding (imageRectLeft_RGBD img)) &&
                 acceptedEncoding (CvImage.encoding (imageRectRight_RGBD img)) = false).
    { apply andb_false_iff.
      destruct H as [H|H]; [left|right];
        apply not_true_is_false; intro A; apply H, acceptedEncoding_spec, A. }
    clear H. destruct s as [w sh]. apply andb_false_iff in Ha.
    unfold imageRectLeft_RGBD, imageRectRight_RGBD in *.
    destruct Ha as [Ha|Ha]; run; rewrite Ha; tidy;
      destruct (isPaused n); tidy;
      try destruct (acceptedEncoding (CvImage.encoding (fst (toCvShare img)))); tidy;
      repeat split; congruence.
Qed.

(** ** Normalization of the images *)

(** The four-stream path always leaves the right image single-channel
    8-bit: as it came when it was so already, converted to mono8
    otherwise. *)
Lemma ptrImageRight_callback_grey (r : Image) :
  ((encoding r = TYPE_8UC1 \/ encoding r = MONO8) ->
   ptrImageRight_callback r = CvImage.mk (header r) (encoding r) (data r)) /\
  (encoding r <> TYPE_8UC1 -> encoding r <> MONO8 ->
   ptrImageRight_callback r =
     CvImage.mk (header r) "mono8" (cvtPixels (encoding r) "mono8" (data r))).
Proof.
  unfold ptrImageRight_callback, toCvCopy, TYPE_8UC1, MONO8. split.
  - intros [H|H]; rewrite H; reflexivity.
  - intros H1 H2.
    apply String.eqb_neq in H1, H2. rewrite H1, H2. cbn [orb].
    rewrite String.eqb_sym in H2. now rewrite H2.
Qed.

(** The composite path decides the conversion of the right image on the
    encoding of the left one: next to a grey left image the right image is
    passed on as it came, whatever its own encoding. *)
Lemma ptrImageRight_callbackRGBD_follows_left (l r : CvImage.t) :
  CvImage.encoding l = TYPE_8UC1 \/ CvImage.encoding l = MONO8 ->
  ptrImageRight_callbackRGBD l r = r.
Proof.
  unfold ptrImageRight_callbackRGBD, TYPE_8UC1, MONO8.
  intros [H|H]; rewrite H; reflexivity.
Qed.

(** Every frame a call dispatches is the frame of its path. *)
Lemma callback_dispatch_inv n l r li ri s d h :
  In (ProcessData d h) (snd (exec (callback n l r li ri) s)) ->
  reachesResolver_callback n l r = true /\
  ProcessData d h = frame_callback n l r (resolvedModel_callback n l r li ri).
Proof.
  intro H.
  assert (Hd : In (ProcessData d h) (dispatched (snd (exec (callback n l r li ri) s))))
    by (apply filter_In; split; [exact H | reflexivity]).
  rewrite callback_dispatched in Hd.
  destruct (reachesResolver_callback n l r); [|contradiction].
  destruct (_ && validBaseline _ _); [|contradiction].
  destruct Hd as [Hd|[]]. now split.
Qed.

Lemma callbackRGBD_dispatch_inv n img s d h :
  In (ProcessData d h) (snd (exec (callbackRGBD n img) s)) ->
  reachesResolver_callbackRGBD n img = true /\
  ProcessData d h =
    frame_callbackRGBD n img (resolvedModel_callbackRGBD n img).
Proof.
  intro H.
  assert (Hd : In (ProcessData d h) (dispatched (snd (exec (callbackRGBD n img) s))))
    by (apply filter_In; split; [exact H | reflexivity]).
  rewrite callbackRGBD_dispatched in Hd.
  destruct (reachesResolver_callbackRGBD n img); [|contradiction].
  destruct (_ && validBaseline _ _); [|contradiction].
  destruct Hd as [Hd|[]]. now split.
Qed.

(** C3.  The left image of a dispatched frame is the normalized left input,
    on both paths, and the normalization of an accepted left image is: an
    8UC1 or mono8 image passes unchanged; a mono16 image becomes mono8
    whatever keep-color says; a bgr8, rgb8, bgra8 or rgba8 image becomes
    bgr8 with keep-color (a bgr8 one staying as it is) and mono8 without. *)
Theorem left_image_normalization :
  (forall n l r li ri s d h,
     In (ProcessData d h) (snd (exec (callback n l r li ri) s)) ->
     imageRaw d = CvImage.image (ptrImageLeft_callback (keepColor_ n) l)) /\
  (forall n img s d h,
     In (ProcessData d h) (snd (exec (callbackRGBD n img) s)) ->
     imageRaw d =
       CvImage.image
         (ptrImageLeft_callbackRGBD (keepColor_ n) (imageRectLeft_RGBD img))) /\
  (forall (keepColor : bool) (l : Image),
     ((encoding l = TYPE_8UC1 \/ encoding l = MONO8) ->
      ptrImageLeft_callback keepColor l =
        CvImage.mk (header l) (encoding l) (data l)) /\
     (encoding l = MONO16 ->
      ptrImageLeft_callback keepColor l =
        CvImage.mk (header l) "mono8" (cvtPixels MONO16 "mono8" (data l))) /\
     (In (encoding l) [BGR8; RGB8; BGRA8; RGBA8] ->
      ptrImageLeft_callback keepColor l =
        if keepColor then
          CvImage.mk (header l) "bgr8"
            (if encoding l =? BGR8 then data l
             else cvtPixels (encoding l) "bgr8" (data l))
        else
          CvImage.mk (header l) "mono8"
            (cvtPixels (encoding l) "mono8" (data l)))) /\
  (forall (keepColor : bool) (l : CvImage.t),
     ((CvImage.encoding l = TYPE_8UC1 \/ CvImage.encoding l = MONO8) ->
      ptrImageLeft_callbackRGBD keepColor l = l) /\
     (CvImage.encoding l = MONO16 ->
      ptrImageLeft_callbackRGBD keepColor l =
        CvImage.mk (CvImage.header l) "mono8"
          (cvtPixels MONO16 "mono8" (CvImage.image l))) /\
     (In (CvImage.encoding l) [BGR8; RGB8; BGRA8; RGBA8] ->
      ptrImageLeft_callbackRGBD keepColor l =
        if keepColor then
          CvImage.mk (CvImage.header l) "bgr8"
            (if CvImage.encoding l =? BGR8 then CvImage.image l
             else cvtPixels (CvImage.encoding l) "bgr8" (CvImage.image l))
        else
          CvImage.mk (CvImage.header l) "mono8"
            (cvtPixels (CvImage.encoding l) "mono8" (CvImage.image l)))).
Proof.
  split; [|split; [|split]].
  - intros n l r li ri s d h H.
    apply callback_dispatch_inv in H. destruct H as [_ H].
    unfold frame_callback in H. now injection H as -> _.
  - intros n img s d h H.
    apply callbackRGBD_dispatch_inv in H. destruct H as [_ H].
    unfold frame_callbackRGBD in H. now injection H as -> _.
  - intros keepColor [hd enc bytes]. cbn [encoding header data].
    unfold ptrImageLeft_callback, toCvCopy, TYPE_8UC1, MONO8, MONO16, BGR8,
      RGB8, BGRA8, RGBA8.
    cbn [encoding header data In].
    repeat split.
    + intros [->| ->]; reflexivity.
    + intros ->. destruct keepColor; reflexivity.
    + intros [<-|[<-|[<-|[<-|[]]]]]; destruct keepColor; reflexivity.
  - intros keepColor [hd enc bytes]. cbn [CvImage.encoding CvImage.header CvImage.image].
    unfold ptrImageLeft_callbackRGBD, cvtColor, TYPE_8UC1, MONO8, MONO16, BGR8,
      RGB8, BGRA8, RGBA8.
    cbn [CvImage.encoding CvImage.header CvImage.image In].
    repeat split.
    + intros [->| ->]; reflexivity.
    + intros ->. destruct keepColor; reflexivity.
    + intros [<-|[<-|[<-|[<-|[]]]]]; destruct keepColor; reflexivity.
Qed.

(** ** The baseline checks *)

(** With rectified images, a resolved baseline at or below zero means the
    fallback was not taken and the baseline check fails. *)
Lemma nonpositive_resolved m t :
  (StereoCameraModel.baseline (afterFallback true m t) <=? 0)%float = true ->
  takesFallback true m t = false /\
  validBaseline true (afterFallback true m t) = false.
Proof.
  intro H. split.
  - unfold afterFallback in H.
    destruct (takesFallback true m t) eqn:Ht; [|reflexivity].
    unfold takesFallback in Ht.
    apply andb_prop in Ht. destruct Ht as [_ Hx].
    cbn in H. rewrite (positive_not_le0 _ Hx) in H. discriminate H.
  - unfold validBaseline. now rewrite H.
Qed.

Lemma reachesResolver_callback_inv n l r :
  reachesResolver_callback n l r = true ->
  isPaused n = false /\
  acceptedEncoding (encoding l) && acceptedEncoding (encoding r) = true /\
  isNull (bodyTransform_callback n l r) = false /\
  Mat_empty (data l) || Mat_empty (data r) = false.
Proof.
  unfold reachesResolver_callback, reachesLookup_callback. intro H.
  repeat (apply andb_prop in H; destruct H as [H ?]).
  repeat match goal with X : negb _ = true |- _ => apply negb_true_iff in X end.
  repeat match goal with X : _ = _ |- _ => rewrite X end. now repeat split.
Qed.

Lemma reachesResolver_callbackRGBD_inv n img :
  reachesResolver_callbackRGBD n img = true ->
  isPaused n = false /\
  acceptedEncoding (CvImage.encoding (imageRectLeft_RGBD img)) &&
  acceptedEncoding (CvImage.encoding (imageRectRight_RGBD img)) = true /\
  isNull (bodyTransform_callbackRGBD n img) = false /\
  Mat_empty (CvImage.image (imageRectLeft_RGBD img)) ||
  Mat_empty (CvImage.image (imageRectRight_RGBD img)) = false.
Proof.
  unfold reachesResolver_callbackRGBD, reachesLookup_callbackRGBD. intro H.
  repeat (apply andb_prop in H; destruct H as [H ?]).
  repeat match goal with X : negb _ = true |- _ => apply negb_true_iff in X end.
  repeat match goal with X : _ = _ |- _ => rewrite X end. now repeat split.
Qed.

(** The flags a call leaves. *)
Lemma callback_statics n l r li ri s :
  fst (exec (callback n l r li ri) s) =
    mkStatics
      (warned s || fallbackCall_callback (n, mkTuple l r li ri))
      (shown s || largeBaselineCall_callback (n, mkTuple l r li ri)).
Proof.
  rewrite <- callback_shown.
  change (fallbackCall_callback (n, mkTuple l r li ri)) with
    (reachesResolver_callback n l r &&
     takesFallback (alreadyRectified n) (derivedModel_callback n l r li ri)
       (leftToRight_callback n li ri)).
  rewrite <- callback_warned.
  now destruct (fst (exec (callback n l r li ri) s)).
Qed.

Lemma callbackRGBD_statics n img s :
  fst (exec (callbackRGBD n img) s) =
    mkStatics
      (warned s || fallbackCall_callbackRGBD (n, img))
      (shown s || largeBaselineCall_callbackRGBD (n, img)).
Proof.
  rewrite <- callbackRGBD_shown.
  change (fallbackCall_callbackRGBD (n, img)) with
    (reachesResolver_callbackRGBD n img &&
     takesFallback (alreadyRectified n) (derivedModel_callbackRGBD n img)
       (leftToRight_callbackRGBD n img)).
  rewrite <- callbackRGBD_warned.
  now destruct (fst (exec (callbackRGBD n img) s)).
Qed.

(** C5.  With already-rectified images, when the baseline in force after
    the fallback block is at or below zero, the callback logs the
    invalid-baseline error and nothing else, hands nothing to the estimator
    and leaves the static flags as they were.  Both paths. *)
Theorem invalid_baseline_dropped :
  (forall n l r li ri s,
     reachesResolver_callback n l r = true ->
     alreadyRectified n = true ->
     (StereoCameraModel.baseline (resolvedModel_callback n l r li ri) <=? 0)%float = true ->
     let res := exec (callback n l r li ri) s in
     dispatched (snd res) = [] /\
     diagnostics (snd res) =
       [Log Error (InvalidBaseline
          (StereoCameraModel.baseline (resolvedModel_callback n l r li ri)))] /\
     fst res = s) /\
  (forall n img s,
     reachesResolver_callbackRGBD n img = true ->
     alreadyRectified n = true ->
     (StereoCameraModel.baseline (resolvedModel_callbackRGBD n img) <=? 0)%float = true ->
     let res := exec (callbackRGBD n img) s in
     dispatched (snd res) = [] /\
     diagnostics (snd res) =
       [Log Error (InvalidBaseline
          (StereoCameraModel.baseline (resolvedModel_callbackRGBD n img)))] /\
     fst res = s).
Proof.
  split.
  - intros n l r li ri s Hr Ha Hb res. subst res.
    rewrite callback_dispatched, callback_diagnostics, callback_statics.
    cbn [fallbackCall_callback largeBaselineCall_callback imageRectLeft
         imageRectRight cameraInfoLeft cameraInfoRight].
    destruct (reachesResolver_callback_inv _ _ _ Hr) as (Hp & He & Hn & Hm).
    rewrite Hr, Hp, He, Hn, Hm.
    unfold calibrated_callback, resolvedModel_callback in *.
    rewrite Ha in *.
    destruct (nonpositive_resolved _ _ Hb) as [Ht Hv].
    rewrite Ht, Hv. cbn. rewrite !andb_false_r, !orb_false_r.
    destruct s; now repeat split.
  - intros n img s Hr Ha Hb res. subst res.
    rewrite callbackRGBD_dispatched, callbackRGBD_diagnostics,
      callbackRGBD_statics.
    cbn [fallbackCall_callbackRGBD largeBaselineCall_callbackRGBD].
    destruct (reachesResolver_callbackRGBD_inv _ _ Hr) as (Hp & He & Hn & Hm).
    rewrite Hr, Hp, He, Hn, Hm.
    unfold calibrated_callbackRGBD, resolvedModel_callbackRGBD in *.
    rewrite Ha in *.
    destruct (nonpositive_resolved _ _ Hb) as [Ht Hv].
    rewrite Ht, Hv. cbn. rewrite !andb_false_r, !orb_false_r.
    destruct s; now repeat split.
Qed.

(** C7.  A frame whose resolved baseline is above ten is handed to the
    estimator all the same, with that model, and the call logs no error, on
    both paths.  The large-baseline warning is one-shot for each entry
    point, not for the process: the flag is a function-local static of
    [callback] (line 272) and another of [callbackRGBD] (line 411).  Over
    the life of a node, which registers one entry point, the warning is
    logged at most once; each entry point logs it at most once within any
    interleaving of the two in one process; and over all calls of such a
    process it is logged at most twice. *)
Theorem large_baseline_accepted :
  (forall n l r li ri s,
     reachesResolver_callback n l r = true ->
     calibrated_callback n li ri = true ->
     (10 <? StereoCameraModel.baseline (resolvedModel_callback n l r li ri))%float = true ->
     let t := snd (exec (callback n l r li ri) s) in
     dispatched t = [frame_callback n l r (resolvedModel_callback n l r li ri)] /\
     filter isError t = []) /\
  (forall n img s,
     reachesResolver_callbackRGBD n img = true ->
     calibrated_callbackRGBD n img = true ->
     (10 <? StereoCameraModel.baseline (resolvedModel_callbackRGBD n img))%float = true ->
     let t := snd (exec (callbackRGBD n img) s) in
     dispatched t = [frame_callbackRGBD n img (resolvedModel_callbackRGBD n img)] /\
     filter isError t = []) /\
  (forall run : NodeRun,
     (List.length (filter isLargeBaselineWarning (lifetime run)) <= 1)%nat) /\
  (forall (calls : list Call) (ep : EntryPoint),
     let t := run_process calls Statics_init Statics_init in
     (List.length (filter isLargeBaselineWarning (eventsOf ep t)) <= 1)%nat) /\
  (forall calls : list Call,
     let t := run_process calls Statics_init Statics_init in
     (List.length (filter isLargeBaselineWarning (allEvents t)) <= 2)%nat).
Proof.
  assert (Hv : forall rectified m,
            (10 <? StereoCameraModel.baseline m)%float = true ->
            validBaseline rectified m = true).
  { intros rectified m H. unfold validBaseline.
    rewrite (above10_not_le0 _ H). now rewrite andb_false_r. }
  assert (Herr : forall t, filter isError (diagnostics t) = [] -> filter isError t = []).
  { intros t. unfold diagnostics. induction t as [|e t IH]; [reflexivity|].
    destruct e as [| | [] ?|]; cbn; auto; discriminate. }
  split; [|split; [|split; [|split]]].
  - intros n l r li ri s Hr Hc Hb t. subst t. split.
    + now rewrite callback_dispatched, Hr, Hc, (Hv _ _ Hb).
    + apply Herr. rewrite callback_diagnostics. cbv zeta.
      destruct (reachesResolver_callback_inv _ _ _ Hr) as (Hp & He & Hn & Hm).
      rewrite Hp, He, Hn, Hm, Hc, (Hv _ _ Hb). cbn.
      repeat match goal with |- context [if ?b then _ else _] => destruct b end;
        reflexivity.
  - intros n img s Hr Hc Hb t. subst t. split.
    + now rewrite callbackRGBD_dispatched, Hr, Hc, (Hv _ _ Hb).
    + apply Herr. rewrite callbackRGBD_diagnostics. cbv zeta.
      destruct (reachesResolver_callbackRGBD_inv _ _ Hr) as (Hp & He & Hn & Hm).
      rewrite Hp, He, Hn, Hm, Hc, (Hv _ _ Hb). cbn.
      repeat match goal with |- context [if ?b then _ else _] => destruct b end;
        reflexivity.
  - intros [calls|calls]; cbn [lifetime].
    + rewrite run_callback_largeBaselineWarnings.
      destruct (_ && _); lia.
    + rewrite run_callbackRGBD_largeBaselineWarnings.
      destruct (_ && _); lia.
  - intros calls [] t; subst t.
    + rewrite eventsOf_callback, run_callback_largeBaselineWarnings.
      destruct (_ && _); lia.
    + rewrite eventsOf_callbackRGBD, run_callbackRGBD_largeBaselineWarnings.
      destruct (_ && _); lia.
  - intros calls t; subst t.
    rewrite allEvents_count, eventsOf_callback, eventsOf_callbackRGBD,
      run_callback_largeBaselineWarnings,
      run_callbackRGBD_largeBaselineWarnings.
    repeat match goal with |- context [if ?b then _ else _] => destruct b end;
      cbn [List.length]; lia.
Qed.

(** ** The stamp of a frame *)

Lemma Time_gt_spec a b :
  Time_valid a -> Time_valid b ->
  Time_gt a b = true <-> (toNSec b < toNSec a)%Z.
Proof.
  unfold Time_valid, Time_gt, toNSec. intros Ha Hb.
  rewrite Z.gtb_ltb.
  destruct (Z.ltb_spec (sec b) (sec a)) as [H|H]; [split; [lia|reflexivity]|].
  destruct (Z.eqb_spec (sec a) (sec b)) as [E|E]; cbn [andb].
  - rewrite Z.gtb_ltb.
    destruct (Z.ltb_spec (nsec b) (nsec a)); split; try lia; discriminate.
  - split; [discriminate | lia].
Qed.

Lemma laterStamp_cases a b : laterStamp a b = a \/ laterStamp a b = b.
Proof. unfold laterStamp. destruct (Time_gt a b); auto. Qed.

(** Neither input is later than the chosen stamp. *)
Lemma laterStamp_upper a b :
  Time_gt a (laterStamp a b) = false /\ Time_gt b (laterStamp a b) = false.
Proof.
  unfold laterStamp. destruct (Time_gt a b) eqn:H; unfold Time_gt in *;
    rewrite ?Z.gtb_ltb in *; split;
    repeat match goal with
    | |- context [(?u <? ?v)%Z] => destruct (Z.ltb_spec u v)
    | |- context [(?u =? ?v)%Z] => destruct (Z.eqb_spec u v)
    | X : context [(?u <? ?v)%Z] |- _ => destruct (Z.ltb_spec u v)
    | X : context [(?u =? ?v)%Z] |- _ => destruct (Z.eqb_spec u v)
    end; cbn in *; try reflexivity; try discriminate; lia.
Qed.

(** On normalized stamps it is the maximum in nanoseconds. *)
Lemma laterStamp_max a b :
  Time_valid a -> Time_valid b ->
  toNSec (laterStamp a b) = Z.max (toNSec a) (toNSec b).
Proof.
  intros Ha Hb. unfold laterStamp.
  pose proof (Time_gt_spec a b Ha Hb) as H.
  destruct (Time_gt a b).
  - assert (toNSec b < toNSec a)%Z by now apply H. lia.
  - assert (~ (toNSec b < toNSec a)%Z) by (intro X; apply H in X; discriminate). lia.
Qed.

(** C8.  A dispatched frame is stamped with the later of the two image
    stamps: the header stamp is one of the two, neither image stamp is
    later than it, and on normalized stamps it is their maximum in
    nanoseconds; the stamp of the sensor data is converted from that same
    stamp, and the body-frame transform was looked up at it.  Both paths. *)
Theorem frame_stamp_is_later_stamp :
  (forall n l r li ri s d h,
     let t := snd (exec (callback n l r li ri) s) in
     let tl := Header.stamp (header l) in
     let tr := Header.stamp (header r) in
     In (ProcessData d h) t ->
     (Header.stamp h = tl \/ Header.stamp h = tr) /\
     Time_gt tl (Header.stamp h) = false /\
     Time_gt tr (Header.stamp h) = false /\
     (Time_valid tl -> Time_valid tr ->
      toNSec (Header.stamp h) = Z.max (toNSec tl) (toNSec tr)) /\
     data_stamp d = timestampFromROS (Header.stamp h) /\
     In (TfLookup (frameId n) (Header.frame_id (header l)) (Header.stamp h)) t) /\
  (forall n img s d h,
     let t := snd (exec (callbackRGBD n img) s) in
     let l := imageRectLeft_RGBD img in
     let tl := Header.stamp (CvImage.header l) in
     let tr := Header.stamp (CvImage.header (imageRectRight_RGBD img)) in
     In (ProcessData d h) t ->
     (Header.stamp h = tl \/ Header.stamp h = tr) /\
     Time_gt tl (Header.stamp h) = false /\
     Time_gt tr (Header.stamp h) = false /\
     (Time_valid tl -> Time_valid tr ->
      toNSec (Header.stamp h) = Z.max (toNSec tl) (toNSec tr)) /\
     data_stamp d = timestampFromROS (Header.stamp h) /\
     In (TfLookup (frameId n) (Header.frame_id (CvImage.header l)) (Header.stamp h)) t).
Proof.
  split.
  - intros n l r li ri s d h t tl tr H. subst t tl tr.
    destruct (callback_dispatch_inv _ _ _ _ _ _ _ _ H) as [Hr E].
    unfold frame_callback in E. cbv zeta in E. injection E as -> ->.
    cbn [Header.stamp data_stamp].
    repeat split; try apply laterStamp_cases; try apply laterStamp_upper;
      try apply laterStamp_max.
    apply (proj1 (filter_In isLookup _ _)).
    rewrite callback_lookups.
    unfold reachesResolver_callback in Hr.
    do 3 (apply andb_prop in Hr; destruct Hr as [Hr _]).
    rewrite Hr. now left.
  - intros n img s d h t l tl tr H. subst t l tl tr.
    destruct (callbackRGBD_dispatch_inv _ _ _ _ _ H) as [Hr E].
    unfold frame_callbackRGBD in E. cbv zeta in E. injection E as -> ->.
    cbn [Header.stamp data_stamp].
    repeat split; try apply laterStamp_cases; try apply laterStamp_upper;
      try apply laterStamp_max.
    apply (proj1 (filter_In isLookup _ _)).
    rewrite callbackRGBD_lookups.
    unfold reachesResolver_callbackRGBD in Hr.
    do 3 (apply andb_prop in Hr; destruct Hr as [Hr _]).
    rewrite Hr. now left.
Qed.

(** ** Order of the body-frame lookup and the empty-image test *)

(** C10.  On the four-stream path the body-frame lookup comes before the
    empty-image test.  For a tuple that reaches the lookup (past the pause
    gate and the encoding test) and finds no body-frame transform, the call
    makes the lookup and ends: no log line, nothing for the estimator, the
    static flags untouched, whether or not the images hold data.  Whenever
    the body-frame transform is unavailable nothing is dispatched and no
    empty-image warning is logged, and the empty-image warning is logged
    only by calls whose lookup was made and succeeded. *)
Theorem body_lookup_precedes_empty_check :
  (forall n l r li ri s,
     reachesLookup_callback n l r = true ->
     isNull (bodyTransform_callback n l r) = true ->
     exec (callback n l r li ri) s =
       (s, [CallbackCalled;
            TfLookup (frameId n) (Header.frame_id (header l))
              (laterStamp (Header.stamp (header l)) (Header.stamp (header r)))])) /\
  (forall n l r li ri s,
     isNull (bodyTransform_callback n l r) = true ->
     let t := snd (exec (callback n l r li ri) s) in
     dispatched t = [] /\ filter isEmptyImageWarning t = []) /\
  (forall n l r li ri s,
     In (Log Warn EmptyImage) (snd (exec (callback n l r li ri) s)) ->
     reachesLookup_callback n l r = true /\
     isNull (bodyTransform_callback n l r) = false).
Proof.
  assert (E : forall n l r li ri s,
            In (Log Warn EmptyImage) (snd (exec (callback n l r li ri) s)) ->
            reachesLookup_callback n l r = true /\
            isNull (bodyTransform_callback n l r) = false).
  { intros n l r li ri s H.
    assert (Hd : In (Log Warn EmptyImage)
                   (diagnostics (snd (exec (callback n l r li ri) s))))
      by (apply filter_In; split; [exact H | reflexivity]).
    rewrite callback_diagnostics in Hd. cbv zeta in Hd.
    unfold reachesLookup_callback.
    destruct (isPaused n); [contradiction|].
    destruct (acceptedEncoding (encoding l) && acceptedEncoding (encoding r)) eqn:He;
      cbn [negb] in Hd; [|cbn in Hd; intuition discriminate].
    destruct (isNull (bodyTransform_callback n l r)); [contradiction|].
    cbn [negb andb]. split; [|reflexivity].
    apply andb_prop in He. destruct He as [-> ->]. reflexivity. }
  split; [|split]; [| |exact E].
  - intros n l r li ri s Hr Hn. stages.
    repeat (apply andb_prop in Hr; destruct Hr as [Hr ?]).
    apply negb_true_iff in Hr.
    run. repeat match goal with X : _ = _ |- _ => rewrite X end. reflexivity.
  - intros n l r li ri s Hn t. subst t. split.
    + rewrite callback_dispatched. unfold reachesResolver_callback.
      now rewrite Hn, !andb_false_r.
    + destruct (filter isEmptyImageWarning _) as [|e rest] eqn:F; [reflexivity|].
      assert (He : In e (filter isEmptyImageWarning
                           (snd (exec (callback n l r li ri) s))))
        by (rewrite F; now left).
      apply filter_In in He. destruct He as [He Hw].
      destruct e as [| |[] []|]; try discriminate Hw.
      apply E in He. destruct He as [_ He]. congruence.
Qed.

(** ** One-shot warnings in a process that runs both entry points *)

(** The one-shot flags are function-local statics, one pair in [callback]
    and one pair in [callbackRGBD].  Over any interleaving of activations of
    the two, started with the flags clear, the number of times a warning is
    logged in all is the number of entry points on which some activation
    meets its condition: at most two. *)
Theorem one_shot_per_entry_point (calls : list Call) :
  let t := allEvents (run_process calls Statics_init Statics_init) in
  List.length (filter isFallbackWarning t) =
    ((if existsb fallbackCall_callback (calls_callback calls) then 1 else 0) +
     (if existsb fallbackCall_callbackRGBD (calls_callbackRGBD calls)
      then 1 else 0))%nat /\
  List.length (filter isLargeBaselineWarning t) =
    ((if existsb largeBaselineCall_callback (calls_callback calls) then 1 else 0) +
     (if existsb largeBaselineCall_callbackRGBD (calls_callbackRGBD calls)
      then 1 else 0))%nat /\
  (List.length (filter isFallbackWarning t) <= 2)%nat /\
  (List.length (filter isLargeBaselineWarning t) <= 2)%nat.
Proof.
  intro t. subst t.
  rewrite !allEvents_count, !eventsOf_callback, !eventsOf_callbackRGBD.
  rewrite run_callback_fallbackWarnings, run_callbackRGBD_fallbackWarnings,
    run_callback_largeBaselineWarnings, run_callbackRGBD_largeBaselineWarnings.
  cbn [Statics_init warned shown negb andb].
  repeat split;
    repeat match goal with |- context [if ?b then _ else _] => destruct b end;
    lia.
Qed.

End Claims.

(** ** Flushing the synchronizers *)

Section Flush.
Context (MyApproxSyncPolicy MyExactSyncPolicy : SyncPolicy).

(** A delivery changes neither the queue size nor which synchronizer
    exists, so a flush after it builds what a flush before it would have. *)
Lemma flushCallbacks_deliver (m : Members MyApproxSyncPolicy MyExactSyncPolicy) msg :
  flushCallbacks (fst (deliver m msg)) = flushCallbacks m.
Proof.
  unfold deliver, flushCallbacks.
  destruct (approxSync_ m) as [a|], (exactSync_ m) as [e|];
    repeat match goal with
    | |- context [add ?st ?x] => destruct (add st x)
    end; reflexivity.
Qed.

Lemma flushCallbacks_deliverAll msgs : forall m : Members MyApproxSyncPolicy MyExactSyncPolicy,
  flushCallbacks (fst (deliverAll m msgs)) = flushCallbacks m.
Proof.
  induction msgs as [|msg rest IH]; intro m; [reflexivity|].
  cbn [deliverAll].
  destruct (deliver m msg) as [m1 out1] eqn:E1.
  destruct (deliverAll m1 rest) as [m2 out2] eqn:E2.
  cbn [fst].
  change m2 with (fst (m2, out2)). rewrite <- E2, IH.
  change m1 with (fst (m1, out1)). rewrite <- E1.
  apply flushCallbacks_deliver.
Qed.

(** C9.  [flushCallbacks] replaces every synchronizer that exists by a
    freshly constructed one of the configured queue size, with nothing
    pending, and leaves a null one null; the tuples signalled after a flush
    are those a node flushed before any delivery would signal, so nothing
    delivered before the flush takes part in them; and a change of the queue
    size, which flushes, leaves synchronizers of the new size with nothing
    pending. *)
Theorem flush_discards_pending :
  (forall m : Members MyApproxSyncPolicy MyExactSyncPolicy,
     approxSync_ (flushCallbacks m) =
       option_map (fun _ => @newPolicy MyApproxSyncPolicy (queueSize_ m))
         (approxSync_ m) /\
     exactSync_ (flushCallbacks m) =
       option_map (fun _ => @newPolicy MyExactSyncPolicy (queueSize_ m))
         (exactSync_ m) /\
     queueSize_ (flushCallbacks m) = queueSize_ m /\
     pendingOf (flushCallbacks m) = []) /\
  (forall (m : Members MyApproxSyncPolicy MyExactSyncPolicy) (before after : list StreamMsg),
     snd (deliverAll (flushCallbacks (fst (deliverAll m before))) after) =
     snd (deliverAll (flushCallbacks m) after)) /\
  (forall (m : Members MyApproxSyncPolicy MyExactSyncPolicy) (queue_size : Z),
     let m' := reconfigureQueueSize m queue_size in
     approxSync_ m' =
       option_map (fun _ => @newPolicy MyApproxSyncPolicy queue_size)
         (approxSync_ m) /\
     exactSync_ m' =
       option_map (fun _ => @newPolicy MyExactSyncPolicy queue_size)
         (exactSync_ m) /\
     queueSize_ m' = queue_size /\
     pendingOf m' = []).
Proof.
  split; [|split].
  - intro m. unfold pendingOf, flushCallbacks.
    cbn [approxSync_ exactSync_ queueSize_].
    destruct (approxSync_ m), (exactSync_ m); cbn [option_map];
      rewrite ?newPolicy_pending; repeat split.
  - intros m before after. now rewrite flushCallbacks_deliverAll.
  - intros m q m'. subst m'.
    unfold reconfigureQueueSize, pendingOf, flushCallbacks.
    cbn [approxSync_ exactSync_ queueSize_].
    destruct (approxSync_ m), (exactSync_ m); cbn [option_map];
      rewrite ?newPolicy_pending; repeat split.
Qed.

End Flush.

(** * Further properties of the callbacks *)

(** As [cases], for goals that also look at the last event of a trace. *)
Ltac cases_last :=
  stages; run; tidy; repeat (branch; cbn [List.last]); cbn [List.last];
  try reflexivity; try exact I; try congruence; try float_absurd.

Section Further.
Context {C : Collaborators}.

(** A filter that only keeps log lines sees the same in a trace and in its
    log lines. *)
Lemma filter_diagnostics (f : Event -> bool) (t : list Event) :
  (forall e, f e = true -> isLog e = true) ->
  filter f (diagnostics t) = filter f t.
Proof.
  intro Hf. unfold diagnostics. induction t as [|e t IH]; [reflexivity|].
  cbn [filter]. destruct (isLog e) eqn:El.
  - cbn [filter]. destruct (f e); now rewrite IH.
  - destruct (f e) eqn:Ef; [|exact IH].
    apply Hf in Ef. congruence.
Qed.

Lemma isError_isLog e : isError e = true -> isLog e = true.
Proof. now destruct e. Qed.

Lemma isEmptyImageWarning_isLog e : isEmptyImageWarning e = true -> isLog e = true.
Proof. now destruct e. Qed.

(** ** The pause gate *)

Lemma callback_paused n l r li ri s :
  isPaused n = true -> exec (callback n l r li ri) s = (s, [CallbackCalled]).
Proof. intro H. run. now rewrite H. Qed.

Lemma callbackRGBD_paused n img s :
  isPaused n = true -> exec (callbackRGBD n img) s = (s, [CallbackCalled]).
Proof. intro H. run. now rewrite H. Qed.

Lemma run_callback_running calls : forall s,
  fst (run_callback calls s) = fst (run_callback (filter running calls) s) /\
  filter (fun e => negb (isCallbackCalled e)) (snd (run_callback calls s)) =
  filter (fun e => negb (isCallbackCalled e))
    (snd (run_callback (filter running calls) s)).
Proof.
  induction calls as [|[n c] rest IH]; intro s; [now split|].
  cbn [filter]. change (running (n, c)) with (negb (isPaused n)).
  destruct (isPaused n) eqn:Hp; cbn [negb].
  - rewrite run_callback_cons. cbv zeta. cbn [fst snd].
    rewrite (callback_paused _ _ _ _ _ _ Hp). cbn [fst snd app filter].
    cbn. apply IH.
  - rewrite !run_callback_cons. cbv zeta. cbn [fst snd].
    rewrite !filter_app.
    destruct (IH (fst (exec (callback n (imageRectLeft c) (imageRectRight c)
                               (cameraInfoLeft c) (cameraInfoRight c)) s)))
      as [H1 H2].
    split; [exact H1 | now rewrite H2].
Qed.

Lemma run_callbackRGBD_running calls : forall s,
  fst (run_callbackRGBD calls s) =
    fst (run_callbackRGBD (filter running calls) s) /\
  filter (fun e => negb (isCallbackCalled e)) (snd (run_callbackRGBD calls s)) =
  filter (fun e => negb (isCallbackCalled e))
    (snd (run_callbackRGBD (filter running calls) s)).
Proof.
  induction calls as [|[n img] rest IH]; intro s; [now split|].
  cbn [filter]. change (running (n, img)) with (negb (isPaused n)).
  destruct (isPaused n) eqn:Hp; cbn [negb].
  - rewrite run_callbackRGBD_cons. cbv zeta. cbn [fst snd].
    rewrite (callbackRGBD_paused _ _ _ Hp). cbn [fst snd app filter].
    cbn. apply IH.
  - rewrite !run_callbackRGBD_cons. cbv zeta. cbn [fst snd].
    rewrite !filter_app.
    destruct (IH (fst (exec (callbackRGBD n img) s))) as [H1 H2].
    split; [exact H1 | now rewrite H2].
Qed.

(** X2.  While the node is paused a callback does nothing but note that it
    was called: no lookup, no log line, no frame, the static flags as they
    were.  Over a run the paused activations can be taken out without
    changing the flags left or any event other than those notes, so the
    first tuple after a pause is treated as if the pause had not been. *)
Theorem paused_callbacks_do_nothing :
  (forall n l r li ri s,
     isPaused n = true ->
     exec (callback n l r li ri) s = (s, [CallbackCalled])) /\
  (forall n img s,
     isPaused n = true ->
     exec (callbackRGBD n img) s = (s, [CallbackCalled])) /\
  (forall calls s,
     fst (run_callback calls s) = fst (run_callback (filter running calls) s) /\
     filter (fun e => negb (isCallbackCalled e)) (snd (run_callback calls s)) =
     filter (fun e => negb (isCallbackCalled e))
       (snd (run_callback (filter running calls) s))) /\
  (forall calls s,
     fst (run_callbackRGBD calls s) =
       fst (run_callbackRGBD (filter running calls) s) /\
     filter (fun e => negb (isCallbackCalled e)) (snd (run_callbackRGBD calls s)) =
     filter (fun e => negb (isCallbackCalled e))
       (snd (run_callbackRGBD (filter running calls) s))).
Proof.
  split; [|split; [|split]].
  - apply callback_paused.
  - apply callbackRGBD_paused.
  - intros calls s. apply run_callback_running.
  - intros calls s. apply run_callbackRGBD_running.
Qed.

(** ** Images without data *)

(** X3.  A tuple that passed the gate and the encoding test and found its
    body-frame transform, but whose left or right image holds no data, gets
    the empty-image warning and nothing else: no further lookup, no frame,
    the static flags as they were.  Both paths. *)
Theorem empty_image_dropped :
  (forall n l r li ri s,
     reachesLookup_callback n l r = true ->
     isNull (bodyTransform_callback n l r) = false ->
     Mat_empty (data l) || Mat_empty (data r) = true ->
     exec (callback n l r li ri) s =
       (s, [CallbackCalled;
            TfLookup (frameId n) (Header.frame_id (header l))
              (laterStamp (Header.stamp (header l)) (Header.stamp (header r)));
            Log Warn EmptyImage])) /\
  (forall n img s,
     reachesLookup_callbackRGBD n img = true ->
     isNull (bodyTransform_callbackRGBD n img) = false ->
     Mat_empty (CvImage.image (imageRectLeft_RGBD img)) ||
     Mat_empty (CvImage.image (imageRectRight_RGBD img)) = true ->
     exec (callbackRGBD n img) s =
       (s, [CallbackCalled;
            TfLookup (frameId n)
              (Header.frame_id (CvImage.header (imageRectLeft_RGBD img)))
              (laterStamp
                 (Header.stamp (CvImage.header (imageRectLeft_RGBD img)))
                 (Header.stamp (CvImage.header (imageRectRight_RGBD img))));
            Log Warn EmptyImage])).
Proof.
  split.
  - intros n l r li ri s Hr Hn He. stages.
    repeat (apply andb_prop in Hr; destruct Hr as [Hr ?]).
    apply negb_true_iff in Hr.
    assert (He' : negb (Mat_empty (data l)) && negb (Mat_empty (data r)) = false)
      by (destruct (Mat_empty (data l)), (Mat_empty (data r));
          cbn in *; congruence).
    clear He. run.
    repeat match goal with X : _ = _ |- _ => rewrite X end. reflexivity.
  - intros n img s Hr Hn He. stages.
    repeat (apply andb_prop in Hr; destruct Hr as [Hr ?]).
    apply negb_true_iff in Hr.
    assert (He' : negb (Mat_empty (CvImage.image (fst (toCvShare img)))) &&
                  negb (Mat_empty (CvImage.image (snd (toCvShare img)))) = false)
      by (destruct (Mat_empty (CvImage.image (fst (toCvShare img)))),
                   (Mat_empty (CvImage.image (snd (toCvShare img))));
          cbn in *; congruence).
    clear He. run.
    repeat match goal with X : _ = _ |- _ => rewrite X end. reflexivity.
Qed.

(** ** One outcome per activation *)

Lemma callback_dispatch_last n l r li ri s :
  if reachesResolver_callback n l r && calibrated_callback n li ri &&
     validBaseline (alreadyRectified n) (resolvedModel_callback n l r li ri)
  then List.last (snd (exec (callback n l r li ri) s)) CallbackCalled =
         frame_callback n l r (resolvedModel_callback n l r li ri)
  else True.
Proof. destruct s as [w sh]. cases_last. Qed.

Lemma callbackRGBD_dispatch_last n img s :
  if reachesResolver_callbackRGBD n img && calibrated_callbackRGBD n img &&
     validBaseline (alreadyRectified n) (resolvedModel_callbackRGBD n img)
  then List.last (snd (exec (callbackRGBD n img) s)) CallbackCalled =
         frame_callbackRGBD n img (resolvedModel_callbackRGBD n img)
  else True.
Proof. destruct s as [w sh]. cases_last. Qed.

(** The log lines of a call that goes through to the estimator are
    warnings guarded by the static flags. *)
Lemma callback_diagnostics_of_dispatch n l r li ri s :
  reachesResolver_callback n l r && calibrated_callback n li ri &&
  validBaseline (alreadyRectified n) (resolvedModel_callback n l r li ri) = true ->
  filter isError (snd (exec (callback n l r li ri) s)) = [] /\
  filter isEmptyImageWarning (snd (exec (callback n l r li ri) s)) = [].
Proof.
  intro H. apply andb_prop in H. destruct H as [H Hv].
  apply andb_prop in H. destruct H as [Hr Hc].
  rewrite <- (filter_diagnostics isError _ isError_isLog).
  rewrite <- (filter_diagnostics isEmptyImageWarning _ isEmptyImageWarning_isLog).
  rewrite callback_diagnostics. cbv zeta.
  destruct (reachesResolver_callback_inv _ _ _ Hr) as (Hp & He & Hn & Hm).
  rewrite Hp, He, Hn, Hm, Hc, Hv. cbn [negb].
  split;
    repeat match goal with |- context [if ?b then _ else _] => destruct b end;
    reflexivity.
Qed.

Lemma callbackRGBD_diagnostics_of_dispatch n img s :
  reachesResolver_callbackRGBD n img && calibrated_callbackRGBD n img &&
  validBaseline (alreadyRectified n) (resolvedModel_callbackRGBD n img) = true ->
  filter isError (snd (exec (callbackRGBD n img) s)) = [] /\
  filter isEmptyImageWarning (snd (exec (callbackRGBD n img) s)) = [].
Proof.
  intro H. apply andb_prop in H. destruct H as [H Hv].
  apply andb_prop in H. destruct H as [Hr Hc].
  rewrite <- (filter_diagnostics isError _ isError_isLog).
  rewrite <- (filter_diagnostics isEmptyImageWarning _ isEmptyImageWarning_isLog).
  rewrite callbackRGBD_diagnostics. cbv zeta.
  destruct (reachesResolver_callbackRGBD_inv _ _ Hr) as (Hp & He & Hn & Hm).
  rewrite Hp, He, Hn, Hm, Hc, Hv. cbn [negb].
  split;
    repeat match goal with |- context [if ?b then _ else _] => destruct b end;
    reflexivity.
Qed.

(** X4.  An activation hands at most one frame to the estimator, and when
    it does, handing it over is the last thing it does, it has logged no
    error and no empty-image warning, the sensor data carries id 0, and the
    header names the frame of the left image (four-stream path) or of the
    composite message (composite path).  An activation makes at most two TF
    lookups and logs at most one error. *)
Theorem one_outcome_per_activation :
  (forall n l r li ri s d h,
     let t := snd (exec (callback n l r li ri) s) in
     In (ProcessData d h) t ->
     dispatched t = [ProcessData d h] /\
     List.last t CallbackCalled = ProcessData d h /\
     filter isError t = [] /\
     filter isEmptyImageWarning t = [] /\
     id d = 0%Z /\
     Header.frame_id h = Header.frame_id (header l)) /\
  (forall n img s d h,
     let t := snd (exec (callbackRGBD n img) s) in
     In (ProcessData d h) t ->
     dispatched t = [ProcessData d h] /\
     List.last t CallbackCalled = ProcessData d h /\
     filter isError t = [] /\
     filter isEmptyImageWarning t = [] /\
     id d = 0%Z /\
     Header.frame_id h = Header.frame_id (rgbd_header img)) /\
  (forall n l r li ri s,
     let t := snd (exec (callback n l r li ri) s) in
     (List.length (dispatched t) <= 1)%nat /\
     (List.length (filter isLookup t) <= 2)%nat /\
     (List.length (filter isError t) <= 1)%nat) /\
  (forall n img s,
     let t := snd (exec (callbackRGBD n img) s) in
     (List.length (dispatched t) <= 1)%nat /\
     (List.length (filter isLookup t) <= 2)%nat /\
     (List.length (filter isError t) <= 1)%nat).
Proof.
  split; [|split; [|split]].
  - intros n l r li ri s d h t H. subst t.
    assert (Hd : In (ProcessData d h)
                   (dispatched (snd (exec (callback n l r li ri) s))))
      by (apply filter_In; split; [exact H | reflexivity]).
    pose proof (callback_dispatch_last n l r li ri s) as Hl.
    pose proof (callback_diagnostics_of_dispatch n l r li ri s) as Hg.
    rewrite callback_dispatched in *.
    destruct (_ && validBaseline _ _); [|contradiction].
    destruct Hd as [Hd|[]]. destruct (Hg eq_refl) as [Hg1 Hg2].
    rewrite Hl, Hg1, Hg2, Hd.
    unfold frame_callback in Hd. cbv zeta in Hd.
    injection Hd as Ed Eh. subst d h. cbn. now repeat split.
  - intros n img s d h t H. subst t.
    assert (Hd : In (ProcessData d h)
                   (dispatched (snd (exec (callbackRGBD n img) s))))
      by (apply filter_In; split; [exact H | reflexivity]).
    pose proof (callbackRGBD_dispatch_last n img s) as Hl.
    pose proof (callbackRGBD_diagnostics_of_dispatch n img s) as Hg.
    rewrite callbackRGBD_dispatched in *.
    destruct (_ && validBaseline _ _); [|contradiction].
    destruct Hd as [Hd|[]]. destruct (Hg eq_refl) as [Hg1 Hg2].
    rewrite Hl, Hg1, Hg2, Hd.
    unfold frame_callbackRGBD in Hd. cbv zeta in Hd.
    injection Hd as Ed Eh. subst d h. cbn. now repeat split.
  - intros n l r li ri s t. subst t.
    rewrite <- (filter_diagnostics isError _ isError_isLog).
    rewrite callback_dispatched, callback_lookups, callback_diagnostics.
    cbv zeta. unfold calibrated_callback.
    destruct (alreadyRectified n); rewrite ?andb_false_r, ?andb_true_r;
      cbn [orb negb andb app];
      repeat match goal with |- context [if ?b then _ else _] => destruct b end;
      cbn; repeat split; lia.
  - intros n img s t. subst t.
    rewrite <- (filter_diagnostics isError _ isError_isLog).
    rewrite callbackRGBD_dispatched, callbackRGBD_lookups,
      callbackRGBD_diagnostics.
    cbv zeta. unfold calibrated_callbackRGBD.
    destruct (alreadyRectified n); rewrite ?andb_false_r, ?andb_true_r;
      cbn [orb negb andb app];
      repeat match goal with |- context [if ?b then _ else _] => destruct b end;
      cbn; repeat split; lia.
Qed.

(** ** Images that are not rectified *)



(** ** A baseline that is not a number *)

(** Every comparison the callbacks make fails on a NaN. *)
Lemma nan_comparisons (v : float) :
  PrimFloat.is_nan v = true ->
  (v =? 0)%float = false /\ (v <=? 0)%float = false /\ (10 <? v)%float = false.
Proof.
  unfold PrimFloat.is_nan. intro H. apply negb_true_iff in H.
  rewrite FloatAxioms.eqb_spec in H.
  rewrite FloatAxioms.eqb_spec, leb_spec, ltb_spec.
  unfold SFeqb, SFleb, SFltb in *.
  change (Prim2SF 0) with (S754_zero false).
  change (Prim2SF 10) with (S754_finite false 5629499534213120 (-49)).
  destruct (Prim2SF v) as [sg|sg| |sg m e]; cbn in *; try destruct sg;
    cbn in *; try discriminate; try (now repeat split).
  all: rewrite Z.compare_refl in H.
  all: change (PosDef.Pos.compare_cont Eq m m) with (Pos.compare m m) in H.
  all: rewrite Pos.compare_refl in H; discriminate.
Qed.

(** X6.  A derived baseline that is not a number passes every check: it is
    not zero, so the fallback is not tried; it is not at or below zero, so
    it is not rejected; it is not above ten, so it is not warned about.
    The frame is handed to the estimator with the NaN baseline and the call
    logs nothing.  Both paths, rectified or not. *)
Theorem nan_baseline_unchecked :
  (forall n l r li ri s,
     reachesResolver_callback n l r = true ->
     calibrated_callback n li ri = true ->
     PrimFloat.is_nan
       (StereoCameraModel.baseline (derivedModel_callback n l r li ri)) = true ->
     let res := exec (callback n l r li ri) s in
     dispatched (snd res) =
       [frame_callback n l r (derivedModel_callback n l r li ri)] /\
     diagnostics (snd res) = [] /\
     fst res = s) /\
  (forall n img s,
     reachesResolver_callbackRGBD n img = true ->
     calibrated_callbackRGBD n img = true ->
     PrimFloat.is_nan
       (StereoCameraModel.baseline (derivedModel_callbackRGBD n img)) = true ->
     let res := exec (callbackRGBD n img) s in
     dispatched (snd res) =
       [frame_callbackRGBD n img (derivedModel_callbackRGBD n img)] /\
     diagnostics (snd res) = [] /\
     fst res = s).
Proof.
  split.
  - intros n l r li ri s Hr Hc Hnan res. subst res.
    destruct (nan_comparisons _ Hnan) as (H0 & Hle & H10).
    assert (Ht : takesFallback (alreadyRectified n)
                   (derivedModel_callback n l r li ri)
                   (leftToRight_callback n li ri) = false)
      by (unfold takesFallback; now rewrite H0).
    assert (Hm : resolvedModel_callback n l r li ri =
                 derivedModel_callback n l r li ri)
      by (unfold resolvedModel_callback, afterFallback; now rewrite Ht).
    assert (Hv : validBaseline (alreadyRectified n)
                   (derivedModel_callback n l r li ri) = true)
      by (unfold validBaseline; now rewrite Hle, andb_false_r).
    rewrite callback_dispatched, callback_diagnostics, callback_statics.
    cbv zeta.
    cbn [fallbackCall_callback largeBaselineCall_callback imageRectLeft
         imageRectRight cameraInfoLeft cameraInfoRight].
    destruct (reachesResolver_callback_inv _ _ _ Hr) as (Hp & He & Hn & Hmt).
    rewrite Hm, Hr, Hc, Hv, Ht, H10, Hp, He, Hn, Hmt.
    cbn. rewrite !andb_false_r, !orb_false_r.
    destruct s; now repeat split.
  - intros n img s Hr Hc Hnan res. subst res.
    destruct (nan_comparisons _ Hnan) as (H0 & Hle & H10).
    assert (Ht : takesFallback (alreadyRectified n)
                   (derivedModel_callbackRGBD n img)
                   (leftToRight_callbackRGBD n img) = false)
      by (unfold takesFallback; now rewrite H0).
    assert (Hm : resolvedModel_callbackRGBD n img =
                 derivedModel_callbackRGBD n img)
      by (unfold resolvedModel_callbackRGBD, afterFallback; now rewrite Ht).
    assert (Hv : validBaseline (alreadyRectified n)
                   (derivedModel_callbackRGBD n img) = true)
      by (unfold validBaseline; now rewrite Hle, andb_false_r).
    rewrite callbackRGBD_dispatched, callbackRGBD_diagnostics,
      callbackRGBD_statics.
    cbv zeta.
    cbn [fallbackCall_callbackRGBD largeBaselineCall_callbackRGBD].
    destruct (reachesResolver_callbackRGBD_inv _ _ Hr) as (Hp & He & Hn & Hmt).
    rewrite Hm, Hr, Hc, Hv, Ht, H10, Hp, He, Hn, Hmt.
    cbn. rewrite !andb_false_r, !orb_false_r.
    destruct s; now repeat split.
Qed.

(** ** What [keep_color] reaches *)

Lemma ptrImageRight_callback_encoding (r : Image) :
  CvImage.encoding (ptrImageRight_callback r) = TYPE_8UC1 \/
  CvImage.encoding (ptrImageRight_callback r) = MONO8.
Proof.
  destruct (ptrImageRight_callback_grey r) as [Hg Hc].
  destruct (String.eqb_spec (encoding r) TYPE_8UC1) as [E1|N1].
  - left. rewrite Hg by now left. exact E1.
  - destruct (String.eqb_spec (encoding r) MONO8) as [E2|N2].
    + right. rewrite Hg by now right. exact E2.
    + right. now rewrite Hc.
Qed.

Lemma callback_keepColor n l r li ri s b :
  fst (exec (callback (withKeepColor n b) l r li ri) s) =
    fst (exec (callback n l r li ri) s) /\
  map forgetLeftImage (snd (exec (callback (withKeepColor n b) l r li ri) s)) =
    map forgetLeftImage (snd (exec (callback n l r li ri) s)).
Proof.
  destruct s as [w sh]. unfold withKeepColor. stages. run.
  cbn [isPaused frameId keepColor_ RtabmapImagesAlreadyRectified tf].
  tidy. repeat (branch; cbn [map forgetLeftImage]);
    split; try reflexivity; try congruence; try float_absurd.
Qed.

Lemma callbackRGBD_keepColor n img s b :
  fst (exec (callbackRGBD (withKeepColor n b) img) s) =
    fst (exec (callbackRGBD n img) s) /\
  map forgetLeftImage (snd (exec (callbackRGBD (withKeepColor n b) img) s)) =
    map forgetLeftImage (snd (exec (callbackRGBD n img) s)).
Proof.
  destruct s as [w sh]. unfold withKeepColor. stages. run.
  cbn [isPaused frameId keepColor_ RtabmapImagesAlreadyRectified tf].
  tidy. repeat (branch; cbn [map forgetLeftImage]);
    split; try reflexivity; try congruence; try float_absurd.
Qed.

(** X7.  [keep_color] reaches the pixels of the left image and nothing
    else: with the option set either way an activation leaves the same
    static flags and the same trace (lookups, log lines, right image,
    stereo model, stamps, header) once the left image of the dispatched
    frame is put aside, on both paths.  On the four-stream path the right
    image of a dispatched frame is the right input normalized to 8UC1 or
    mono8. *)
Theorem keep_color_reaches_left_image_only :
  (forall n l r li ri s b,
     fst (exec (callback (withKeepColor n b) l r li ri) s) =
       fst (exec (callback n l r li ri) s) /\
     map forgetLeftImage
       (snd (exec (callback (withKeepColor n b) l r li ri) s)) =
     map forgetLeftImage (snd (exec (callback n l r li ri) s))) /\
  (forall n img s b,
     fst (exec (callbackRGBD (withKeepColor n b) img) s) =
       fst (exec (callbackRGBD n img) s) /\
     map forgetLeftImage (snd (exec (callbackRGBD (withKeepColor n b) img) s)) =
     map forgetLeftImage (snd (exec (callbackRGBD n img) s))) /\
  (forall n l r li ri s d h,
     In (ProcessData d h) (snd (exec (callback n l r li ri) s)) ->
     rightRaw d = CvImage.image (ptrImageRight_callback r) /\
     (CvImage.encoding (ptrImageRight_callback r) = TYPE_8UC1 \/
      CvImage.encoding (ptrImageRight_callback r) = MONO8)).
Proof.
  split; [|split].
  - intros. apply callback_keepColor.
  - intros. apply callbackRGBD_keepColor.
  - intros n l r li ri s d h H.
    apply callback_dispatch_inv in H. destruct H as [_ H].
    unfold frame_callback in H. cbv zeta in H. injection H as -> _.
    split; [reflexivity | apply ptrImageRight_callback_encoding].
Qed.

(** ** Cameras without calibration *)

(** X8.  With images that are not rectified, a pair that reaches the
    geometry block and for which the TF tree has no right-to-left transform
    is dropped with the missing-transform error, on both paths; on the
    four-stream path an identity transform drops it with the
    degenerate-transform error.  In each case the error follows the two
    lookups, nothing is handed to the estimator and the static flags are
    as they were. *)
Theorem uncalibrated_pair_dropped :
  (forall n l r li ri s,
     reachesResolver_callback n l r = true ->
     alreadyRectified n = false ->
     isNull (calibration_callback n li ri) = true ->
     exec (callback n l r li ri) s =
       (s, [CallbackCalled;
            TfLookup (frameId n) (Header.frame_id (header l))
              (laterStamp (Header.stamp (header l)) (Header.stamp (header r)));
            TfLookup (Header.frame_id (info_header ri))
              (Header.frame_id (info_header li))
              (Header.stamp (info_header li));
            Log Error MissingCalibrationTransform])) /\
  (forall n l r li ri s,
     reachesResolver_callback n l r = true ->
     alreadyRectified n = false ->
     isNull (calibration_callback n li ri) = false ->
     isIdentity (calibration_callback n li ri) = true ->
     exec (callback n l r li ri) s =
       (s, [CallbackCalled;
            TfLookup (frameId n) (Header.frame_id (header l))
              (laterStamp (Header.stamp (header l)) (Header.stamp (header r)));
            TfLookup (Header.frame_id (info_header ri))
              (Header.frame_id (info_header li))
              (Header.stamp (info_header li));
            Log Error DegenerateCalibrationTransform])) /\
  (forall n img s,
     reachesResolver_callbackRGBD n img = true ->
     alreadyRectified n = false ->
     isNull (calibration_callbackRGBD n img) = true ->
     exec (callbackRGBD n img) s =
       (s, [CallbackCalled;
            TfLookup (frameId n)
              (Header.frame_id (CvImage.header (imageRectLeft_RGBD img)))
              (laterStamp
                 (Header.stamp (CvImage.header (imageRectLeft_RGBD img)))
                 (Header.stamp (CvImage.header (imageRectRight_RGBD img))));
            TfLookup (Header.frame_id (info_header (depth_camera_info img)))
              (Header.frame_id (info_header (rgb_camera_info img)))
              (Header.stamp (info_header (rgb_camera_info img)));
            Log Error MissingCalibrationTransform])).
Proof.
  split; [|split].
  - intros n l r li ri s Hr Ha Hn. stages.
    repeat (apply andb_prop in Hr; destruct Hr as [Hr ?]).
    repeat match goal with X : negb _ = true |- _ => apply negb_true_iff in X end.
    run. repeat match goal with X : _ = _ |- _ => rewrite X end. reflexivity.
  - intros n l r li ri s Hr Ha Hn Hi. stages.
    repeat (apply andb_prop in Hr; destruct Hr as [Hr ?]).
    repeat match goal with X : negb _ = true |- _ => apply negb_true_iff in X end.
    run. repeat match goal with X : _ = _ |- _ => rewrite X end. reflexivity.
  - intros n img s Hr Ha Hn. stages.
    repeat (apply andb_prop in Hr; destruct Hr as [Hr ?]).
    repeat match goal with X : negb _ = true |- _ => apply negb_true_iff in X end.
    run. repeat match goal with X : _ = _ |- _ => rewrite X end. reflexivity.
Qed.

(** ** What the static flags reach *)

Lemma callback_flags_gate_warnings n l r li ri s s' :
  filter (fun e => negb (isOneShotWarning e)) (snd (exec (callback n l r li ri) s)) =
  filter (fun e => negb (isOneShotWarning e)) (snd (exec (callback n l r li ri) s')).
Proof.
  destruct s as [w sh], s' as [w' sh']. unfold isOneShotWarning. cases.
Qed.

Lemma callbackRGBD_flags_gate_warnings n img s s' :
  filter (fun e => negb (isOneShotWarning e)) (snd (exec (callbackRGBD n img) s)) =
  filter (fun e => negb (isOneShotWarning e)) (snd (exec (callbackRGBD n img) s')).
Proof.
  destruct s as [w sh], s' as [w' sh']. unfold isOneShotWarning. cases.
Qed.

(** X9.  The static flags reach the two one-shot warnings and nothing else:
    from any two settings of the flags an activation on the same inputs
    produces the same trace once those warnings are taken out.  So whether
    a tuple is handed to the estimator, and as which frame, never depends
    on the tuples before it: the frames of a run are, in order, the frames
    each call would dispatch on its own. *)
Theorem static_flags_reach_warnings_only :
  (forall n l r li ri s s',
     filter (fun e => negb (isOneShotWarning e))
       (snd (exec (callback n l r li ri) s)) =
     filter (fun e => negb (isOneShotWarning e))
       (snd (exec (callback n l r li ri) s'))) /\
  (forall n img s s',
     filter (fun e => negb (isOneShotWarning e))
       (snd (exec (callbackRGBD n img) s)) =
     filter (fun e => negb (isOneShotWarning e))
       (snd (exec (callbackRGBD n img) s'))) /\
  (forall calls s,
     dispatched (snd (run_callback calls s)) =
     flat_map
       (fun nc : Node * Tuple =>
          dispatched
            (snd (exec (callback (fst nc) (imageRectLeft (snd nc))
                          (imageRectRight (snd nc)) (cameraInfoLeft (snd nc))
                          (cameraInfoRight (snd nc))) Statics_init)))
       calls) /\
  (forall calls s,
     dispatched (snd (run_callbackRGBD calls s)) =
     flat_map
       (fun ni : Node * RGBDImage =>
          dispatched (snd (exec (callbackRGBD (fst ni) (snd ni)) Statics_init)))
       calls).
Proof.
  split; [|split; [|split]].
  - apply callback_flags_gate_warnings.
  - apply callbackRGBD_flags_gate_warnings.
  - induction calls as [|[n c] rest IH]; intro s; [reflexivity|].
    rewrite run_callback_cons. cbv zeta. cbn [snd fst flat_map].
    unfold dispatched at 1. rewrite filter_app. fold (dispatched).
    change (filter isDispatch) with dispatched.
    rewrite IH. f_equal. now rewrite !callback_dispatched.
  - induction calls as [|[n img] rest IH]; intro s; [reflexivity|].
    rewrite run_callbackRGBD_cons. cbv zeta. cbn [snd fst flat_map].
    unfold dispatched at 1. rewrite filter_app.
    change (filter isDispatch) with dispatched.
    rewrite IH. f_equal. now rewrite !callbackRGBD_dispatched.
Qed.

(** ** The body-frame lookup on the composite path *)

(** X13.  On the composite path, too, a message that reaches the body-frame
    lookup and finds no transform ends there in silence: the call makes
    that one lookup, logs nothing, hands nothing to the estimator and
    leaves the static flags as they were, whether or not the images hold
    data.  Whenever the body-frame transform is unavailable the call makes
    no second lookup, and the empty-image warning is logged only by calls
    whose lookup was made and succeeded. *)
Theorem callbackRGBD_body_lookup_required :
  (forall n img s,
     reachesLookup_callbackRGBD n img = true ->
     isNull (bodyTransform_callbackRGBD n img) = true ->
     exec (callbackRGBD n img) s =
       (s, [CallbackCalled;
            TfLookup (frameId n)
              (Header.frame_id (CvImage.header (imageRectLeft_RGBD img)))
              (laterStamp
                 (Header.stamp (CvImage.header (imageRectLeft_RGBD img)))
                 (Header.stamp (CvImage.header (imageRectRight_RGBD img))))])) /\
  (forall n img s,
     isNull (bodyTransform_callbackRGBD n img) = true ->
     let t := snd (exec (callbackRGBD n img) s) in
     dispatched t = [] /\ filter isEmptyImageWarning t = [] /\
     (List.length (filter isLookup t) <= 1)%nat) /\
  (forall n img s,
     In (Log Warn EmptyImage) (snd (exec (callbackRGBD n img) s)) ->
     reachesLookup_callbackRGBD n img = true /\
     isNull (bodyTransform_callbackRGBD n img) = false).
Proof.
  split; [|split].
  - intros n img s Hr Hn. stages.
    repeat (apply andb_prop in Hr; destruct Hr as [Hr ?]).
    apply negb_true_iff in Hr.
    run. repeat match goal with X : _ = _ |- _ => rewrite X end. reflexivity.
  - intros n img s Hn t. subst t.
    rewrite callbackRGBD_dispatched, callbackRGBD_lookups.
    rewrite <- (filter_diagnostics isEmptyImageWarning)
      by apply isEmptyImageWarning_isLog.
    rewrite callbackRGBD_diagnostics. cbv zeta.
    unfold reachesResolver_callbackRGBD. rewrite Hn.
    rewrite !andb_false_r. cbn [negb andb].
    split; [reflexivity|]. split.
    + destruct (isPaused n); [reflexivity|].
      now destruct (negb _).
    + destruct (reachesLookup_callbackRGBD n img); cbn; lia.
  - intros n img s H.
    assert (Hd : In (Log Warn EmptyImage)
                   (diagnostics (snd (exec (callbackRGBD n img) s))))
      by (apply filter_In; split; [exact H | reflexivity]).
    rewrite callbackRGBD_diagnostics in Hd. cbv zeta in Hd.
    unfold reachesLookup_callbackRGBD.
    destruct (isPaused n); [contradiction|].
    destruct (acceptedEncoding (CvImage.encoding (imageRectLeft_RGBD img)) &&
              acceptedEncoding (CvImage.encoding (imageRectRight_RGBD img)))
      eqn:He; cbn [negb] in Hd; [|cbn in Hd; intuition discriminate].
    destruct (isNull (bodyTransform_callbackRGBD n img)); [contradiction|].
    cbn [negb andb]. now rewrite He.
Qed.

(** ** A fallback that finds nothing *)

(** A baseline equal to zero, of either sign, is at most zero. *)
Lemma zero_le0 (v : float) :
  (v =? 0)%float = true -> (v <=? 0)%float = true.
Proof.
  rewrite FloatAxioms.eqb_spec, leb_spec. unfold SFeqb, SFleb.
  change (Prim2SF 0) with (S754_zero false).
  destruct (Prim2SF v) as [sg|sg| |sg mant e]; cbn;
    try destruct sg; cbn; congruence.
Qed.

(** X14.  With already-rectified images and a derived baseline of zero, a
    pair whose left-to-right transform is missing, or has an x that is not
    above zero, is not recovered: after the body-frame lookup and the
    left-to-right lookup the call logs the invalid-baseline error with the
    zero baseline and ends, with no fallback warning, nothing for the
    estimator and the static flags as they were.  Both paths. *)
Theorem failed_fallback_dropped :
  (forall n l r li ri s,
     reachesResolver_callback n l r = true ->
     alreadyRectified n = true ->
     (StereoCameraModel.baseline (derivedModel_callback n l r li ri) =? 0)%float
       = true ->
     isNull (leftToRight_callback n li ri) = true \/
     (0 <? x (leftToRight_callback n li ri))%float = false ->
     exec (callback n l r li ri) s =
       (s, [CallbackCalled;
            TfLookup (frameId n) (Header.frame_id (header l))
              (laterStamp (Header.stamp (header l)) (Header.stamp (header r)));
            TfLookup (Header.frame_id (info_header li))
              (Header.frame_id (info_header ri))
              (Header.stamp (info_header li));
            Log Error
              (InvalidBaseline
                 (StereoCameraModel.baseline
                    (derivedModel_callback n l r li ri)))])) /\
  (forall n img s,
     reachesResolver_callbackRGBD n img = true ->
     alreadyRectified n = true ->
     (StereoCameraModel.baseline (derivedModel_callbackRGBD n img) =? 0)%float
       = true ->
     isNull (leftToRight_callbackRGBD n img) = true \/
     (0 <? x (leftToRight_callbackRGBD n img))%float = false ->
     exec (callbackRGBD n img) s =
       (s, [CallbackCalled;
            TfLookup (frameId n)
              (Header.frame_id (CvImage.header (imageRectLeft_RGBD img)))
              (laterStamp
                 (Header.stamp (CvImage.header (imageRectLeft_RGBD img)))
                 (Header.stamp (CvImage.header (imageRectRight_RGBD img))));
            TfLookup (Header.frame_id (info_header (rgb_camera_info img)))
              (Header.frame_id (info_header (depth_camera_info img)))
              (Header.stamp (info_header (rgb_camera_info img)));
            Log Error
              (InvalidBaseline
                 (StereoCameraModel.baseline
                    (derivedModel_callbackRGBD n img)))])).
Proof.
  split.
  - intros n l r li ri s Hr Ha Hz Hf.
    pose proof (zero_le0 _ Hz) as Hle.
    stages.
    repeat (apply andb_prop in Hr; destruct Hr as [Hr ?]).
    repeat match goal with X : negb _ = true |- _ => apply negb_true_iff in X end.
    try rewrite Ha in Hz, Hle.
    run. repeat match goal with X : _ = _ |- _ => rewrite X end.
    destruct Hf as [Hf | Hf]; tidy; repeat branch;
      reflexivity || congruence.
  - intros n img s Hr Ha Hz Hf.
    pose proof (zero_le0 _ Hz) as Hle.
    stages.
    repeat (apply andb_prop in Hr; destruct Hr as [Hr ?]).
    repeat match goal with X : negb _ = true |- _ => apply negb_true_iff in X end.
    try rewrite Ha in Hz, Hle.
    run. repeat match goal with X : _ = _ |- _ => rewrite X end.
    destruct Hf as [Hf | Hf]; tidy; repeat branch;
      reflexivity || congruence.
Qed.

End Further.

(** * Construction, initialization and parameters *)

Section InitializationFacts.
Context (MyApproxSyncPolicy MyExactSyncPolicy : SyncPolicy).

(** X10.  A freshly constructed node that runs [onOdomInit] ends with
    exactly one entry point: with [subscribe_rgbd] the composite
    subscription and no synchronizer at all ([approx_sync] then only
    reaches the warning thread), otherwise the four subscriber filters and
    one synchronizer, approximate with [approx_sync] and exact without,
    freshly constructed with the queue size and holding nothing.  Absent
    parameters fall back to exact synchronization, a queue of 5, four
    streams and no colour. *)
Theorem onOdomInit_registers_one_entry_point (pnh : PrivateParams) :
  let res := onOdomInit (StereoOdometry_new MyApproxSyncPolicy MyExactSyncPolicy) pnh in
  let o := fst res in
  let rgbd := param (subscribe_rgbd pnh) false in
  let approx := param (approx_sync pnh) false in
  let q := param (queue_size pnh) 5%Z in
  let color := param (keep_color pnh) false in
  rgbdSub_ o = rgbd /\
  filters_subscribed o = negb rgbd /\
  approxSync_ (synchronizers o) =
    (if negb rgbd && approx then Some (@newPolicy MyApproxSyncPolicy q)
     else None) /\
  exactSync_ (synchronizers o) =
    (if negb rgbd && negb approx then Some (@newPolicy MyExactSyncPolicy q)
     else None) /\
  queueSize_ (synchronizers o) = q /\
  pendingOf (synchronizers o) = [] /\
  member_keepColor_ o = color /\
  snd res =
    [InfoApproxSync approx; InfoQueueSize q; InfoSubscribeRGBD rgbd;
     InfoKeepColor color; StartWarningThread approx].
Proof.
  cbv zeta. unfold onOdomInit, StereoOdometry_new, pendingOf.
  cbn [synchronizers member_keepColor_ rgbdSub_ filters_subscribed
       approxSync_ exactSync_ queueSize_].
  destruct (param (subscribe_rgbd pnh) false),
    (param (approx_sync pnh) false);
    cbn [fst snd synchronizers member_keepColor_ rgbdSub_ filters_subscribed
         approxSync_ exactSync_ queueSize_ negb andb app];
    rewrite ?newPolicy_pending; repeat split.
Qed.

Lemma step_kind (m : Members MyApproxSyncPolicy MyExactSyncPolicy) op :
  option_map (fun _ => tt) (approxSync_ (fst (step m op))) =
    option_map (fun _ => tt) (approxSync_ m) /\
  option_map (fun _ => tt) (exactSync_ (fst (step m op))) =
    option_map (fun _ => tt) (exactSync_ m) /\
  queueSize_ (fst (step m op)) = queueSize_ m.
Proof.
  destruct op as [msg|]; unfold step, deliver, flushCallbacks.
  - destruct (approxSync_ m) as [a|], (exactSync_ m) as [e|];
      repeat match goal with
      | |- context [add ?st ?x] => destruct (add st x)
      end; now repeat split.
  - cbn. destruct (approxSync_ m), (exactSync_ m); now repeat split.
Qed.

Lemma steps_kind ops : forall m : Members MyApproxSyncPolicy MyExactSyncPolicy,
  option_map (fun _ => tt) (approxSync_ (fst (steps m ops))) =
    option_map (fun _ => tt) (approxSync_ m) /\
  option_map (fun _ => tt) (exactSync_ (fst (steps m ops))) =
    option_map (fun _ => tt) (exactSync_ m) /\
  queueSize_ (fst (steps m ops)) = queueSize_ m.
Proof.
  induction ops as [|op rest IH]; intro m; [now repeat split|].
  cbn [steps].
  pose proof (step_kind m op) as Hs.
  destruct (step m op) as [m1 out1]. cbn [fst] in Hs.
  pose proof (IH m1) as Hr.
  destruct (steps m1 rest) as [m2 out2]. cbn [fst] in *.
  destruct Hs as (H1 & H2 & H3), Hr as (H4 & H5 & H6).
  repeat split; congruence.
Qed.

Lemma steps_without_synchronizer ops : forall q,
  steps (@mkMembers MyApproxSyncPolicy MyExactSyncPolicy None None q) ops =
    (mkMembers None None q, []).
Proof.
  induction ops as [|[msg|] rest IH]; intro q; [reflexivity| |];
    cbn [steps step]; unfold deliver, flushCallbacks;
    cbn [approxSync_ exactSync_ queueSize_ app]; now rewrite IH.
Qed.

(** X11.  Whatever messages arrive and however often the synchronizers are
    flushed after [onOdomInit], the node keeps the kind of synchronizer it
    was initialized with and its queue size, and never has an approximate
    and an exact synchronizer at once.  A node initialized with
    [subscribe_rgbd] has no synchronizer, so for it a flush changes
    nothing and no tuple is ever signalled. *)
Theorem synchronizer_kind_is_kept (pnh : PrivateParams) (ops : list Op) :
  let m0 :=
    synchronizers
      (fst (onOdomInit (StereoOdometry_new MyApproxSyncPolicy MyExactSyncPolicy) pnh)) in
  let m := fst (steps m0 ops) in
  option_map (fun _ => tt) (approxSync_ m) =
    option_map (fun _ => tt) (approxSync_ m0) /\
  option_map (fun _ => tt) (exactSync_ m) =
    option_map (fun _ => tt) (exactSync_ m0) /\
  queueSize_ m = param (queue_size pnh) 5%Z /\
  (approxSync_ m = None \/ exactSync_ m = None) /\
  (param (subscribe_rgbd pnh) false = true -> steps m0 ops = (m0, [])).
Proof.
  intros m0 m.
  destruct (steps_kind ops m0) as (Ha & He & Hq). fold m in Ha, He, Hq.
  pose proof (onOdomInit_registers_one_entry_point pnh) as Hi.
  cbv zeta in Hi. fold m0 in Hi.
  destruct Hi as (_ & _ & Hia & Hie & Hiq & _).
  repeat split; try assumption.
  - congruence.
  - rewrite Hia in Ha. rewrite Hie in He.
    destruct (param (subscribe_rgbd pnh) false),
      (param (approx_sync pnh) false); cbn in Ha, He;
      destruct (approxSync_ m), (exactSync_ m); try discriminate; auto.
  - intro Hr. subst m0.
    unfold onOdomInit, StereoOdometry_new. rewrite Hr.
    cbn [fst synchronizers approxSync_ exactSync_ queueSize_].
    apply steps_without_synchronizer.
Qed.

End InitializationFacts.

(** X12.  [updateParameters] leaves a map in which Reg/Strategy is "0" and
    every other key, Rtabmap/ImagesAlreadyRectified among them, is as it
    was.  It warns exactly when the key was there with another value, and
    the warning quotes that value; applied to its own result it changes
    nothing and is silent. *)
Theorem updateParameters_forces_strategy (parameters : Parameters.ParametersMap) :
  let res := Parameters.updateParameters parameters in
  Parameters.find Parameters.kRegStrategy (fst res) = Some "0" /\
  (forall key, key <> Parameters.kRegStrategy ->
     Parameters.find key (fst res) = Parameters.find key parameters) /\
  Parameters.find Parameters.kRtabmapImagesAlreadyRectified (fst res) =
    Parameters.find Parameters.kRtabmapImagesAlreadyRectified parameters /\
  (snd res = [] <->
     Parameters.find Parameters.kRegStrategy parameters = None \/
     Parameters.find Parameters.kRegStrategy parameters = Some "0") /\
  (forall w, In w (snd res) ->
     exists value,
       w = Parameters.IgnoringRegStrategy value /\ snd res = [w] /\
       Parameters.find Parameters.kRegStrategy parameters = Some value /\
       value <> "0") /\
  Parameters.updateParameters (fst res) = (fst res, []).
Proof.
  cbv zeta. unfold Parameters.updateParameters, Parameters.find,
    Parameters.uInsert, Parameters.ParametersMap.
  cbn [fst snd].
  assert (Hne : forall key, key <> Parameters.kRegStrategy ->
            stdpp.base.lookup key
              (stdpp.base.insert (M := stdpp.gmap.gmap string string)
                 Parameters.kRegStrategy "0" parameters) =
            stdpp.base.lookup key parameters).
  { intros key Hk. apply stdpp.fin_maps.lookup_insert_ne. congruence. }
  split; [apply stdpp.fin_maps.lookup_insert_eq|].
  split; [exact Hne|].
  split; [apply Hne; discriminate|].
  split; [|split].
  - match goal with
    | |- context [match ?x with Some _ => _ | None => _ end] =>
        destruct x as [v|]
    end.
    + destruct (String.eqb_spec v "0") as [->|Hv]; cbn [negb].
      * split; auto.
      * split; [discriminate|]. intros [H|H]; [discriminate|]. congruence.
    + split; auto.
  - intros w Hw.
    match type of Hw with
    | context [match ?x with Some _ => _ | None => _ end] =>
        destruct x as [v|]
    end; [|contradiction].
    destruct (String.eqb_spec v "0") as [E|Hv]; cbn [negb] in *;
      [contradiction|].
    destruct Hw as [<-|[]]. exists v. now repeat split.
  - rewrite stdpp.fin_maps.lookup_insert_eq, stdpp.fin_maps.insert_insert_eq.
    reflexivity.
Qed.

(** * The claims on concrete inputs *)

#[local] Existing Instance Demo.collaborators.

(** C1 on a right camera info without Tx: the frame goes out with the
    baseline of the TF tree, on both paths; a baseline of 2^-20 m is left
    alone; three such frames in a row warn once. *)
Lemma fallback_baseline_recovery_witness :
  dispatched (snd (exec (callback Demo.rectified Demo.left_mono8
                           Demo.right_mono8 Demo.info_left Demo.info_right_noTx)
                     Statics_init)) =
    [frame_callback Demo.rectified Demo.left_mono8 Demo.right_mono8
       (StereoCameraModel.mk 500 500 320 240 0.0625 Demo.body (640, 480)%Z)] /\
  dispatched (snd (exec (callbackRGBD Demo.rectified
                           (Demo.rgbd Demo.left_mono8 Demo.right_mono8
                              Demo.info_left Demo.info_right_noTx))
                     Statics_init)) =
    [frame_callbackRGBD Demo.rectified
       (Demo.rgbd Demo.left_mono8 Demo.right_mono8 Demo.info_left
          Demo.info_right_noTx)
       (StereoCameraModel.mk 500 500 320 240 0.0625 Demo.body (640, 480)%Z)] /\
  filter isFallbackWarning
    (snd (exec (callback Demo.rectified Demo.left_mono8 Demo.right_mono8
                  Demo.info_left Demo.info_right_tiny) Statics_init)) = [] /\
  List.length
    (filter isFallbackWarning
       (lifetime (FourStream [(Demo.rectified, Demo.noTx);
                              (Demo.rectified, Demo.noTx);
                              (Demo.rectified, Demo.noTx)]))) = 1%nat.
Proof.
  destruct (@fallback_baseline_recovery Demo.collaborators)
    as (A & A' & B & B' & L & _).
  split; [|split; [|split]].
  - exact (A Demo.rectified Demo.left_mono8 Demo.right_mono8 Demo.info_left
             Demo.info_right_noTx Statics_init
             eq_refl eq_refl eq_refl eq_refl eq_refl).
  - exact (A' Demo.rectified
             (Demo.rgbd Demo.left_mono8 Demo.right_mono8 Demo.info_left
                Demo.info_right_noTx) Statics_init
             eq_refl eq_refl eq_refl eq_refl eq_refl).
  - exact (proj1 (proj2 (B Demo.rectified Demo.left_mono8 Demo.right_mono8
                           Demo.info_left Demo.info_right_tiny Statics_init
                           eq_refl))).
  - exact (L (FourStream [(Demo.rectified, Demo.noTx);
                          (Demo.rectified, Demo.noTx);
                          (Demo.rectified, Demo.noTx)])).
Defined.

(** C3 on a mono16, an rgb8 and a mono8 left image. *)
Lemma left_image_normalization_witness :
  (ptrImageLeft_callback true Demo.left_mono16 =
     CvImage.mk (header Demo.left_mono16) "mono8"
       (cvtPixels MONO16 "mono8" (data Demo.left_mono16)) /\
   ptrImageLeft_callback false Demo.left_mono16 =
     CvImage.mk (header Demo.left_mono16) "mono8"
       (cvtPixels MONO16 "mono8" (data Demo.left_mono16))) /\
  (CvImage.encoding (ptrImageLeft_callback true Demo.left_rgb8) = "bgr8" /\
   CvImage.encoding (ptrImageLeft_callback false Demo.left_rgb8) = "mono8") /\
  ptrImageLeft_callbackRGBD true (Demo.asCvImage Demo.left_mono8) =
    Demo.asCvImage Demo.left_mono8 /\
  imageRaw
    (mkSensorData [1; 2; 3; 4]%N [5; 6; 7; 8]%N
       (StereoCameraModel.mk 500 500 320 240 0.125 Demo.body (640, 480)%Z)
       0 100) =
    CvImage.image (ptrImageLeft_callback false Demo.left_mono8).
Proof.
  destruct (@left_image_normalization Demo.collaborators) as (D & D' & N & N').
  split; [|split; [|split]].
  - split.
    + exact (proj1 (proj2 (N true Demo.left_mono16)) eq_refl).
    + exact (proj1 (proj2 (N false Demo.left_mono16)) eq_refl).
  - split.
    + exact (f_equal CvImage.encoding
               (proj2 (proj2 (N true Demo.left_rgb8))
                  (or_intror (or_introl eq_refl)))).
    + exact (f_equal CvImage.encoding
               (proj2 (proj2 (N false Demo.left_rgb8))
                  (or_intror (or_introl eq_refl)))).
  - exact (proj1 (N' true (Demo.asCvImage Demo.left_mono8)) (or_intror eq_refl)).
  - exact (D Demo.rectified Demo.left_mono8 Demo.right_mono8 Demo.info_left
             Demo.info_right Statics_init _ (Header.mk Demo.t_right "left_optical")
             (or_intror (or_intror (or_introl eq_refl)))).
Defined.

(** C5 on camera infos given in the wrong order (baseline -0.125 m). *)
Lemma invalid_baseline_dropped_witness :
  (dispatched (snd (exec (callback Demo.rectified Demo.left_mono8
                            Demo.right_mono8 Demo.info_left
                            Demo.info_right_swapped) Statics_init)) = [] /\
   diagnostics (snd (exec (callback Demo.rectified Demo.left_mono8
                             Demo.right_mono8 Demo.info_left
                             Demo.info_right_swapped) Statics_init)) =
     [Log Error (InvalidBaseline (-0.125))]) /\
  (dispatched (snd (exec (callbackRGBD Demo.rectified
                            (Demo.rgbd Demo.left_mono8 Demo.right_mono8
                               Demo.info_left Demo.info_right_swapped))
                      Statics_init)) = [] /\
   diagnostics (snd (exec (callbackRGBD Demo.rectified
                             (Demo.rgbd Demo.left_mono8 Demo.right_mono8
                                Demo.info_left Demo.info_right_swapped))
                       Statics_init)) =
     [Log Error (InvalidBaseline (-0.125))]).
Proof.
  destruct (@invalid_baseline_dropped Demo.collaborators) as (A & A').
  split.
  - destruct (A Demo.rectified Demo.left_mono8 Demo.right_mono8
                Demo.info_left Demo.info_right_swapped Statics_init
                eq_refl eq_refl eq_refl) as (H1 & H2 & _).
    exact (conj H1 H2).
  - destruct (A' Demo.rectified
                (Demo.rgbd Demo.left_mono8 Demo.right_mono8 Demo.info_left
                   Demo.info_right_swapped) Statics_init
                eq_refl eq_refl eq_refl) as (H1 & H2 & _).
    exact (conj H1 H2).
Defined.

(** C6 on a yuv422 left image. *)
Lemma unsupported_encoding_dropped_witness :
  snd (exec (callback Demo.rectified Demo.left_yuv Demo.right_mono8
               Demo.info_left Demo.info_right) Statics_init) =
    [CallbackCalled; Log Error (UnsupportedEncoding "yuv422" "mono8")] /\
  snd (exec (callbackRGBD Demo.rectified
               (Demo.rgbd Demo.left_yuv Demo.right_mono8 Demo.info_left
                  Demo.info_right)) Statics_init) =
    [CallbackCalled; Log Error (UnsupportedEncoding "yuv422" "mono8")].
Proof.
  assert (Hout : ~ In "yuv422" [TYPE_8UC1; MONO8; MONO16; BGR8; RGB8; BGRA8; RGBA8]).
  { cbn. intros [H|[H|[H|[H|[H|[H|[H|[]]]]]]]]; discriminate H. }
  destruct (@unsupported_encoding_dropped Demo.collaborators) as (A & A').
  split.
  - exact (proj2 (proj2 (A Demo.rectified Demo.left_yuv Demo.right_mono8
                           Demo.info_left Demo.info_right Statics_init
                           (or_introl Hout))) eq_refl).
  - exact (proj2 (proj2 (A' Demo.rectified
                           (Demo.rgbd Demo.left_yuv Demo.right_mono8
                              Demo.info_left Demo.info_right) Statics_init
                           (or_introl Hout))) eq_refl).
Defined.

(** C7 on a baseline of 12 m: dispatched, and warned about once in three
    frames. *)
Lemma large_baseline_accepted_witness :
  dispatched (snd (exec (callback Demo.rectified Demo.left_mono8
                           Demo.right_mono8 Demo.info_left Demo.info_right_far)
                     Statics_init)) =
    [frame_callback Demo.rectified Demo.left_mono8 Demo.right_mono8
       (StereoCameraModel.mk 500 500 320 240 12 Demo.body (640, 480)%Z)] /\
  dispatched (snd (exec (callbackRGBD Demo.rectified
                           (Demo.rgbd Demo.left_mono8 Demo.right_mono8
                              Demo.info_left Demo.info_right_far))
                     Statics_init)) =
    [frame_callbackRGBD Demo.rectified
       (Demo.rgbd Demo.left_mono8 Demo.right_mono8 Demo.info_left
          Demo.info_right_far)
       (StereoCameraModel.mk 500 500 320 240 12 Demo.body (640, 480)%Z)] /\
  (List.length
     (filter isLargeBaselineWarning
        (lifetime (FourStream [(Demo.rectified, Demo.far);
                               (Demo.rectified, Demo.far);
                               (Demo.rectified, Demo.far)]))) <= 1)%nat.
Proof.
  destruct (@large_baseline_accepted Demo.collaborators) as (A & A' & L & _).
  split; [|split].
  - exact (proj1 (A Demo.rectified Demo.left_mono8 Demo.right_mono8
                    Demo.info_left Demo.info_right_far Statics_init
                    eq_refl eq_refl eq_refl)).
  - exact (proj1 (A' Demo.rectified
                    (Demo.rgbd Demo.left_mono8 Demo.right_mono8 Demo.info_left
                       Demo.info_right_far) Statics_init
                    eq_refl eq_refl eq_refl)).
  - exact (L (FourStream [(Demo.rectified, Demo.far);
                          (Demo.rectified, Demo.far);
                          (Demo.rectified, Demo.far)])).
Defined.

(** C8 on a left image stamped 100 s and a right image stamped 5 ns
    later. *)
Lemma frame_stamp_is_later_stamp_witness :
  (Demo.t_right = Demo.t_left \/ Demo.t_right = Demo.t_right) /\
  Time_gt Demo.t_left Demo.t_right = false /\
  Time_gt Demo.t_right Demo.t_right = false /\
  (Time_valid Demo.t_left -> Time_valid Demo.t_right ->
   toNSec Demo.t_right = Z.max (toNSec Demo.t_left) (toNSec Demo.t_right)) /\
  (100%float = timestampFromROS Demo.t_right) /\
  In (TfLookup "base_link" "left_optical" Demo.t_right)
     (snd (exec (callback Demo.rectified Demo.left_mono8 Demo.right_mono8
                   Demo.info_left Demo.info_right) Statics_init)).
Proof.
  exact (proj1 (@frame_stamp_is_later_stamp Demo.collaborators)
           Demo.rectified Demo.left_mono8 Demo.right_mono8 Demo.info_left
           Demo.info_right Statics_init
           (mkSensorData [1; 2; 3; 4]%N [5; 6; 7; 8]%N
              (StereoCameraModel.mk 500 500 320 240 0.125 Demo.body (640, 480)%Z)
              0 100)
           (Header.mk Demo.t_right "left_optical")
           (or_intror (or_intror (or_introl eq_refl)))).
Defined.

(** C10 on a TF tree without the body frame and a left image without data:
    the call ends after the lookup; with the body frame known the same
    tuple gets the empty-image warning. *)
Lemma body_lookup_precedes_empty_check_witness :
  exec (callback Demo.lost Demo.left_nodata Demo.right_mono8
          Demo.info_left Demo.info_right) Statics_init =
    (Statics_init,
     [CallbackCalled; TfLookup "base_link" "left_optical" Demo.t_right]) /\
  filter isEmptyImageWarning
    (snd (exec (callback Demo.lost Demo.left_nodata Demo.right_mono8
                  Demo.info_left Demo.info_right) Statics_init)) = [] /\
  (reachesLookup_callback Demo.rectified Demo.left_nodata Demo.right_mono8 = true /\
   isNull (bodyTransform_callback Demo.rectified Demo.left_nodata
             Demo.right_mono8) = false).
Proof.
  destruct (@body_lookup_precedes_empty_check Demo.collaborators) as (A & A' & B).
  split; [|split].
  - exact (A Demo.lost Demo.left_nodata Demo.right_mono8 Demo.info_left
             Demo.info_right Statics_init eq_refl eq_refl).
  - exact (proj2 (A' Demo.lost Demo.left_nodata Demo.right_mono8 Demo.info_left
                    Demo.info_right Statics_init eq_refl)).
  - exact (B Demo.rectified Demo.left_nodata Demo.right_mono8
             Demo.info_left Demo.info_right Statics_init
             (or_intror (or_intror (or_introl eq_refl)))).
Defined.

(** C2 on the composite path, with images that are not rectified and a TF
    tree that answers the identity between the two cameras: the frame is
    handed to the estimator and no error is logged, where the four-stream
    path, given the same messages, logs the degenerate-transform error and
    drops the frame. *)
Theorem callbackRGBD_accepts_identity_calibration :
  let n := Demo.unrectified_identity in
  let img := Demo.rgbd Demo.left_mono8 Demo.right_mono8 Demo.info_left
               Demo.info_right in
  alreadyRectified n = false /\
  isNull (calibration_callbackRGBD n img) = false /\
  isIdentity (calibration_callbackRGBD n img) = true /\
  diagnostics (snd (exec (callbackRGBD n img) Statics_init)) = [] /\
  dispatched (snd (exec (callbackRGBD n img) Statics_init)) =
    [frame_callbackRGBD n img (derivedModel_callbackRGBD n img)] /\
  diagnostics (snd (exec (callback n Demo.left_mono8 Demo.right_mono8
                            Demo.info_left Demo.info_right) Statics_init)) =
    [Log Error DegenerateCalibrationTransform] /\
  dispatched (snd (exec (callback n Demo.left_mono8 Demo.right_mono8
                           Demo.info_left Demo.info_right) Statics_init)) = [].
Proof. vm_compute. repeat split. Qed.

(** C4 on the composite path, with a mono8 left image and a bgr8 right
    image: the right image reaches the estimator as the three-channel bgr8
    image it came as, with or without keep-color, where the four-stream
    path, given the same images, converts it to mono8. *)
Theorem callbackRGBD_right_image_keeps_color :
  let img := Demo.rgbd Demo.left_mono8 Demo.right_bgr8 Demo.info_left
               Demo.info_right in
  let right := imageRectRight_RGBD img in
  CvImage.encoding right = "bgr8" /\
  ptrImageRight_callbackRGBD (imageRectLeft_RGBD img) right = right /\
  (forall keepColor,
     dispatched (snd (exec (callbackRGBD (Demo.node None keepColor Demo.tree) img)
                        Statics_init)) =
       [ProcessData
          (mkSensorData [1; 2; 3; 4]%N [9; 8; 7; 6; 5; 4]%N
             (StereoCameraModel.mk 500 500 320 240 0.125 Demo.body (640, 480)%Z)
             0 100)
          (Header.mk Demo.t_right "left_optical")]) /\
  CvImage.encoding (ptrImageRight_callback Demo.right_bgr8) = "mono8" /\
  (forall keepColor,
     dispatched (snd (exec (callback (Demo.node None keepColor Demo.tree)
                              Demo.left_mono8 Demo.right_bgr8 Demo.info_left
                              Demo.info_right) Statics_init)) =
       [ProcessData
          (mkSensorData [1; 2; 3; 4]%N [9; 6]%N
             (StereoCameraModel.mk 500 500 320 240 0.125 Demo.body (640, 480)%Z)
             0 100)
          (Header.mk Demo.t_right "left_optical")]).
Proof.
  cbv zeta. repeat split; try (intros []); vm_compute; reflexivity.
Qed.

(** C9 on an exact-time synchronizer: a left image arrives, then the
    synchronizers are flushed, then the three other messages of the same
    stamp arrive.  No tuple is signalled; without the flush the four
    messages make one. *)
Example flush_separates_deliveries :
  let t := Demo.t_left in
  let left := LeftImage Demo.left_mono8 in
  let others :=
    [RightImage (Demo.img "right_optical" MONO8 t [5; 6; 7; 8]%N);
     LeftInfo Demo.info_left;
     RightInfo (Demo.info "right_optical" t (-62.5)%float)] in
  pendingOf (fst (deliverAll Demo.exactNode [left])) = [left] /\
  snd (deliverAll (flushCallbacks (fst (deliverAll Demo.exactNode [left]))) others) = [] /\
  List.length (snd (deliverAll Demo.exactNode (left :: others))) = 1%nat.
Proof. vm_compute. repeat split. Qed.

(** C1, against "exactly once across all calls in the process lifetime":
    two nodelets in one process, one subscribed to the four streams and one
    to the composite message, each receive one frame whose right camera
    info has no Tx while TF knows a left-to-right translation of 0.0625 m.
    [callback] logs the fallback warning and sets its flag (lines 242-251),
    [callbackRGBD] then finds its own flag clear and logs it again (lines
    381-390): twice in the process, not once. *)
Lemma fallback_warning_twice_in_one_process :
  filter isFallbackWarning
    (allEvents
       (run_process
          [CallbackCall Demo.rectified Demo.noTx;
           CallbackRGBDCall Demo.rectified
             (Demo.rgbd Demo.left_mono8 Demo.right_mono8 Demo.info_left
                Demo.info_right_noTx)]
          Statics_init Statics_init)) =
    [Log Warn (FallbackBaseline 0.0625); Log Warn (FallbackBaseline 0.0625)] /\
  List.length
    (filter isFallbackWarning
       (allEvents
          (run_process
             [CallbackCall Demo.rectified Demo.noTx;
              CallbackRGBDCall Demo.rectified
                (Demo.rgbd Demo.left_mono8 Demo.right_mono8 Demo.info_left
                   Demo.info_right_noTx)]
             Statics_init Statics_init))) <> 1%nat.
Proof. split; [vm_compute; reflexivity | vm_compute; discriminate]. Qed.

(** C7, against "at most once over the process lifetime": the same two
    nodelets each receive one frame with a baseline of 12 m.  [callback]
    logs the large-baseline warning and sets its flag (lines 272-280),
    [callbackRGBD] then finds its own flag clear and logs it again (lines
    411-419): twice in the process, and both frames go to the estimator. *)
Lemma large_baseline_warning_twice_in_one_process :
  filter isLargeBaselineWarning
    (allEvents
       (run_process
          [CallbackCall Demo.rectified Demo.far;
           CallbackRGBDCall Demo.rectified
             (Demo.rgbd Demo.left_mono8 Demo.right_mono8 Demo.info_left
                Demo.info_right_far)]
          Statics_init Statics_init)) =
    [Log Warn (LargeBaseline 12); Log Warn (LargeBaseline 12)] /\
  ~ (List.length
       (filter isLargeBaselineWarning
          (allEvents
             (run_process
                [CallbackCall Demo.rectified Demo.far;
                 CallbackRGBDCall Demo.rectified
                   (Demo.rgbd Demo.left_mono8 Demo.right_mono8 Demo.info_left
                      Demo.info_right_far)]
                Statics_init Statics_init))) <= 1)%nat /\
  List.length
    (dispatched
       (allEvents
          (run_process
             [CallbackCall Demo.rectified Demo.far;
              CallbackRGBDCall Demo.rectified
                (Demo.rgbd Demo.left_mono8 Demo.right_mono8 Demo.info_left
                   Demo.info_right_far)]
             Statics_init Statics_init))) = 2%nat.
Proof.
  split; [vm_compute; reflexivity|].
  split; [vm_compute; lia | vm_compute; reflexivity].
Qed.

(** Two nodelets in one process, one on each entry point, both fed a
    baseline of 12 m: the large-baseline warning is logged twice, once by
    each callback. *)
Example both_entry_points_warn :
  filter isLargeBaselineWarning
    (allEvents
       (run_process
          [CallbackCall Demo.rectified Demo.far;
           CallbackRGBDCall Demo.rectified
             (Demo.rgbd Demo.left_mono8 Demo.right_mono8 Demo.info_left
                Demo.info_right_far);
           CallbackCall Demo.rectified Demo.far;
           CallbackRGBDCall Demo.rectified
             (Demo.rgbd Demo.left_mono8 Demo.right_mono8 Demo.info_left
                Demo.info_right_far)]
          Statics_init Statics_init)) =
    [Log Warn (LargeBaseline 12); Log Warn (LargeBaseline 12)].
Proof. vm_compute. reflexivity. Qed.

(** * The further properties on concrete inputs *)

(** X2 on a paused node, and on a run with a paused call between two
    others. *)
Lemma paused_callbacks_do_nothing_witness :
  exec (callback Cases.paused Demo.left_mono8 Demo.right_mono8 Demo.info_left
          Demo.info_right_far) Statics_init =
    (Statics_init, [CallbackCalled]) /\
  exec (callbackRGBD Cases.paused
          (Demo.rgbd Demo.left_mono8 Demo.right_mono8 Demo.info_left
             Demo.info_right_far)) Statics_init =
    (Statics_init, [CallbackCalled]) /\
  fst (run_callback [(Demo.rectified, Demo.noTx); (Cases.paused, Demo.far);
                     (Demo.rectified, Cases.good)] Statics_init) =
  fst (run_callback (filter running
                       [(Demo.rectified, Demo.noTx); (Cases.paused, Demo.far);
                        (Demo.rectified, Cases.good)]) Statics_init).
Proof.
  destruct (@paused_callbacks_do_nothing Demo.collaborators)
    as (A & A' & R & _).
  split; [|split].
  - exact (A Cases.paused Demo.left_mono8 Demo.right_mono8 Demo.info_left
             Demo.info_right_far Statics_init eq_refl).
  - exact (A' Cases.paused
             (Demo.rgbd Demo.left_mono8 Demo.right_mono8 Demo.info_left
                Demo.info_right_far) Statics_init eq_refl).
  - exact (proj1 (R [(Demo.rectified, Demo.noTx); (Cases.paused, Demo.far);
                     (Demo.rectified, Cases.good)] Statics_init)).
Defined.

(** X3 on a left image without data. *)
Lemma empty_image_dropped_witness :
  exec (callback Demo.rectified Demo.left_nodata Demo.right_mono8
          Demo.info_left Demo.info_right) Statics_init =
    (Statics_init,
     [CallbackCalled; TfLookup "base_link" "left_optical" Demo.t_right;
      Log Warn EmptyImage]) /\
  exec (callbackRGBD Demo.rectified
          (Demo.rgbd Demo.left_nodata Demo.right_mono8 Demo.info_left
             Demo.info_right)) Statics_init =
    (Statics_init,
     [CallbackCalled; TfLookup "base_link" "left_optical" Demo.t_right;
      Log Warn EmptyImage]).
Proof.
  destruct (@empty_image_dropped Demo.collaborators) as (A & A').
  split.
  - exact (A Demo.rectified Demo.left_nodata Demo.right_mono8 Demo.info_left
             Demo.info_right Statics_init eq_refl eq_refl eq_refl).
  - exact (A' Demo.rectified
             (Demo.rgbd Demo.left_nodata Demo.right_mono8 Demo.info_left
                Demo.info_right) Statics_init eq_refl eq_refl eq_refl).
Defined.

(** X4 on a frame that goes through. *)
Lemma one_outcome_per_activation_witness :
  List.last
    (snd (exec (callback Demo.rectified Demo.left_mono8 Demo.right_mono8
                  Demo.info_left Demo.info_right) Statics_init))
    CallbackCalled =
    ProcessData
      (mkSensorData [1; 2; 3; 4]%N [5; 6; 7; 8]%N
         (StereoCameraModel.mk 500 500 320 240 0.125 Demo.body (640, 480)%Z)
         0 100)
      (Header.mk Demo.t_right "left_optical") /\
  filter isError
    (snd (exec (callbackRGBD Demo.rectified
                  (Demo.rgbd Demo.left_mono8 Demo.right_mono8 Demo.info_left
                     Demo.info_right)) Statics_init)) = [].
Proof.
  destruct (@one_outcome_per_activation Demo.collaborators) as (A & A' & _).
  split.
  - exact (proj1 (proj2
             (A Demo.rectified Demo.left_mono8 Demo.right_mono8 Demo.info_left
                Demo.info_right Statics_init
                (mkSensorData [1; 2; 3; 4]%N [5; 6; 7; 8]%N
                   (StereoCameraModel.mk 500 500 320 240 0.125 Demo.body
                      (640, 480)%Z) 0 100)
                (Header.mk Demo.t_right "left_optical")
                (or_intror (or_intror (or_introl eq_refl)))))).
  - exact (proj1 (proj2 (proj2
             (A' Demo.rectified
                (Demo.rgbd Demo.left_mono8 Demo.right_mono8 Demo.info_left
                   Demo.info_right) Statics_init
                (mkSensorData [1; 2; 3; 4]%N [5; 6; 7; 8]%N
                   (StereoCameraModel.mk 500 500 320 240 0.125 Demo.body
                      (640, 480)%Z) 0 100)
                (Header.mk Demo.t_right "left_optical")
                (or_intror (or_intror (or_introl eq_refl))))))).
Defined.


(** X6 on a right camera info whose Tx is not a number. *)
Lemma nan_baseline_unchecked_witness :
  (List.length
     (dispatched
        (snd (exec (callback Demo.rectified Demo.left_mono8 Demo.right_mono8
                      Demo.info_left Cases.info_right_nan) Statics_init))) = 1%nat /\
   diagnostics
     (snd (exec (callback Demo.rectified Demo.left_mono8 Demo.right_mono8
                   Demo.info_left Cases.info_right_nan) Statics_init)) = []) /\
  diagnostics
    (snd (exec (callbackRGBD Demo.rectified
                  (Demo.rgbd Demo.left_mono8 Demo.right_mono8 Demo.info_left
                     Cases.info_right_nan)) Statics_init)) = [].
Proof.
  destruct (@nan_baseline_unchecked Demo.collaborators) as (A & A').
  split; [split|].
  - exact (f_equal (@List.length Event)
             (proj1 (A Demo.rectified Demo.left_mono8 Demo.right_mono8
                       Demo.info_left Cases.info_right_nan Statics_init
                       eq_refl eq_refl eq_refl))).
  - exact (proj1 (proj2 (A Demo.rectified Demo.left_mono8 Demo.right_mono8
                           Demo.info_left Cases.info_right_nan Statics_init
                           eq_refl eq_refl eq_refl))).
  - exact (proj1 (proj2 (A' Demo.rectified
                           (Demo.rgbd Demo.left_mono8 Demo.right_mono8
                              Demo.info_left Cases.info_right_nan)
                           Statics_init eq_refl eq_refl eq_refl))).
Defined.

(** X7 on a bgr8 right image. *)
Lemma keep_color_reaches_left_image_only_witness :
  rightRaw
    (mkSensorData [1; 2; 3; 4]%N [9; 6]%N
       (StereoCameraModel.mk 500 500 320 240 0.125 Demo.body (640, 480)%Z)
       0 100) =
    CvImage.image (ptrImageRight_callback Demo.right_bgr8) /\
  (CvImage.encoding (ptrImageRight_callback Demo.right_bgr8) = TYPE_8UC1 \/
   CvImage.encoding (ptrImageRight_callback Demo.right_bgr8) = MONO8).
Proof.
  exact (proj2 (proj2 (@keep_color_reaches_left_image_only Demo.collaborators))
           (Demo.node None true Demo.tree) Demo.left_mono8 Demo.right_bgr8
           Demo.info_left Demo.info_right Statics_init
           (mkSensorData [1; 2; 3; 4]%N [9; 6]%N
              (StereoCameraModel.mk 500 500 320 240 0.125 Demo.body (640, 480)%Z)
              0 100)
           (Header.mk Demo.t_right "left_optical")
           (or_intror (or_intror (or_introl eq_refl)))).
Defined.

(** X8 on a TF tree without the cameras, and on one that answers the
    identity. *)
Lemma uncalibrated_pair_dropped_witness :
  exec (callback Cases.unrectified_uncalibrated Demo.left_mono8
          Demo.right_mono8 Demo.info_left Demo.info_right) Statics_init =
    (Statics_init,
     [CallbackCalled; TfLookup "base_link" "left_optical" Demo.t_right;
      TfLookup "right_optical" "left_optical" Demo.t_left;
      Log Error MissingCalibrationTransform]) /\
  exec (callback Demo.unrectified_identity Demo.left_mono8 Demo.right_mono8
          Demo.info_left Demo.info_right) Statics_init =
    (Statics_init,
     [CallbackCalled; TfLookup "base_link" "left_optical" Demo.t_right;
      TfLookup "right_optical" "left_optical" Demo.t_left;
      Log Error DegenerateCalibrationTransform]) /\
  exec (callbackRGBD Cases.unrectified_uncalibrated
          (Demo.rgbd Demo.left_mono8 Demo.right_mono8 Demo.info_left
             Demo.info_right)) Statics_init =
    (Statics_init,
     [CallbackCalled; TfLookup "base_link" "left_optical" Demo.t_right;
      TfLookup "right_optical" "left_optical" Demo.t_left;
      Log Error MissingCalibrationTransform]).
Proof.
  destruct (@uncalibrated_pair_dropped Demo.collaborators) as (A & B & A').
  split; [|split].
  - exact (A Cases.unrectified_uncalibrated Demo.left_mono8 Demo.right_mono8
             Demo.info_left Demo.info_right Statics_init
             eq_refl eq_refl eq_refl).
  - exact (B Demo.unrectified_identity Demo.left_mono8 Demo.right_mono8
             Demo.info_left Demo.info_right Statics_init
             eq_refl eq_refl eq_refl eq_refl).
  - exact (A' Cases.unrectified_uncalibrated
             (Demo.rgbd Demo.left_mono8 Demo.right_mono8 Demo.info_left
                Demo.info_right) Statics_init eq_refl eq_refl eq_refl).
Defined.

(** X11 on a node initialized for the composite message: a flush and a
    delivery leave it as it was. *)
Lemma synchronizer_kind_is_kept_witness :
  steps
    (synchronizers
       (fst (onOdomInit (StereoOdometry_new Demo.exactTime Demo.exactTime)
               Cases.rgb_params)))
    [Flush; Deliver (LeftImage Demo.left_mono8); Flush] =
    (synchronizers
       (fst (onOdomInit (StereoOdometry_new Demo.exactTime Demo.exactTime)
               Cases.rgb_params)), []).
Proof.
  exact (proj2 (proj2 (proj2 (proj2
           (synchronizer_kind_is_kept Demo.exactTime Demo.exactTime
              Cases.rgb_params
              [Flush; Deliver (LeftImage Demo.left_mono8); Flush]))))
           eq_refl).
Defined.

(** X12 on parameters that ask for Reg/Strategy 1 and say that the images
    are not rectified. *)
Lemma updateParameters_forces_strategy_witness :
  Parameters.find "Rtabmap/ImagesAlreadyRectified"
    (fst (Parameters.updateParameters Cases.icp_parameters)) =
    Parameters.find "Rtabmap/ImagesAlreadyRectified" Cases.icp_parameters /\
  exists value,
    Parameters.IgnoringRegStrategy "1" = Parameters.IgnoringRegStrategy value /\
    snd (Parameters.updateParameters Cases.icp_parameters) =
      [Parameters.IgnoringRegStrategy "1"] /\
    Parameters.find Parameters.kRegStrategy Cases.icp_parameters = Some value /\
    value <> "0".
Proof.
  destruct (updateParameters_forces_strategy Cases.icp_parameters)
    as (_ & Hk & _ & _ & Hw & _).
  split.
  - apply Hk. discriminate.
  - apply Hw. vm_compute. now left.
Defined.

(** X13 on a node whose TF tree knows nothing. *)
Lemma callbackRGBD_body_lookup_required_witness :
  exec (callbackRGBD Demo.lost
          (Demo.rgbd Demo.left_nodata Demo.right_mono8 Demo.info_left
             Demo.info_right)) Statics_init =
    (Statics_init,
     [CallbackCalled; TfLookup "base_link" "left_optical" Demo.t_right]).
Proof.
  exact (proj1 (@callbackRGBD_body_lookup_required Demo.collaborators)
           Demo.lost
           (Demo.rgbd Demo.left_nodata Demo.right_mono8 Demo.info_left
              Demo.info_right) Statics_init eq_refl eq_refl).
Defined.

(** X14 on a right camera info without Tx and a TF tree that does not know
    the cameras. *)
Lemma failed_fallback_dropped_witness :
  exec (callback Cases.rectified_uncalibrated Demo.left_mono8
          Demo.right_mono8 Demo.info_left Demo.info_right_noTx) Statics_init =
    (Statics_init,
     [CallbackCalled; TfLookup "base_link" "left_optical" Demo.t_right;
      TfLookup "left_optical" "right_optical" Demo.t_left;
      Log Error (InvalidBaseline (-0)%float)]) /\
  snd (exec (callbackRGBD Cases.rectified_uncalibrated
               (Demo.rgbd Demo.left_mono8 Demo.right_mono8 Demo.info_left
                  Demo.info_right_noTx)) Statics_init) =
    [CallbackCalled; TfLookup "base_link" "left_optical" Demo.t_right;
     TfLookup "left_optical" "right_optical" Demo.t_left;
     Log Error (InvalidBaseline (-0)%float)].
Proof.
  destruct (@failed_fallback_dropped Demo.collaborators) as (A & A').
  split.
  - exact (A Cases.rectified_uncalibrated Demo.left_mono8 Demo.right_mono8
             Demo.info_left Demo.info_right_noTx Statics_init
             eq_refl eq_refl eq_refl (or_introl eq_refl)).
  - exact (f_equal snd
             (A' Cases.rectified_uncalibrated
                (Demo.rgbd Demo.left_mono8 Demo.right_mono8 Demo.info_left
                   Demo.info_right_noTx) Statics_init
                eq_refl eq_refl eq_refl (or_introl eq_refl))).
Defined.
